(** * MediaCrawler API server: crawler adapter, progress journal,
      cookie cache and login sessions

    A shallow embedding of
    - [app/crawler/adapter.py]   (class [MediaCrawlerAdapter]),
    - [app/core/logging.py]      (class [TaskLogger]),
    - [app/core/cookies_manager.py] (class [CookiesManager]),
    - [app/core/login_manager.py]  (classes [LoginSession], [LoginManager]),
    - the endpoints of [app/main.py] and [app/api/login.py] that work on
      tasks, journals, cached cookies and login sessions,
    together with the properties of the specification that concern them
    and further properties that the code shows.

    Conventions of the embedding.
    - A Python [str] is the list of its code points ([text]); literals are
      written [u "..."], the UTF-8 decoding of the Rocq literal.
    - A Python [float] is an exact rational ([Q]): neither the rounding
      nor the overflow of binary64 arithmetic is modelled.
    - Code that raises is modelled with the sum [pyresult]; [try/except]
      blocks are pattern matches on it.
    - Mutable objects live in finite maps (stdpp's [gmap]) that are threaded
      through the functions. *)

From Stdlib Require Import ZArith QArith Qround String List Lia Lqa DecimalString.
From stdpp Require Import base option list gmap strings sorting.

#[local] Open Scope Z_scope.

(** ** Python strings as code-point lists *)

Module Text.

Definition text := list Z.

(** The bytes of a literal. *)
Fixpoint bytes_of (s : string) : list Z :=
  match s with
  | EmptyString => []
  | String a s' => Z.of_N (Ascii.N_of_ascii a) :: bytes_of s'
  end.

(** UTF-8 decoding of a well-formed byte sequence (one to four bytes per
    code point).  Only used to write the literals of the source. *)
Fixpoint utf8_decode (bs : list Z) : text :=
  match bs with
  | [] => []
  | b0 :: r0 =>
      if b0 <? 128 then b0 :: utf8_decode r0
      else if b0 <? 224 then
        match r0 with
        | b1 :: r1 => ((b0 - 192) * 64 + (b1 - 128)) :: utf8_decode r1
        | _ => []
        end
      else if b0 <? 240 then
        match r0 with
        | b1 :: b2 :: r2 =>
            ((b0 - 224) * 4096 + (b1 - 128) * 64 + (b2 - 128)) :: utf8_decode r2
        | _ => []
        end
      else
        match r0 with
        | b1 :: b2 :: b3 :: r3 =>
            ((b0 - 240) * 262144 + (b1 - 128) * 4096 + (b2 - 128) * 64 + (b3 - 128))
              :: utf8_decode r3
        | _ => []
        end
  end.

Definition u (s : string) : text := utf8_decode (bytes_of s).
Arguments u s%_string.

(** [str(n)] for an [int]. *)
Definition str_int (n : Z) : text :=
  bytes_of (DecimalString.NilZero.string_of_int (Z.to_int n)).

(** [sep.join(xs)] *)
Fixpoint join (sep : text) (xs : list text) : text :=
  match xs with
  | [] => []
  | [x] => x
  | x :: rest => x ++ sep ++ join sep rest
  end.

(** The tables of the interpreter's Unicode database that [re] and [int]
    consult: the decimal value of a code point of category Nd, the
    white-space property and simple lower-casing (used by [re.IGNORECASE]).
    They belong to the Python runtime, not to this repository, and are a
    parameter of the embedding. *)
Class Unicode := {
  decimal : Z -> option N;
  whitespace : Z -> bool;
  lower : Z -> Z
}.

(** The restriction of those tables to ASCII, on which every Unicode
    version agrees; used to run the embedding on concrete output. *)
Definition ascii_decimal (c : Z) : option N :=
  if (48 <=? c) && (c <=? 57) then Some (Z.to_N (c - 48)) else None.

Definition ascii_whitespace (c : Z) : bool :=
  ((9 <=? c) && (c <=? 13)) || ((28 <=? c) && (c <=? 32)).

Definition ascii_lower (c : Z) : Z :=
  if (65 <=? c) && (c <=? 90) then c + 32 else c.

Definition ascii_tables : Unicode :=
  {| decimal := ascii_decimal; whitespace := ascii_whitespace; lower := ascii_lower |}.

Section WithUnicode.
Context {U : Unicode}.

Definition is_digit (c : Z) : bool :=
  match decimal c with Some _ => true | None => false end.

(** [int(s)] for a string of decimal digits; [None] is [ValueError]. *)
Fixpoint int_digits (acc : Z) (s : text) : option Z :=
  match s with
  | [] => Some acc
  | c :: s' =>
      match decimal c with
      | Some d => int_digits (acc * 10 + Z.of_N d) s'
      | None => None
      end
  end.

Definition py_int (s : text) : option Z :=
  match s with
  | [] => None
  | _ => int_digits 0 s
  end.

End WithUnicode.

End Text.

Export Text.

(** ** The fragment of Python's [re] that the adapter uses

    Every pattern of the source is a sequence of single-character atoms
    (a literal, [\d], [\s], [.] or the class [[:\s]]), each taken once or
    under [*], [+] or the lazy [*?]; a parenthesised group always holds one
    quantified atom.  Matching is the backtracking search of [re]: greedy
    quantifiers try the longest repetition first, lazy ones the shortest. *)

Module Re.

Inductive charclass :=
  | CLit (c : Z)      (* a literal character, compared under IGNORECASE *)
  | CDigit            (* \d *)
  | CSpace            (* \s *)
  | CAny              (* .  : anything but a newline *)
  | CColonSpace.      (* [:\s] *)

Inductive quant := Once | Star | Plus | LazyStar.

Inductive item :=
  | Atom (c : charclass) (q : quant)
  | Group (c : charclass) (q : quant).

Definition regex := list item.

Definition lit (s : text) : regex := map (fun c => Atom (CLit c) Once) s.

Definition sp : item := Atom CSpace Star.          (* \s*   *)
Definition digits : item := Group CDigit Plus.     (* (\d+) *)
Definition lazy_any : item := Atom CAny LazyStar.  (* .*?   *)

Section Matching.
Context {U : Unicode}.

Definition accepts (cl : charclass) (x : Z) : bool :=
  match cl with
  | CLit c => lower x =? lower c
  | CDigit => is_digit x
  | CSpace => whitespace x
  | CAny => negb (x =? 10)
  | CColonSpace => (x =? 58) || whitespace x
  end.

Section Repeat.
Context {A : Type} (p : Z -> bool) (k : text -> text -> option A).

(** [k taken rest] continues the match after the repetition consumed
    [taken]. *)
Fixpoint rep_greedy (taken s : text) : option A :=
  match s with
  | x :: s' =>
      if p x then
        match rep_greedy (taken ++ [x]) s' with
        | Some r => Some r
        | None => k taken s
        end
      else k taken s
  | [] => k taken s
  end.

Fixpoint rep_lazy (taken s : text) : option A :=
  match k taken s with
  | Some r => Some r
  | None =>
      match s with
      | x :: s' => if p x then rep_lazy (taken ++ [x]) s' else None
      | [] => None
      end
  end.

Definition rep (q : quant) (s : text) : option A :=
  match q with
  | Once => match s with x :: s' => if p x then k [x] s' else None | [] => None end
  | Star => rep_greedy [] s
  | Plus => match s with x :: s' => if p x then rep_greedy [x] s' else None | [] => None end
  | LazyStar => rep_lazy [] s
  end.

End Repeat.

(** A match anchored at the head of [s]: the groups, in order, and the
    text that follows the match. *)
Fixpoint match_here (r : regex) (s : text) : option (list text * text) :=
  match r with
  | [] => Some ([], s)
  | Atom c q :: r' => rep (accepts c) (fun _ rest => match_here r' rest) q s
  | Group c q :: r' =>
      rep (accepts c)
          (fun taken rest =>
             match match_here r' rest with
             | Some (gs, rest') => Some (taken :: gs, rest')
             | None => None
             end) q s
  end.

(** [re.search(r, s, re.IGNORECASE)]: the groups of the leftmost match. *)
Fixpoint search (r : regex) (s : text) : option (list text) :=
  match match_here r s with
  | Some (gs, _) => Some gs
  | None =>
      match s with
      | [] => None
      | _ :: s' => search r s'
      end
  end.

(** [re.findall(r, s, re.IGNORECASE)]: the groups of the successive
    non-overlapping matches, scanning from the left.  [skip] counts the
    characters of the previous match that are still to be passed over. *)
Fixpoint findall_from (r : regex) (skip : nat) (s : text) : list (list text) :=
  match skip with
  | S n =>
      match s with
      | [] => []
      | _ :: s' => findall_from r n s'
      end
  | O =>
      match match_here r s with
      | Some (gs, rest) =>
          gs :: match s with
                | [] => []
                | _ :: s' => findall_from r (length s - length rest - 1)%nat s'
                end
      | None =>
          match s with
          | [] => []
          | _ :: s' => findall_from r O s'
          end
      end
  end.

Definition findall (r : regex) (s : text) : list (list text) := findall_from r O s.

End Matching.

End Re.

Import Re.

(** ** Exceptions, state and the clock *)

Module Py.

Inductive pyexc :=
  | NameError (name : text)
  | AttributeError (attr : text)
  | KeyError (key : text)
  | TypeError (msg : text)
  | ValueError
  | ZeroDivisionError
  | OSError (msg : text)
  | HTTPException (status_code : Z) (detail : text)
  | CancelledError.

(** [except Exception] catches everything but [asyncio.CancelledError],
    which derives from [BaseException] (Python 3.8 and later). *)
Definition is_Exception (e : pyexc) : bool :=
  match e with
  | CancelledError => false
  | _ => true
  end.

(** [str(e)] *)
Definition exc_str (e : pyexc) : text :=
  match e with
  | NameError n => u "name '" ++ n ++ u "' is not defined"
  | AttributeError a => u "object has no attribute '" ++ a ++ u "'"
  | KeyError k => u "'" ++ k ++ u "'"
  | TypeError m => m
  | ValueError => u "invalid literal for int() with base 10"
  | ZeroDivisionError => u "division by zero"
  | OSError m => m
  | HTTPException c d => str_int c ++ u ": " ++ d
  | CancelledError => []
  end.

Inductive pyresult (A : Type) :=
  | Ret (a : A)
  | Raise (e : pyexc).
Arguments Ret {A} a.
Arguments Raise {A} e.

(** A computation over a mutable state [S]: mutations made before an
    exception is raised persist. *)
Definition py (S A : Type) : Type := S -> pyresult A * S.

Definition ret {S A} (a : A) : py S A := fun s => (Ret a, s).
Definition raise {S A} (e : pyexc) : py S A := fun s => (Raise e, s).
Definition bind {S A B} (m : py S A) (k : A -> py S B) : py S B :=
  fun s => match m s with
           | (Ret a, s') => k a s'
           | (Raise e, s') => (Raise e, s')
           end.
Definition get {S} : py S S := fun s => (Ret s, s).
Definition modify {S} (f : S -> S) : py S unit := fun s => (Ret tt, f s).
Definition lift {S A} (r : pyresult A) : py S A := fun s => (r, s).

(** [try: m  except Exception as e: h e] *)
Definition try_except {S A} (m : py S A) (h : pyexc -> py S A) : py S A :=
  fun s => match m s with
           | (Raise e, s') => if is_Exception e then h e s' else (Raise e, s')
           | r => r
           end.

(** Running a computation on a component of a larger state. *)
Definition zoom {W S A} (proj : W -> S) (upd : S -> W -> W) (m : py S A) : py W A :=
  fun w => match m (proj w) with (r, s') => (r, upd s' w) end.

Declare Scope py_scope.
Delimit Scope py_scope with py.
Notation "x <- m ;; k" := (bind m (fun x => k))
  (at level 100, m at next level, right associativity) : py_scope.
Notation "m ;; k" := (bind m (fun _ => k))
  (at level 100, right associativity) : py_scope.

(** [a / b] on two [int]s. *)
Definition int_truediv (a b : Z) : pyresult Q :=
  if b =? 0 then Raise ZeroDivisionError
  else Ret (Qmake (a * Z.sgn b) (Z.to_pos (Z.abs b))).

(** [int(x)] on a float: truncation towards zero. *)
Definition int_of_float (x : Q) : Z :=
  if Qle_bool 0 x then Qfloor x else Qceiling x.

(** [min(a, b)] returns its first argument unless the second is smaller. *)
Definition py_min (a b : Q) : Q := if Qle_bool a b then a else b.

End Py.

Export Py.
#[local] Open Scope py_scope.

(** ** [app/core/logging.py]: the per-task event journal *)

Module Logging.

(** The values that occur in event data, result dicts and the JSON files
    of the cookie cache.  [VDate t] is the local time [t] rendered by
    [strftime]; [VOther] stands for any other JSON array or object, of
    which only the truth value is ever inspected. *)
Inductive pyval :=
  | VNone
  | VBool (b : bool)
  | VInt (n : Z)
  | VFloat (x : Q)
  | VStr (t : text)
  | VList (ts : list text)
  | VDate (t : Q)
  | VOther (truthy : bool).

(** [bool(v)] *)
Definition truthy (v : pyval) : bool :=
  match v with
  | VNone => false
  | VBool b => b
  | VInt n => negb (n =? 0)
  | VFloat x => negb (Qeq_bool x 0)
  | VStr t => match t with [] => false | _ => true end
  | VList ts => match ts with [] => false | _ => true end
  | VDate _ => true
  | VOther b => b
  end.

(** Formatted strings keep their non-string fields symbolic. *)
Inductive piece :=
  | PText (t : text)
  | PFloat1 (x : Q)         (* {x:.1f} *)
  | PValue (v : pyval).     (* {v} *)

Definition fstring := list piece.
Definition txt (t : text) : fstring := [PText t].

(** A dict literal with string keys. *)
Definition pydict := list (text * pyval).

Fixpoint dict_get (d : pydict) (k : text) : option pyval :=
  match d with
  | [] => None
  | (k', v) :: d' => if bool_decide (k' = k) then Some v else dict_get d' k
  end.

(** [d[k]] *)
Definition getitem (d : pydict) (k : text) : pyresult pyval :=
  match dict_get d k with
  | Some v => Ret v
  | None => Raise (KeyError k)
  end.

Inductive TaskEventType :=
  | TASK_CREATED | TASK_STARTED | TASK_PROGRESS | TASK_COMPLETED | TASK_FAILED
  | TASK_STOPPED | CRAWLER_LOGIN | CRAWLER_ERROR | DATA_EXTRACTED | DATA_SAVED.

Record TaskProgress := {
  tp_task_id : text;
  tp_platform : text;
  current_stage : text;
  progress_percent : Q;
  items_total : Z;
  items_completed : Z;
  items_failed : Z;
  current_item : option text;
  estimated_remaining_time : option Z;
  last_update : option Q
}.

Record TaskEvent := {
  ev_task_id : text;
  ev_event_type : TaskEventType;
  ev_timestamp : Q;
  ev_message : fstring;
  ev_data : option pydict;
  ev_platform : option text;
  ev_progress : option TaskProgress;      (* asdict(self.progress) *)
  ev_error : option text
}.

Record TaskLogger := {
  tl_task_id : text;
  tl_platform : text;
  events : list TaskEvent;
  progress : TaskProgress;
  start_time : Q
}.

(** [TaskLogger.__init__], at clock reading [now]. *)
Definition new_TaskLogger (now : Q) (task_id platform : text) : TaskLogger :=
  {| tl_task_id := task_id;
     tl_platform := platform;
     events := [];
     progress :=
       {| tp_task_id := task_id; tp_platform := platform;
          current_stage := u "initializing";
          progress_percent := 0%Q;
          items_total := 0; items_completed := 0; items_failed := 0;
          current_item := None;
          estimated_remaining_time := None;
          last_update := Some now |};
     start_time := now |}.

Definition set_progress (p : TaskProgress) (l : TaskLogger) : TaskLogger :=
  {| tl_task_id := tl_task_id l; tl_platform := tl_platform l;
     events := events l; progress := p; start_time := start_time l |}.

(** [TaskLogger.log_event] *)
Definition log_event (now : Q) (event_type : TaskEventType) (message : fstring)
    (data : option pydict) (error : option text) (l : TaskLogger) : TaskLogger :=
  let event :=
    {| ev_task_id := tl_task_id l;
       ev_event_type := event_type;
       ev_timestamp := now;
       ev_message := message;
       ev_data := data;
       ev_platform := Some (tl_platform l);
       ev_progress := Some (progress l);
       ev_error := error |} in
  {| tl_task_id := tl_task_id l; tl_platform := tl_platform l;
     events := events l ++ [event]; progress := progress l;
     start_time := start_time l |}.

(** The assignments that open [TaskLogger.update_progress]. *)
Definition assign_progress (now : Q) (stage : option text) (percent : option Q)
    (total completed failed : option Z) (item : option text)
    (p : TaskProgress) : TaskProgress :=
  {| tp_task_id := tp_task_id p;
     tp_platform := tp_platform p;
     current_stage :=
       match stage with
       | Some (c :: s) => c :: s
       | _ => current_stage p
       end;
     progress_percent := default (progress_percent p) percent;
     items_total := default (items_total p) total;
     items_completed := default (items_completed p) completed;
     items_failed := default (items_failed p) failed;
     current_item :=
       match item with
       | Some (c :: s) => Some (c :: s)
       | _ => current_item p
       end;
     estimated_remaining_time := estimated_remaining_time p;
     last_update := Some now |}.

Definition set_eta (eta : Z) (p : TaskProgress) : TaskProgress :=
  {| tp_task_id := tp_task_id p; tp_platform := tp_platform p;
     current_stage := current_stage p; progress_percent := progress_percent p;
     items_total := items_total p; items_completed := items_completed p;
     items_failed := items_failed p; current_item := current_item p;
     estimated_remaining_time := Some eta; last_update := last_update p |}.

(** The estimate of the remaining time; it is computed only when
    [completed] is positive. *)
Definition estimate (now start : Q) (total completed : Z) : Z :=
  let elapsed_time := (now - start)%Q in
  let avg_time_per_item := (elapsed_time / inject_Z completed)%Q in
  let remaining_items := total - completed in
  int_of_float (avg_time_per_item * inject_Z remaining_items)%Q.

(** [TaskLogger.update_progress], at clock reading [now]. *)
Definition update_progress (now : Q) (stage : option text) (percent : option Q)
    (total completed failed : option Z) (item : option text) (l : TaskLogger)
    : TaskLogger :=
  let p := assign_progress now stage percent total completed failed item (progress l) in
  let p :=
    if (0 <? items_total p) && (0 <? items_completed p)
    then set_eta (estimate now (start_time l) (items_total p) (items_completed p)) p
    else p in
  log_event now TASK_PROGRESS
    [PText (u "进度更新: "); PText (current_stage p); PText (u " - ");
     PFloat1 (progress_percent p); PText (u "%")]
    (Some [(u "stage", VStr (current_stage p));
           (u "progress", VFloat (progress_percent p));
           (u "completed", VInt (items_completed p));
           (u "total", VInt (items_total p));
           (u "failed", VInt (items_failed p))])
    None (set_progress p l).

(** [TaskLogger.get_recent_events] *)
Definition get_recent_events (limit : Z) (l : TaskLogger) : list TaskEvent :=
  if limit <? Z.of_nat (length (events l))
  then (* self.events[-limit:] *)
    if 0 <? limit then drop (length (events l) - Z.to_nat limit)%nat (events l)
    else if limit =? 0 then events l
    else drop (Z.to_nat (- limit)) (events l)
  else events l.

End Logging.

Export Logging.

(** ** [app/core/cookies_manager.py]: the per-platform cookie cache *)

Module Cookies.

(** What [json.load] finds in [<platform>_cookies.json]. *)
Inductive file_content :=
  | Unreadable                 (* open or json.load raises *)
  | JsonObject (d : pydict)
  | JsonOther.                 (* valid JSON that is not an object *)

(** The cache directory: its files, keyed by platform, and whether it
    accepts writes. *)
Record CookiesManager := {
  files : gmap text file_content;
  read_only : bool
}.

Definition with_files (f : gmap text file_content) (m : CookiesManager) : CookiesManager :=
  {| files := f; read_only := read_only m |}.

(** [CookiesManager.save_cookies], at clock reading [now]. *)
Definition save_cookies (now : Q) (platform cookies : text) (task_id : option text)
    (m : CookiesManager) : bool * CookiesManager :=
  let cookies_data :=
    [(u "platform", VStr platform);
     (u "cookies", VStr cookies);
     (u "task_id", match task_id with Some t => VStr t | None => VNone end);
     (u "saved_time", VInt (int_of_float now));
     (u "saved_date", VDate now)] in
  if read_only m then (false, m)
  else (true, with_files (<[platform := JsonObject cookies_data]> (files m)) m).

(** [(current_time - saved_time) / (24 * 3600)]; [None] when the
    arithmetic raises. *)
Definition age_days (current_time : Z) (saved_time : pyval) : pyresult Q :=
  match saved_time with
  | VInt t => int_truediv (current_time - t) (24 * 3600)
  | VBool b => int_truediv (current_time - (if b then 1 else 0)) (24 * 3600)
  | VFloat t => Ret ((inject_Z current_time - t) / inject_Z (24 * 3600))%Q
  | _ => Raise (TypeError (u "unsupported operand type(s) for -"))
  end.

(** [CookiesManager.load_cookies]; the result [None] is Python's [None]. *)
Definition load_cookies (now : Q) (platform : text) (max_age_days : Z)
    (m : CookiesManager) : option pyval :=
  match files m !! platform with
  | None => None                                   (* not cookies_file.exists() *)
  | Some Unreadable => None
  | Some JsonOther => None                         (* no method get *)
  | Some (JsonObject cookies_data) =>
      let saved_time := default (VInt 0) (dict_get cookies_data (u "saved_time")) in
      let current_time := int_of_float now in
      match age_days current_time saved_time with
      | Raise _ => None
      | Ret age =>
          if negb (Qle_bool age (inject_Z max_age_days)) then None    (* expired *)
          else
            match dict_get cookies_data (u "cookies") with
            | Some cookies => if truthy cookies then Some cookies else None
            | None => None
            end
      end
  end.

(** [CookiesManager.clear_cookies] *)
Definition clear_cookies (platform : option text) (m : CookiesManager)
    : bool * CookiesManager :=
  match platform with
  | Some (c :: p) =>
      match files m !! (c :: p) with
      | Some _ =>
          if read_only m then (false, m)
          else (true, with_files (delete (c :: p) (files m)) m)
      | None => (true, m)
      end
  | _ =>
      if decide (files m = ∅) then (true, m)
      else if read_only m then (false, m)
      else (true, with_files ∅ m)
  end.

End Cookies.

Export Cookies.

(** ** [app/crawler/adapter.py]: parsing the crawler's standard output *)

Module Parsing.

(** A pattern keeps its source text (the adapter tests it with [in]) next
    to its compiled form. *)
Record pattern := {
  source : text;
  compiled : regex
}.

(** [needle in hay] on strings. *)
Fixpoint is_prefix (p s : text) : bool :=
  match p, s with
  | [], _ => true
  | a :: p', b :: s' => (a =? b) && is_prefix p' s'
  | _ :: _, [] => false
  end.

Fixpoint contains (needle hay : text) : bool :=
  is_prefix needle hay ||
  match hay with
  | [] => false
  | _ :: hay' => contains needle hay'
  end.

Definition login_patterns : list (pattern * text * Q) :=
  [ ({| source := u "开始登录"; compiled := lit (u "开始登录") |}, u "logging_in", 20%Q);
    ({| source := u "登录成功"; compiled := lit (u "登录成功") |}, u "logged_in", 30%Q);
    ({| source := u "扫码登录"; compiled := lit (u "扫码登录") |}, u "qrcode_login", 25%Q);
    ({| source := u "手机登录"; compiled := lit (u "手机登录") |}, u "phone_login", 25%Q) ].

Definition crawl_start : pattern :=
  {| source := u "开始爬取"; compiled := lit (u "开始爬取") |}.

Definition crawl_page : pattern :=
  {| source := u "正在爬取第\s*(\d+)\s*页";
     compiled := lit (u "正在爬取第") ++ [sp; digits; sp] ++ lit (u "页") |}.

Definition crawled_ratio : pattern :=
  {| source := u "已爬取\s*(\d+)\s*/\s*(\d+)";
     compiled := lit (u "已爬取") ++ [sp; digits; sp] ++ lit (u "/") ++ [sp; digits] |}.

Definition crawled_of_total : pattern :=
  {| source := u "爬取.*?(\d+)\s*条.*?共\s*(\d+)";
     compiled := lit (u "爬取") ++ [lazy_any; digits; sp] ++ lit (u "条")
                 ++ [lazy_any] ++ lit (u "共") ++ [sp; digits] |}.

Definition crawl_patterns : list (pattern * text * option Q) :=
  [ (crawl_start, u "crawling", Some 40%Q);
    (crawl_page, u "crawling", None);
    (crawled_ratio, u "crawling", None);
    (crawled_of_total, u "crawling", None) ].

Definition save_patterns : list (pattern * text * Q) :=
  [ ({| source := u "开始保存"; compiled := lit (u "开始保存") |}, u "saving", 90%Q);
    ({| source := u "保存.*?(\d+)\s*条";
        compiled := lit (u "保存") ++ [lazy_any; digits; sp] ++ lit (u "条") |},
     u "saving", 95%Q);
    ({| source := u "保存完成"; compiled := lit (u "保存完成") |}, u "completed", 100%Q) ].

Definition error_patterns : list pattern :=
  [ {| source := u "错误"; compiled := lit (u "错误") |};
    {| source := u "失败"; compiled := lit (u "失败") |};
    {| source := u "异常"; compiled := lit (u "异常") |};
    {| source := u "Error"; compiled := lit (u "Error") |};
    {| source := u "Exception"; compiled := lit (u "Exception") |} ].

Definition important_patterns : list pattern :=
  [ {| source := u "开始"; compiled := lit (u "开始") |};
    {| source := u "完成"; compiled := lit (u "完成") |};
    {| source := u "成功"; compiled := lit (u "成功") |};
    {| source := u "关键词"; compiled := lit (u "关键词") |};
    {| source := u "用户"; compiled := lit (u "用户") |};
    {| source := u "内容"; compiled := lit (u "内容") |} ].

Definition count_patterns : list pattern :=
  [ {| source := u "共爬取\s*(\d+)\s*条";
       compiled := lit (u "共爬取") ++ [sp; digits; sp] ++ lit (u "条") |};
    {| source := u "获取\s*(\d+)\s*条数据";
       compiled := lit (u "获取") ++ [sp; digits; sp] ++ lit (u "条数据") |};
    {| source := u "crawled\s*(\d+)\s*items";
       compiled := lit (u "crawled") ++ [sp; digits; sp] ++ lit (u "items") |};
    {| source := u "total[:\s]*(\d+)";
       compiled := lit (u "total") ++ [Atom CColonSpace Star; digits] |};
    {| source := u "保存.*?(\d+)\s*条";
       compiled := lit (u "保存") ++ [lazy_any; digits; sp] ++ lit (u "条") |};
    {| source := u "完成.*?(\d+)\s*个";
       compiled := lit (u "完成") ++ [lazy_any; digits; sp] ++ lit (u "个") |} ].

Section WithUnicode.
Context {U : Unicode}.

(** [int(match.group(i))] *)
Definition group_int (gs : list text) (i : nat) : pyresult Z :=
  match gs !! (i - 1)%nat with
  | Some g => match py_int g with Some n => Ret n | None => Raise ValueError end
  | None => Raise (TypeError (u "no such group"))
  end.

(** The loops of [_parse_progress_from_line] answer [true] when the
    function has returned. *)
Fixpoint login_loop (now : Q) (line : text) (ps : list (pattern * text * Q))
    : py TaskLogger bool :=
  match ps with
  | [] => ret false
  | (pat, stage, percent) :: ps' =>
      match search (compiled pat) line with
      | Some _ =>
          modify (update_progress now (Some stage) (Some percent) None None None None) ;;
          ret true
      | None => login_loop now line ps'
      end
  end.

(** The body run for a crawl pattern without a fixed percent. *)
Definition crawl_dynamic (now : Q) (pat : pattern) (stage : text) (gs : list text)
    : py TaskLogger unit :=
  if contains (u "已爬取") (source pat) && (2 <=? length gs)%nat then
    completed <- lift (group_int gs 1) ;;
    total <- lift (group_int gs 2) ;;
    if 0 <? total then
      ratio <- lift (int_truediv completed total) ;;
      let progress_percent := py_min (40 + ratio * 50)%Q 90%Q in
      modify (update_progress now (Some stage) (Some progress_percent)
                (Some total) (Some completed) None None)
    else ret tt
  else ret tt.

Fixpoint crawl_loop (now : Q) (line : text) (ps : list (pattern * text * option Q))
    : py TaskLogger bool :=
  match ps with
  | [] => ret false
  | (pat, stage, percent) :: ps' =>
      match search (compiled pat) line with
      | Some gs =>
          match percent with
          | Some p => modify (update_progress now (Some stage) (Some p) None None None None)
          | None => crawl_dynamic now pat stage gs
          end ;;
          ret true
      | None => crawl_loop now line ps'
      end
  end.

(** The inner [try ... except: pass] of the save loop catches everything. *)
Definition swallow {S} (m : py S unit) : py S unit :=
  fun s => match m s with (_, s') => (Ret tt, s') end.

Fixpoint save_loop (now : Q) (line : text) (ps : list (pattern * text * Q))
    : py TaskLogger bool :=
  match ps with
  | [] => ret false
  | (pat, stage, percent) :: ps' =>
      match search (compiled pat) line with
      | Some gs =>
          modify (update_progress now (Some stage) (Some percent) None None None None) ;;
          (if (1 <=? length gs)%nat then
             swallow (saved_count <- lift (group_int gs 1) ;;
                      modify (update_progress now (Some stage) (Some percent)
                                None (Some saved_count) None None))
           else ret tt) ;;
          ret true
      | None => save_loop now line ps'
      end
  end.

Fixpoint event_loop (now : Q) (line : text) (ty : TaskEventType) (prefix : text)
    (ps : list pattern) : py TaskLogger bool :=
  match ps with
  | [] => ret false
  | pat :: ps' =>
      match search (compiled pat) line with
      | Some _ =>
          modify (log_event now ty (txt (prefix ++ line)) None None) ;;
          ret true
      | None => event_loop now line ty prefix ps'
      end
  end.

(** [MediaCrawlerAdapter._parse_progress_from_line] *)
Definition _parse_progress_from_line (now : Q) (line : text) : py TaskLogger unit :=
  try_except
    (r1 <- login_loop now line login_patterns ;;
     if r1 : bool then ret tt else
     r2 <- crawl_loop now line crawl_patterns ;;
     if r2 : bool then ret tt else
     r3 <- save_loop now line save_patterns ;;
     if r3 : bool then ret tt else
     r4 <- event_loop now line CRAWLER_ERROR (u "MediaCrawler报告错误: ") error_patterns ;;
     if r4 : bool then ret tt else
     _ <- event_loop now line TASK_PROGRESS (u "MediaCrawler: ") important_patterns ;;
     ret tt)
    (fun _ => ret tt).

(** [max(int(match) for match in matches)]; [matches] is not empty. *)
Fixpoint max_int (matches : list (list text)) : pyresult Z :=
  match matches with
  | [] => Raise ValueError
  | gs :: rest =>
      match group_int gs 1 with
      | Raise e => Raise e
      | Ret n =>
          match rest with
          | [] => Ret n
          | _ => match max_int rest with
                 | Ret m => Ret (Z.max n m)
                 | Raise e => Raise e
                 end
          end
      end
  end.

Fixpoint count_loop (output : text) (ps : list pattern) : pyresult Z :=
  match ps with
  | [] => Ret 0
  | pat :: ps' =>
      match findall (compiled pat) output with
      | [] => count_loop output ps'
      | matches => max_int matches
      end
  end.

(** [MediaCrawlerAdapter._parse_data_count_from_output] *)
Definition _parse_data_count_from_output (output : text) : Z :=
  match count_loop output count_patterns with
  | Ret n => n
  | Raise _ => 0
  end.

End WithUnicode.

End Parsing.

Export Parsing.

(** ** [app/crawler/adapter.py]: tasks, results and the external process *)

Module Adapter.

Inductive PlatformType := XHS | DOUYIN | BILIBILI | KUAISHOU | WEIBO | TIEBA | ZHIHU.

Inductive CrawlerTaskType := SEARCH | DETAIL | CREATOR.

(** [task_type.value] *)
Definition task_type_value (t : CrawlerTaskType) : text :=
  match t with
  | SEARCH => u "search"
  | DETAIL => u "detail"
  | CREATOR => u "creator"
  end.

(** The request-level overrides of [config_manager.py]; the adapter only
    passes them on. *)
Record CrawlerConfigRequest := {
  cfg_enable_proxy : option bool;
  cfg_headless : option bool;
  cfg_enable_comments : option bool;
  cfg_enable_sub_comments : option bool;
  cfg_max_comments : option Z;
  cfg_save_data_option : option text
}.

Record CrawlerTask := {
  task_id : text;
  platform : PlatformType;
  task_type : CrawlerTaskType;
  keywords : option (list text);
  content_ids : option (list text);
  creator_ids : option (list text);
  max_count : Z;
  max_comments : Z;
  start_page : Z;
  enable_proxy : bool;
  headless : bool;
  enable_comments : bool;
  enable_sub_comments : bool;
  save_data_option : text;
  config : option CrawlerConfigRequest;
  clear_cookies_flag : bool           (* the field clear_cookies *)
}.

Record CrawlerResult := {
  res_task_id : text;
  success : bool;
  message : text;
  data_count : Z;
  error_count : Z;
  data : option (list pydict);
  errors : option (list text)
}.

(** [task_results] holds [CrawlerResult] objects and, from
    [_run_mediacrawler_process], plain dicts. *)
Inductive stored_result :=
  | ResultObject (r : CrawlerResult)
  | ResultDict (d : pydict).

(** The [asyncio.Task] wrapping [_run_mediacrawler_process]: not finished
    yet, or finished with a value or an exception ([CancelledError] when
    it was cancelled). *)
Inductive TaskState :=
  | Pending
  | Done (outcome : pyresult pydict).

(** What the external crawler leaves in [browser_data/<platform>_cookies_*.json]:
    for a JSON list, each element that is a dict with the keys [name] and
    [value] is given by the [str()] of the two values. *)
Inductive artifact :=
  | ArtUnreadable
  | ArtNotList
  | ArtList (cookies : list (option (text * text))).

Record out_line := {
  at_time : Q;
  from_stderr : bool;
  raw : text                       (* the line, decoded *)
}.

(** One execution of the external process, as the adapter observes it. *)
Record ProcessRun := {
  begin_time : Q;
  config_error : option pyexc;     (* raised by build_crawler_config *)
  spawn_error : option pyexc;      (* raised by create_subprocess_exec *)
  output : list out_line;          (* both pipes, in order of arrival *)
  returncode : Z;
  exit_time : Q;
  artifacts : list (Q * artifact)  (* st_mtime and content *)
}.

Record State := {
  running_tasks : gmap text TaskState;
  task_results : gmap text stored_result;
  task_loggers : gmap text TaskLogger;     (* logging_manager.task_loggers *)
  cookies_manager : CookiesManager
}.

Definition set_running (f : gmap text TaskState -> gmap text TaskState) (w : State) : State :=
  {| running_tasks := f (running_tasks w); task_results := task_results w;
     task_loggers := task_loggers w; cookies_manager := cookies_manager w |}.

Definition set_results (f : gmap text stored_result -> gmap text stored_result) (w : State)
    : State :=
  {| running_tasks := running_tasks w; task_results := f (task_results w);
     task_loggers := task_loggers w; cookies_manager := cookies_manager w |}.

Definition set_loggers (f : gmap text TaskLogger -> gmap text TaskLogger) (w : State) : State :=
  {| running_tasks := running_tasks w; task_results := task_results w;
     task_loggers := f (task_loggers w); cookies_manager := cookies_manager w |}.

Definition set_cookies (c : CookiesManager) (w : State) : State :=
  {| running_tasks := running_tasks w; task_results := task_results w;
     task_loggers := task_loggers w; cookies_manager := c |}.

(** The journal of a task, reached through the table of the logging
    manager; [start_crawler_task] creates it before the coroutine runs. *)
Definition on_logger {A} (key : text) (m : py TaskLogger A) : py State A :=
  zoom (fun w => default (new_TaskLogger 0 key []) (task_loggers w !! key))
       (fun l w => set_loggers <[key := l]> w) m.

Definition log (key : text) (now : Q) (ty : TaskEventType) (msg : fstring)
    (data : option pydict) (error : option text) : py State unit :=
  on_logger key (modify (log_event now ty msg data error)).

(** [MediaCrawlerAdapter._get_platform_string] *)
Definition _get_platform_string (p : PlatformType) : text :=
  match p with
  | XHS => u "xhs"
  | DOUYIN => u "dy"
  | BILIBILI => u "bili"
  | KUAISHOU => u "ks"
  | WEIBO => u "wb"
  | TIEBA => u "tieba"
  | ZHIHU => u "zhihu"
  end.

Definition bool_lower (b : bool) : text := if b then u "true" else u "false".

(** The identifier flag of a platform for detail and creator tasks. *)
Definition content_flag (platform_str : text) : option text :=
  if bool_decide (platform_str = u "xhs") then Some (u "--xhs_note_urls")
  else if bool_decide (platform_str = u "dy") then Some (u "--dy_ids")
  else if bool_decide (platform_str = u "ks") then Some (u "--ks_ids")
  else if bool_decide (platform_str = u "bili") then Some (u "--bili_ids")
  else if bool_decide (platform_str = u "wb") then Some (u "--weibo_ids")
  else if bool_decide (platform_str = u "zhihu") then Some (u "--zhihu_urls")
  else None.

Definition creator_flag (platform_str : text) : option text :=
  if bool_decide (platform_str = u "xhs") then Some (u "--xhs_creator_ids")
  else if bool_decide (platform_str = u "dy") then Some (u "--dy_creator_ids")
  else if bool_decide (platform_str = u "ks") then Some (u "--ks_creator_ids")
  else if bool_decide (platform_str = u "bili") then Some (u "--bili_creator_ids")
  else if bool_decide (platform_str = u "wb") then Some (u "--weibo_creator_ids")
  else if bool_decide (platform_str = u "zhihu") then Some (u "--zhihu_creator_urls")
  else if bool_decide (platform_str = u "tieba") then Some (u "--tieba_creator_urls")
  else None.

Definition nonempty {A} (l : option (list A)) : option (list A) :=
  match l with
  | Some (x :: r) => Some (x :: r)
  | _ => None
  end.

(** [MediaCrawlerAdapter._build_crawler_command] *)
Definition _build_crawler_command (now : Q) (task : CrawlerTask) : py State (list pyval) :=
  let platform_str := _get_platform_string (platform task) in
  let cmd :=
    map VStr
      [u "python"; u "main.py";
       u "--platform"; platform_str;
       u "--type"; task_type_value (task_type task);
       u "--max_count"; str_int (max_count task);
       u "--max_comments"; str_int (max_comments task);
       u "--headless"; bool_lower (headless task);
       u "--enable_proxy"; bool_lower (enable_proxy task);
       u "--save_data_option"; save_data_option task] in
  w <- get ;;
  cmd <-
    (if clear_cookies_flag task then
       modify (set_cookies (snd (clear_cookies (Some platform_str) (cookies_manager w)))) ;;
       ret cmd
     else
       match load_cookies now platform_str 7 (cookies_manager w) with
       | Some cached_cookies => ret (cmd ++ [VStr (u "--cookies"); cached_cookies])
       | None => ret cmd
       end) ;;
  ret (match task_type task with
       | SEARCH =>
           match nonempty (keywords task) with
           | Some ks => cmd ++ [VStr (u "--keywords"); VStr (join (u ",") ks)]
           | None => cmd
           end
       | DETAIL =>
           match nonempty (content_ids task), content_flag platform_str with
           | Some ids, Some flag => cmd ++ [VStr flag; VStr (join (u ";") ids)]
           | _, _ => cmd
           end
       | CREATOR =>
           match nonempty (creator_ids task), creator_flag platform_str with
           | Some ids, Some flag => cmd ++ [VStr flag; VStr (join (u ";") ids)]
           | _, _ => cmd
           end
       end).

(** [max(cookies_files, key=st_mtime)]: the first file of greatest mtime. *)
Fixpoint latest (best : Q * artifact) (rest : list (Q * artifact)) : Q * artifact :=
  match rest with
  | [] => best
  | f :: rest' => latest (if Qle_bool (fst f) (fst best) then best else f) rest'
  end.

(** [MediaCrawlerAdapter._extract_and_save_cookies] *)
Definition _extract_and_save_cookies (now : Q) (found : list (Q * artifact))
    (platform : PlatformType) (task_id : text) : py State unit :=
  let platform_str := _get_platform_string platform in
  match found with
  | [] => ret tt
  | f :: rest =>
      match snd (latest f rest) with
      | ArtList cookies_data =>
          let cookie_strings :=
            omap (fun c => match c with
                           | Some (name, value) => Some (name ++ u "=" ++ value)
                           | None => None
                           end) cookies_data in
          match cookie_strings with
          | [] => ret tt
          | _ =>
              modify (fun w =>
                set_cookies (snd (save_cookies now platform_str
                                    (join (u "; ") cookie_strings) (Some task_id)
                                    (cookies_manager w))) w)
          end
      | _ => ret tt         (* not a list, or the except branch *)
      end
  end.

(** *** Name resolution inside [_execute_crawler_process]

    The names the body of [_execute_crawler_process] can see, each with
    the [CrawlerTask] it is bound to, if it is bound to one: the
    parameters and local variables of the function, then the globals of
    the module. *)
Definition scope := list (text * option CrawlerTask).

Definition execute_locals : scope :=
  map (fun n => (n, None))
    [u "self"; u "cmd"; u "task_logger"; u "process"; u "stdout_lines";
     u "stderr_lines"; u "read_stdout"; u "read_stderr"; u "returncode";
     u "stdout_text"; u "stderr_text"; u "data_count"; u "e"].

Definition module_globals : scope :=
  map (fun n => (n, None))
    [u "asyncio"; u "sys"; u "os"; u "subprocess"; u "tempfile"; u "json";
     u "Dict"; u "List"; u "Optional"; u "Any"; u "dataclass"; u "Enum";
     u "logging"; u "Path"; u "PlatformType"; u "logging_manager";
     u "TaskEventType"; u "get_app_logger"; u "get_config_manager";
     u "CrawlerConfigRequest"; u "CrawlerConfig"; u "login_manager";
     u "LoginType"; u "LoginStatus"; u "get_settings"; u "cookies_manager";
     u "logger"; u "MEDIACRAWLER_PATH"; u "CrawlerTaskType"; u "CrawlerTask";
     u "CrawlerResult"; u "MediaCrawlerAdapter"; u "crawler_adapter"].

Fixpoint load_name (sc : scope) (n : text) : pyresult (option CrawlerTask) :=
  match sc with
  | [] => Raise (NameError n)
  | (n', o) :: sc' => if bool_decide (n' = n) then Ret o else load_name sc' n
  end.

(** Reading an attribute of [CrawlerTask] from the loaded object. *)
Definition task_attr (o : option CrawlerTask) (attr : text) : pyresult CrawlerTask :=
  match o with
  | Some t => Ret t
  | None => Raise (AttributeError attr)
  end.

Definition of_option (o : option pyexc) : pyresult unit :=
  match o with
  | Some e => Raise e
  | None => Ret tt
  end.

Section WithUnicode.
Context {U : Unicode}.

(** The string ["\n"]. *)
Definition newline : text := [10].

(** [str.strip()] *)
Fixpoint lstrip (s : text) : text :=
  match s with
  | c :: s' => if whitespace c then lstrip s' else s
  | [] => []
  end.

Definition strip (s : text) : text := rev (lstrip (rev (lstrip s))).

(** [read_stdout] and [read_stderr], run together by [asyncio.gather]:
    the lines are handled in their order of arrival. *)
Fixpoint drain (key : text) (out : list out_line) (stdout_lines stderr_lines : list text)
    : py State (list text * list text) :=
  match out with
  | [] => ret (stdout_lines, stderr_lines)
  | l :: out' =>
      let line_text := strip (raw l) in
      match line_text with
      | [] => drain key out' stdout_lines stderr_lines
      | _ =>
          if from_stderr l then
            log key (at_time l) CRAWLER_ERROR
              (txt (u "MediaCrawler stderr: " ++ line_text)) None None ;;
            drain key out' stdout_lines (stderr_lines ++ [line_text])
          else
            on_logger key (_parse_progress_from_line (at_time l) line_text) ;;
            drain key out' (stdout_lines ++ [line_text]) stderr_lines
      end
  end.

(** [MediaCrawlerAdapter._execute_crawler_process]; [key] designates the
    [task_logger] argument. *)
Definition _execute_crawler_process (key : text) (cmd : list pyval) (run : ProcessRun)
    : py State pydict :=
  try_except
    (lift (of_option (spawn_error run)) ;;
     lines <- drain key (output run) [] [] ;;
     let stdout_text := join newline (fst lines) in
     let stderr_text := join newline (snd lines) in
     if returncode run =? 0 then
       let data_count := _parse_data_count_from_output stdout_text in
       (* the arguments task.platform and task.task_id *)
       o <- lift (load_name (execute_locals ++ module_globals) (u "task")) ;;
       t <- lift (task_attr o (u "platform")) ;;
       _extract_and_save_cookies (exit_time run) (artifacts run) (platform t) (task_id t) ;;
       log key (exit_time run) TASK_PROGRESS (txt (u "MediaCrawler执行成功"))
         (Some [(u "final_data_count", VInt data_count)]) None ;;
       ret [(u "success", VBool true);
            (u "data_count", VInt data_count);
            (u "stdout", VStr stdout_text);
            (u "stderr", VStr stderr_text)]
     else
       log key (exit_time run) CRAWLER_ERROR
         (txt (u "MediaCrawler执行失败: 退出码=" ++ str_int (returncode run)))
         None (Some stderr_text) ;;
       ret [(u "success", VBool false);
            (u "error", VStr (u "进程退出码: " ++ str_int (returncode run)
                              ++ u ", 错误: " ++ stderr_text));
            (u "stdout", VStr stdout_text);
            (u "stderr", VStr stderr_text)])
    (fun e =>
       log key (exit_time run) CRAWLER_ERROR
         (txt (u "执行MediaCrawler时发生异常: " ++ exc_str e)) None (Some (exc_str e)) ;;
       ret [(u "success", VBool false);
            (u "error", VStr (u "执行异常: " ++ exc_str e))]).

(** [self.running_tasks[task_id][k] = v]: the table holds [asyncio.Task]
    objects, which do not support item assignment. *)
Definition task_setitem (task_id : text) : py State unit :=
  w <- get ;;
  match running_tasks w !! task_id with
  | Some _ => raise (TypeError (u "'_asyncio.Task' object does not support item assignment"))
  | None => ret tt
  end.

(** [MediaCrawlerAdapter._run_mediacrawler_process] *)
Definition _run_mediacrawler_process (task : CrawlerTask) (run : ProcessRun)
    : py State pydict :=
  let key := task_id task in
  try_except
    (log key (begin_time run) TASK_PROGRESS (txt (u "开始准备MediaCrawler")) None None ;;
     lift (of_option (config_error run)) ;;             (* _create_temp_config *)
     cmd <- _build_crawler_command (begin_time run) task ;;
     log key (begin_time run) TASK_PROGRESS (txt (u "开始执行MediaCrawler")) None None ;;
     result <- _execute_crawler_process key cmd run ;;
     ok <- lift (getitem result (u "success")) ;;
     msg <- lift (getitem result (u "message")) ;;
     log key (exit_time run)
       (if truthy ok then TASK_COMPLETED else TASK_FAILED)
       [PText (u "MediaCrawler执行" ++ (if truthy ok then u "成功" else u "失败") ++ u ": ");
        PValue msg] None None ;;
     modify (set_results <[key := ResultDict result]>) ;;
     task_setitem key ;;
     ret result)
    (fun e =>
       let error_msg := u "执行MediaCrawler时发生错误: " ++ exc_str e in
       log key (exit_time run) TASK_FAILED (txt error_msg) None None ;;
       let result :=
         [(u "success", VBool false);
          (u "message", VStr error_msg);
          (u "data_count", VInt 0);
          (u "error_count", VInt 1);
          (u "data", VList [])] in
       modify (set_results <[key := ResultDict result]>) ;;
       task_setitem key ;;
       ret result).

(** The event loop runs the coroutine of a pending task to its end. *)
Definition finish_task (task : CrawlerTask) (run : ProcessRun) (w : State) : State :=
  match running_tasks w !! task_id task with
  | Some Pending =>
      let (outcome, w') := _run_mediacrawler_process task run w in
      set_running <[task_id task := Done outcome]> w'
  | _ => w
  end.

(** [LoggingManager.create_task_logger] *)
Definition create_task_logger (now : Q) (task_id platform : text) : py State unit :=
  modify (set_loggers <[task_id := new_TaskLogger now task_id platform]>) ;;
  log task_id now TASK_CREATED (txt (u "任务已创建: 平台=" ++ platform))
    (Some [(u "platform", VStr platform)]) None.

Definition opt_list (l : option (list text)) : pyval :=
  match l with
  | Some ts => VList ts
  | None => VNone
  end.

(** [MediaCrawlerAdapter.start_crawler_task]; nothing in its [try] block
    raises, so the handler storing a failed [CrawlerResult] is never
    entered. *)
Definition start_crawler_task (now : Q) (task : CrawlerTask) : py State text :=
  let platform_str := _get_platform_string (platform task) in
  create_task_logger now (task_id task) platform_str ;;
  log (task_id task) now TASK_STARTED
    (txt (u "开始启动爬虫任务: 平台=" ++ platform_str ++ u ", 类型="
          ++ task_type_value (task_type task)))
    (Some [(u "platform", VStr platform_str);
           (u "task_type", VStr (task_type_value (task_type task)));
           (u "keywords", opt_list (keywords task));
           (u "content_ids", opt_list (content_ids task));
           (u "creator_ids", opt_list (creator_ids task));
           (u "max_count", VInt (max_count task));
           (u "max_comments", VInt (max_comments task))]) None ;;
  modify (set_running <[task_id task := Pending]>) ;;
  ret (task_id task).

(** [await task] after [task.cancel()]: a pending coroutine is cancelled
    at its suspension point (none of its handlers catches
    [CancelledError]); a finished one hands back its outcome. *)
Definition await_cancelled (t : TaskState) : pyresult unit :=
  match t with
  | Pending => Raise CancelledError
  | Done (Ret _) => Ret tt
  | Done (Raise e) => Raise e
  end.

(** [MediaCrawlerAdapter.stop_task] *)
Definition stop_task (task_id : text) : py State bool :=
  w <- get ;;
  match running_tasks w !! task_id with
  | Some task =>
      match await_cancelled task with
      | Raise CancelledError | Ret _ => ret tt
      | Raise e => raise e
      end ;;
      modify (set_results
                <[task_id := ResultObject
                    {| res_task_id := task_id; success := false;
                       message := u "任务已被手动停止";
                       data_count := 0; error_count := 0;
                       data := None; errors := None |}]>) ;;
      modify (set_running (delete task_id)) ;;
      ret true
  | None => ret false
  end.

(** [MediaCrawlerAdapter.get_task_result] *)
Definition get_task_result (task_id : text) (w : State) : option stored_result :=
  task_results w !! task_id.

End WithUnicode.

End Adapter.

Export Adapter.

(** ** [app/core/login_manager.py]: login sessions *)

Module Login.

Inductive LoginType := COOKIE | QRCODE | PHONE.

Inductive LoginStatus :=
  | PENDING | QRCODE_GENERATED | QRCODE_SCANNED | PHONE_INPUT_REQUIRED
  | VERIFICATION_CODE_REQUIRED | SUCCESS | FAILED | TIMEOUT.

#[global] Instance LoginStatus_eq_dec : EqDecision LoginStatus.
Proof. solve_decision. Defined.

#[global] Instance LoginType_eq_dec : EqDecision LoginType.
Proof. solve_decision. Defined.

(** [status.value] *)
Definition status_value (s : LoginStatus) : text :=
  match s with
  | PENDING => u "pending"
  | QRCODE_GENERATED => u "qrcode_generated"
  | QRCODE_SCANNED => u "qrcode_scanned"
  | PHONE_INPUT_REQUIRED => u "phone_input_required"
  | VERIFICATION_CODE_REQUIRED => u "verification_code_required"
  | SUCCESS => u "success"
  | FAILED => u "failed"
  | TIMEOUT => u "timeout"
  end.

(** [LoginType(value)]; [None] is [ValueError]. *)
Definition LoginType_of (v : text) : option LoginType :=
  if bool_decide (v = u "cookie") then Some COOKIE
  else if bool_decide (v = u "qrcode") then Some QRCODE
  else if bool_decide (v = u "phone") then Some PHONE
  else None.

(** The callbacks a session can carry; all of them only write to the
    application log. *)
Inductive callback := On_status_change | On_qrcode_generated | On_input_required.

Record LoginSession := {
  task_id : text;
  platform : text;
  login_type : LoginType;
  status : LoginStatus;
  start_time : Q;
  timeout : Z;
  data : pydict;
  pending_inputs : list text;
  crawler_adapter : bool;            (* set by start_login_process *)
  page : bool;                       (* the three browser handles: open or None *)
  browser : bool;
  browser_context : bool;
  cookies_data : option text;
  on_status_change : option callback;
  on_qrcode_generated : option callback;
  on_input_required : option callback;
  on_login_success : option callback
}.

Record LoginResponse := {
  resp_task_id : text;
  resp_status : LoginStatus;
  resp_message : text;
  resp_data : option pydict;
  qrcode_image : option text;
  input_required : option pydict
}.

(** [LoginSession.__init__], at clock reading [now]. *)
Definition new_LoginSession (now : Q) (task_id platform : text) (login_type : LoginType)
    : LoginSession :=
  {| task_id := task_id; platform := platform; login_type := login_type;
     status := PENDING; start_time := now; timeout := 300; data := [];
     pending_inputs := []; crawler_adapter := false;
     page := false; browser := false; browser_context := false;
     cookies_data := None;
     on_status_change := None; on_qrcode_generated := None;
     on_input_required := None; on_login_success := None |}.

(** [LoginSession.is_expired] *)
Definition is_expired (now : Q) (s : LoginSession) : bool :=
  negb (Qle_bool (now - start_time s) (inject_Z (timeout s))).

(** [d.update(other)] *)
Fixpoint dict_set (d : pydict) (k : text) (v : pyval) : pydict :=
  match d with
  | [] => [(k, v)]
  | (k', v') :: d' =>
      if bool_decide (k' = k) then (k, v) :: d' else (k', v') :: dict_set d' k v
  end.

Definition dict_update (d other : pydict) : pydict :=
  fold_left (fun acc kv => dict_set acc (fst kv) (snd kv)) other d.

(** [LoginSession.update_status]; the callback only logs. *)
Definition update_status (st : LoginStatus) (message : text) (extra : option pydict)
    (s : LoginSession) : LoginSession :=
  {| task_id := task_id s; platform := platform s; login_type := login_type s;
     status := st; start_time := start_time s; timeout := timeout s;
     data := dict_update (data s) (default [] extra);
     pending_inputs := pending_inputs s; crawler_adapter := crawler_adapter s;
     page := page s; browser := browser s; browser_context := browser_context s;
     cookies_data := cookies_data s;
     on_status_change := on_status_change s;
     on_qrcode_generated := on_qrcode_generated s;
     on_input_required := on_input_required s;
     on_login_success := on_login_success s |}.

Definition set_timeout (t : Z) (s : LoginSession) : LoginSession :=
  {| task_id := task_id s; platform := platform s; login_type := login_type s;
     status := status s; start_time := start_time s; timeout := t;
     data := data s;
     pending_inputs := pending_inputs s; crawler_adapter := crawler_adapter s;
     page := page s; browser := browser s; browser_context := browser_context s;
     cookies_data := cookies_data s;
     on_status_change := on_status_change s;
     on_qrcode_generated := on_qrcode_generated s;
     on_input_required := on_input_required s;
     on_login_success := on_login_success s |}.

Definition set_callbacks (s : LoginSession) : LoginSession :=
  {| task_id := task_id s; platform := platform s; login_type := login_type s;
     status := status s; start_time := start_time s; timeout := timeout s;
     data := data s;
     pending_inputs := pending_inputs s; crawler_adapter := crawler_adapter s;
     page := page s; browser := browser s; browser_context := browser_context s;
     cookies_data := cookies_data s;
     on_status_change := Some On_status_change;
     on_qrcode_generated := Some On_qrcode_generated;
     on_input_required := Some On_input_required;
     on_login_success := on_login_success s |}.

Definition set_cookies_data (c : text) (s : LoginSession) : LoginSession :=
  {| task_id := task_id s; platform := platform s; login_type := login_type s;
     status := status s; start_time := start_time s; timeout := timeout s;
     data := data s;
     pending_inputs := pending_inputs s; crawler_adapter := crawler_adapter s;
     page := page s; browser := browser s; browser_context := browser_context s;
     cookies_data := Some c;
     on_status_change := on_status_change s;
     on_qrcode_generated := on_qrcode_generated s;
     on_input_required := on_input_required s;
     on_login_success := on_login_success s |}.

Definition set_data (d : pydict) (s : LoginSession) : LoginSession :=
  {| task_id := task_id s; platform := platform s; login_type := login_type s;
     status := status s; start_time := start_time s; timeout := timeout s;
     data := d;
     pending_inputs := pending_inputs s; crawler_adapter := crawler_adapter s;
     page := page s; browser := browser s; browser_context := browser_context s;
     cookies_data := cookies_data s;
     on_status_change := on_status_change s;
     on_qrcode_generated := on_qrcode_generated s;
     on_input_required := on_input_required s;
     on_login_success := on_login_success s |}.

(** Session objects live in a store; the table [sessions] of the manager
    maps a task id to the object it currently refers to.  A coroutine that
    holds a session keeps its reference when the table entry is replaced
    or deleted.  [cookie_files] are the files
    [logs/cookies_<task_id>_<platform>.json]. *)
Record LoginManager := {
  objects : gmap nat LoginSession;
  sessions : gmap text nat;
  cookie_files : gmap (text * text) text;
  monitors : list nat            (* sessions whose monitor has been scheduled *)
}.

Definition set_object (ref : nat) (f : LoginSession -> LoginSession) (m : LoginManager)
    : LoginManager :=
  {| objects := alter f ref (objects m); sessions := sessions m;
     cookie_files := cookie_files m; monitors := monitors m |}.

(** [LoginManager.create_login_session]; the answer is the new object. *)
Definition create_login_session (now : Q) (task_id platform : text)
    (login_type : LoginType) (timeout : Z) (m : LoginManager) : nat * LoginManager :=
  let session := set_callbacks (set_timeout timeout (new_LoginSession now task_id platform login_type)) in
  let ref := fresh (dom (objects m)) in
  (ref, {| objects := <[ref := session]> (objects m);
           sessions := <[task_id := ref]> (sessions m);
           cookie_files := cookie_files m; monitors := monitors m |}).

(** [LoginManager.get_login_session] *)
Definition get_login_session (task_id : text) (m : LoginManager) : option nat :=
  sessions m !! task_id.

(** The session object a task id currently designates. *)
Definition session_of (task_id : text) (m : LoginManager) : option LoginSession :=
  ref ← sessions m !! task_id; objects m !! ref.

(** [LoginManager.get_login_status], at clock reading [now]. *)
Definition get_login_status (now : Q) (task_id : text) (m : LoginManager)
    : LoginResponse * LoginManager :=
  match get_login_session task_id m with
  | None =>
      ({| resp_task_id := task_id; resp_status := FAILED;
          resp_message := u "登录会话不存在"; resp_data := None;
          qrcode_image := None; input_required := None |}, m)
  | Some ref =>
      let m' :=
        match objects m !! ref with
        | Some session =>
            if is_expired now session
            then set_object ref (update_status TIMEOUT (u "登录超时") None) m
            else m
        | None => m
        end in
      match objects m' !! ref with
      | Some session =>
          ({| resp_task_id := task_id; resp_status := status session;
              resp_message := u "当前状态: " ++ status_value (status session);
              resp_data := Some (data session);
              qrcode_image := None; input_required := None |}, m')
      | None =>
          ({| resp_task_id := task_id; resp_status := FAILED;
              resp_message := u "登录会话不存在"; resp_data := None;
              qrcode_image := None; input_required := None |}, m')
      end
  end.

Definition set_handles (b : bool) (s : LoginSession) : LoginSession :=
  {| task_id := task_id s; platform := platform s; login_type := login_type s;
     status := status s; start_time := start_time s; timeout := timeout s;
     data := data s;
     pending_inputs := pending_inputs s; crawler_adapter := crawler_adapter s;
     page := b; browser := b; browser_context := b;
     cookies_data := cookies_data s;
     on_status_change := on_status_change s;
     on_qrcode_generated := on_qrcode_generated s;
     on_input_required := on_input_required s;
     on_login_success := on_login_success s |}.

Definition set_adapter (s : LoginSession) : LoginSession :=
  {| task_id := task_id s; platform := platform s; login_type := login_type s;
     status := status s; start_time := start_time s; timeout := timeout s;
     data := data s;
     pending_inputs := pending_inputs s; crawler_adapter := true;
     page := page s; browser := browser s; browser_context := browser_context s;
     cookies_data := cookies_data s;
     on_status_change := on_status_change s;
     on_qrcode_generated := on_qrcode_generated s;
     on_input_required := on_input_required s;
     on_login_success := on_login_success s |}.

(** [LoginManager.remove_login_session]: the handles are closed, the
    table entry deleted. *)
Definition remove_login_session (task_id : text) (m : LoginManager) : LoginManager :=
  match sessions m !! task_id with
  | Some ref =>
      let m' := set_object ref (set_handles false) m in
      {| objects := objects m'; sessions := delete task_id (sessions m');
         cookie_files := cookie_files m'; monitors := monitors m' |}
  | None => m
  end.

(** *** The browser, as the manager observes it *)

Record cookie := {
  name : text;
  value : text;
  domain : option text;
  path : option text
}.

(** [browser_context.cookies()] at a given clock reading. *)
Definition Browser := Q -> pyresult (list cookie).

(** What the platform driver answers during [start_login_process]. *)
Record Driver := {
  init_error : option pyexc;         (* _init_browser_for_session *)
  navigate_error : option pyexc;     (* _navigate_to_login_page *)
  switch_error : option pyexc;       (* _switch_to_phone_login *)
  page_url : text
}.

Definition deref (ref : nat) : py LoginManager LoginSession :=
  m <- get ;;
  match objects m !! ref with
  | Some s => ret s
  | None => raise (AttributeError (u "session"))
  end.

(** [await session.browser_context.cookies()] *)
Definition read_cookies (jar : Browser) (now : Q) (ref : nat) : py LoginManager (list cookie) :=
  s <- deref ref ;;
  if browser_context s then lift (jar now)
  else raise (AttributeError (u "cookies")).

(** The value of the first cookie named [web_session]. *)
Fixpoint web_session (cs : list cookie) : option text :=
  match cs with
  | [] => None
  | c :: cs' => if bool_decide (name c = u "web_session") then Some (value c)
                else web_session cs'
  end.

Definition render_cookie (c : cookie) : text :=
  name c ++ u "=" ++ value c
  ++ match domain c with Some (x :: d) => u "; Domain=" ++ x :: d | _ => [] end
  ++ match path c with Some (x :: p) => u "; Path=" ++ x :: p | _ => [] end.

(** [LoginManager._extract_cookies] *)
Definition _extract_cookies (jar : Browser) (now : Q) (ref : nat)
    : py LoginManager (option text) :=
  try_except
    (s <- deref ref ;;
     if page s && browser_context s then
       cookies <- lift (jar now) ;;
       ret (Some (join (u "; ") (map render_cookie cookies)))
     else ret None)
    (fun _ => ret None).

(** [LoginManager.save_login_cookies]: the session is looked up again
    through the table. *)
Definition save_login_cookies (task_id cookies : text) : py LoginManager bool :=
  m <- get ;;
  match get_login_session task_id m with
  | None => ret false
  | Some ref =>
      s <- deref ref ;;
      modify (set_object ref (set_cookies_data cookies)) ;;
      modify (set_object ref (update_status SUCCESS (u "登录成功，cookies已保存") None)) ;;
      modify (fun m =>
        {| objects := objects m; sessions := sessions m;
           cookie_files := <[(task_id, platform s) := cookies]> (cookie_files m);
           monitors := monitors m |}) ;;
      ret true
  end.

Definition is_terminal (s : LoginStatus) : bool :=
  bool_decide (s = SUCCESS) || bool_decide (s = FAILED) || bool_decide (s = TIMEOUT).

(** The loop of [_monitor_client_login].  The clock advances by the two
    seconds of each [asyncio.sleep(2)]; no other coroutine touches the
    manager while the monitor waits.  The answer is the clock reading at
    which the loop is left, [None] when [fuel] polls did not suffice. *)
Fixpoint monitor_loop (fuel : nat) (jar : Browser) (ref : nat) (timeout start_time now : Q)
    (initial_web_session : option text) : py LoginManager (option Q) :=
  match fuel with
  | O => ret None
  | S fuel' =>
      if Qle_bool timeout (now - start_time) then ret (Some now)
      else
        m <- get ;;
        session <- deref ref ;;
        if bool_decide (sessions m !! task_id session = None) then ret (Some now)
        else if is_terminal (status session) then ret (Some now)
        else
          current_cookies <- read_cookies jar now ref ;;
          let current_web_session := web_session current_cookies in
          match current_web_session with
          | Some (c :: v) =>
              if bool_decide (Some (c :: v) = initial_web_session) then
                monitor_loop fuel' jar ref timeout start_time (now + 2)%Q initial_web_session
              else
                cookies <- _extract_cookies jar now ref ;;
                match cookies with
                | Some (x :: cs) =>
                    modify (set_object ref (set_cookies_data (x :: cs))) ;;
                    save_login_cookies (task_id session) (x :: cs) ;;
                    ret tt
                | _ => ret tt
                end ;;
                modify (set_object ref
                          (update_status SUCCESS (u "登录成功，cookies已保存") None)) ;;
                ret (Some now)
          | _ => monitor_loop fuel' jar ref timeout start_time (now + 2)%Q initial_web_session
          end
  end.

(** [LoginManager._monitor_client_login], started at clock reading
    [start_time].  The deadline is the local constant of the source. *)
Definition _monitor_client_login (fuel : nat) (jar : Browser) (ref : nat) (start_time : Q)
    : py LoginManager (option Q) :=
  try_except
    (let timeout := 300%Q in
     initial_cookies <- read_cookies jar start_time ref ;;
     let initial_web_session := web_session initial_cookies in
     left_at <- monitor_loop fuel jar ref timeout start_time start_time initial_web_session ;;
     match left_at with
     | None => ret None
     | Some t =>
         session <- deref ref ;;
         (if bool_decide (status session = SUCCESS) || bool_decide (status session = FAILED)
          then ret tt
          else modify (set_object ref (update_status TIMEOUT (u "登录超时，请重新尝试") None))) ;;
         ret (Some t)
     end)
    (fun e =>
       modify (set_object ref
                 (update_status FAILED (u "监控登录状态失败: " ++ exc_str e) None)) ;;
       ret None).

Definition response (task_id : text) (st : LoginStatus) (msg : text)
    (d input : option pydict) : LoginResponse :=
  {| resp_task_id := task_id; resp_status := st; resp_message := msg;
     resp_data := d; qrcode_image := None; input_required := input |}.

Definition mark (ref : nat) (st : LoginStatus) (msg : text) : py LoginManager unit :=
  modify (set_object ref (update_status st msg None)).

(** [LoginManager._handle_cookie_login] *)
Definition _handle_cookie_login (ref : nat) : py LoginManager LoginResponse :=
  session <- deref ref ;;
  mark ref PENDING (u "开始Cookie登录") ;;
  mark ref SUCCESS (u "Cookie登录成功") ;;
  ret (response (task_id session) SUCCESS (u "Cookie登录成功") None None).

(** [LoginManager._handle_qrcode_login]: the monitor is scheduled, not
    run. *)
Definition _handle_qrcode_login (drv : Driver) (ref : nat) : py LoginManager LoginResponse :=
  session <- deref ref ;;
  mark ref PENDING (u "准备打开登录页面") ;;
  try_except
    ((if bool_decide (platform session = u "xhs")
      then lift (of_option (navigate_error drv)) else ret tt) ;;
     mark ref QRCODE_GENERATED (u "请在浏览器中完成登录，登录成功后系统将自动检测") ;;
     modify (fun m =>
       {| objects := objects m; sessions := sessions m;
          cookie_files := cookie_files m; monitors := monitors m ++ [ref] |}) ;;
     ret (response (task_id session) QRCODE_GENERATED
            (u "登录页面已打开，请在浏览器中完成登录。支持扫码登录、短信登录等方式。")
            (Some [(u "login_url",
                    VStr (if page session then page_url drv
                          else u "https://www.xiaohongshu.com/explore"));
                   (u "instructions",
                    VStr (u "请在打开的浏览器窗口中完成登录，登录成功后系统将自动检测并保存cookies"))])
            None))
    (fun e =>
       mark ref FAILED (u "打开登录页面失败: " ++ exc_str e) ;;
       ret (response (task_id session) FAILED (u "打开登录页面失败: " ++ exc_str e) None None)).

(** [LoginManager._handle_phone_login] *)
Definition _handle_phone_login (drv : Driver) (ref : nat) : py LoginManager LoginResponse :=
  session <- deref ref ;;
  mark ref PENDING (u "开始手机号登录") ;;
  try_except
    ((if bool_decide (platform session = u "xhs")
      then lift (of_option (navigate_error drv)) ;; lift (of_option (switch_error drv))
      else ret tt) ;;
     mark ref PHONE_INPUT_REQUIRED (u "请输入手机号") ;;
     ret (response (task_id session) PHONE_INPUT_REQUIRED (u "请输入手机号") None
            (Some [(u "type", VStr (u "phone")); (u "placeholder", VStr (u "请输入手机号"))])))
    (fun e =>
       mark ref FAILED (u "手机号登录出错: " ++ exc_str e) ;;
       ret (response (task_id session) FAILED (u "手机号登录出错: " ++ exc_str e) None None)).

(** [LoginManager.start_login_process] *)
Definition start_login_process (drv : Driver) (task_id : text)
    : py LoginManager LoginResponse :=
  m <- get ;;
  match get_login_session task_id m with
  | None => ret (response task_id FAILED (u "登录会话不存在") None None)
  | Some ref =>
      modify (set_object ref set_adapter) ;;
      try_except
        (lift (of_option (init_error drv)) ;;
         modify (set_object ref (set_handles true)) ;;
         session <- deref ref ;;
         match login_type session with
         | COOKIE => _handle_cookie_login ref
         | QRCODE => _handle_qrcode_login drv ref
         | PHONE => _handle_phone_login drv ref
         end)
        (fun e =>
           mark ref FAILED (u "登录流程出错: " ++ exc_str e) ;;
           ret (response task_id FAILED (u "登录流程出错: " ++ exc_str e) None None))
  end.

End Login.

(** ** The endpoints of [app/main.py] and [app/api/login.py] *)

Module Api.

(** [except HTTPException: raise] followed by
    [except Exception as e: raise HTTPException(500, prefix + str(e))]. *)
Definition reraise_500 {S A} (prefix : text) (m : py S A) : py S A :=
  fun s =>
    match m s with
    | (Raise (HTTPException c d), s') => (Raise (HTTPException c d), s')
    | (Raise e, s') =>
        if is_Exception e then (Raise (HTTPException 500 (prefix ++ exc_str e)), s')
        else (Raise e, s')
    | r => r
    end.

(** *** [app/main.py] *)



(** [PLATFORM_MAPPING]; the values of the enumeration [PlatformType] are
    the same seven strings. *)
Definition PLATFORM_MAPPING (p : text) : option PlatformType :=
  if bool_decide (p = u "xhs") then Some XHS
  else if bool_decide (p = u "douyin") then Some DOUYIN
  else if bool_decide (p = u "bilibili") then Some BILIBILI
  else if bool_decide (p = u "kuaishou") then Some KUAISHOU
  else if bool_decide (p = u "weibo") then Some WEIBO
  else if bool_decide (p = u "tieba") then Some TIEBA
  else if bool_decide (p = u "zhihu") then Some ZHIHU
  else None.





(** The endpoint [stop_task] *)
Definition stop_task (task_id : text) : py State text :=
  reraise_500 []
    (ok <- Adapter.stop_task task_id ;;
     if ok : bool then ret (u "任务已停止")
     else raise (HTTPException 404 (u "任务不存在或已完成"))).

(** *** [app/api/login.py] *)

Record CreateLoginSessionRequest := {
  req_task_id : text;
  req_platform : text;
  req_login_type : text;
  req_timeout : Z;
  req_cookies : option text
}.

Record CreateLoginSessionResponse := {
  created_success : bool;
  created_message : text;
  created_task_id : text;
  session_created : bool
}.

(** The endpoint [create_login_session].  Its only handler is
    [except Exception], so the 400 raised for an unknown login type
    leaves as a 500. *)
Definition create_login_session (now : Q) (request : CreateLoginSessionRequest)
    : py Login.LoginManager CreateLoginSessionResponse :=
  try_except
    (login_type <-
       match Login.LoginType_of (req_login_type request) with
       | Some t => ret t
       | None =>
           raise (HTTPException 400
                    (u "不支持的登录类型: " ++ req_login_type request
                     ++ u "，支持的类型: qrcode, phone, cookie"))
       end ;;
     m <- get ;;
     match Login.get_login_session (req_task_id request) m with
     | Some _ =>
         ret {| created_success := false;
                created_message := u "任务 " ++ req_task_id request ++ u " 已存在登录会话";
                created_task_id := req_task_id request;
                session_created := false |}
     | None =>
         let (ref, m') :=
           Login.create_login_session now (req_task_id request) (req_platform request)
             login_type (req_timeout request) m in
         modify (fun _ => m') ;;
         match login_type, req_cookies request with
         | Login.COOKIE, Some (c :: cs) =>
             modify (Login.set_object ref
                       (fun s => Login.set_data
                                   (Login.dict_set (Login.data s) (u "cookies") (VStr (c :: cs))) s))
         | _, _ => ret tt
         end ;;
         ret {| created_success := true;
                created_message := u "登录会话创建成功";
                created_task_id := req_task_id request;
                session_created := true |}
     end)
    (fun e => raise (HTTPException 500 (u "创建登录会话失败: " ++ exc_str e))).

End Api.

(** ** Vocabulary of the properties *)

Module Spec.

(** A computation that always ends with a value. *)
Definition returns {S A} (m : py S A) : Prop :=
  forall s, exists a s', m s = (Ret a, s').

(** A result that [except Exception] would catch, if it is an exception. *)
Definition exn_ok {A} (r : pyresult A) : Prop :=
  match r with
  | Raise e => is_Exception e = true
  | Ret _ => True
  end.

Definition safe {S A} (m : py S A) : Prop := forall s, exn_ok (fst (m s)).

(** A computation of the adapter that ends with a value and leaves the
    table of running tasks as it was. *)
Definition steady {A} (m : py State A) : Prop :=
  forall w, exists a w', m w = (Ret a, w') /\ running_tasks w' = running_tasks w.

(** The dict stored by the handler of [_run_mediacrawler_process]. *)
Definition failure_result (e : pyexc) : pydict :=
  [(u "success", VBool false);
   (u "message", VStr (u "执行MediaCrawler时发生错误: " ++ exc_str e));
   (u "data_count", VInt 0);
   (u "error_count", VInt 1);
   (u "data", VList [])].

(** The dict answered by the handler of [_execute_crawler_process] when
    the name [task] cannot be loaded. *)
Definition name_error_answer : pydict :=
  [(u "success", VBool false);
   (u "error", VStr (u "执行异常: " ++ exc_str (NameError (u "task"))))].

Definition item_assignment_error : pyexc :=
  TypeError (u "'_asyncio.Task' object does not support item assignment").

Definition not_cancelled (o : option pyexc) : Prop :=
  from_option is_Exception true o = true.

(** The lines the adapter keeps from one of the two pipes of a run, and
    the text it builds from the standard output. *)
Definition captured_lines {U : Unicode} (err : bool) (out : list out_line) : list text :=
  omap (fun l => if bool_decide (from_stderr l = err)
                 then match strip (raw l) with [] => None | t => Some t end
                 else None) out.

Definition captured_stdout {U : Unicode} (run : ProcessRun) : text :=
  join newline (captured_lines false (output run)).

(** The journal after the adapter has parsed the lines of [lines], each
    with its clock reading. *)
Definition feed {U : Unicode} (lines : list (Q * text)) (l : TaskLogger) : TaskLogger :=
  fold_left (fun l tl => snd (_parse_progress_from_line (fst tl) (snd tl) l)) lines l.

Definition percent_in_range (l : TaskLogger) : Prop :=
  (0 <= progress_percent (progress l) <= 100)%Q.

Definition keeps_range {A} (m : py TaskLogger A) : Prop :=
  forall l, percent_in_range l -> percent_in_range (snd (m l)).


(** The class and quantifier of each group of a pattern, in order. *)
Fixpoint group_classes (r : regex) : list (charclass * quant) :=
  match r with
  | [] => []
  | Atom _ _ :: r' => group_classes r'
  | Group c q :: r' => (c, q) :: group_classes r'
  end.

(** What a group can capture: characters of its class, at least one
    unless the quantifier allows none. *)
Definition captured_by {U : Unicode} (g : text) (cq : charclass * quant) : Prop :=
  Forall (fun x => accepts (fst cq) x = true) g
  /\ (snd cq = Plus \/ snd cq = Once -> g <> []).

(** A cache file whose [cookies] field is missing, empty or null. *)
Definition blank_cookies (d : pydict) : Prop :=
  match dict_get d (u "cookies") with
  | Some v => truthy v = false
  | None => True
  end.

End Spec.

Export Spec.

(** ** Concrete runs *)

Module Scenario.

Definition w0 : State :=
  {| running_tasks := ∅; task_results := ∅; task_loggers := ∅;
     cookies_manager := {| files := ∅; read_only := false |} |}.

Definition job : CrawlerTask :=
  {| Adapter.task_id := u "job-1"; Adapter.platform := XHS; Adapter.task_type := SEARCH;
     Adapter.keywords := Some [u "a"; u "b"]; Adapter.content_ids := None;
     Adapter.creator_ids := None;
     Adapter.max_count := 5; Adapter.max_comments := 50; Adapter.start_page := 1;
     Adapter.enable_proxy := false; Adapter.headless := true;
     Adapter.enable_comments := true; Adapter.enable_sub_comments := false;
     Adapter.save_data_option := u "db"; Adapter.config := None;
     Adapter.clear_cookies_flag := false |}.

(** The process prints [保存 42 条] and exits with code 0. *)
Definition run42 : ProcessRun :=
  {| begin_time := 1; config_error := None; spawn_error := None;
     output := [ {| at_time := 2; from_stderr := false; raw := u "保存 42 条" |} ];
     returncode := 0; exit_time := 3; artifacts := [] |}.

(** The adapter after [job] has been submitted. *)
Definition started : State := snd (start_crawler_task 0 job w0).


Definition fresh_journal : TaskLogger := new_TaskLogger 0 (u "job-1") (u "xhs").

Definition empty_cache : CookiesManager := {| files := ∅; read_only := false |}.

Definition lm0 : Login.LoginManager :=
  {| Login.objects := ∅; Login.sessions := ∅; Login.cookie_files := ∅;
     Login.monitors := [] |}.

(** A qrcode session created at time 0 with a timeout of 60 seconds. *)
Definition lm_created : Login.LoginManager :=
  snd (Login.create_login_session 0 (u "job-1") (u "xhs") Login.QRCODE 60 lm0).

Definition driver : Login.Driver :=
  {| Login.init_error := None; Login.navigate_error := None;
     Login.switch_error := None;
     Login.page_url := u "https://www.xiaohongshu.com/explore" |}.

(** The same session once [start_login_process] has opened the login page
    and scheduled the monitor. *)
Definition lm_waiting : Login.LoginManager :=
  snd (Login.start_login_process driver (u "job-1") lm_created).

Definition waiting_session : Login.LoginSession :=
  {| Login.task_id := u "job-1"; Login.platform := u "xhs";
     Login.login_type := Login.QRCODE; Login.status := Login.QRCODE_GENERATED;
     Login.start_time := 0; Login.timeout := 60; Login.data := [];
     Login.pending_inputs := []; Login.crawler_adapter := true;
     Login.page := true; Login.browser := true; Login.browser_context := true;
     Login.cookies_data := None;
     Login.on_status_change := Some Login.On_status_change;
     Login.on_qrcode_generated := Some Login.On_qrcode_generated;
     Login.on_input_required := Some Login.On_input_required;
     Login.on_login_success := None |}.

(** A browser whose marker cookie keeps its value. *)
Definition guest_cookies : list Login.cookie :=
  [ {| Login.name := u "web_session"; Login.value := u "guest";
       Login.domain := Some (u ".xiaohongshu.com"); Login.path := Some (u "/") |} ].

Definition idle_browser : Login.Browser := fun _ => Ret guest_cookies.

Definition second_request : Api.CreateLoginSessionRequest :=
  {| Api.req_task_id := u "job-1"; Api.req_platform := u "dy";
     Api.req_login_type := u "phone"; Api.req_timeout := 300;
     Api.req_cookies := None |}.

End Scenario.

Import Scenario.

(** ** [app/core/logging.py]: the logging manager *)

Module LoggingManager.

(** [LoggingManager.get_task_logger] *)
Definition get_task_logger (task_id : text) (w : State) : option TaskLogger :=
  task_loggers w !! task_id.

(** [LoggingManager.get_task_progress] *)
Definition get_task_progress (task_id : text) (w : State) : option TaskProgress :=
  match get_task_logger task_id w with
  | Some task_logger => Some (progress task_logger)
  | None => None
  end.

(** [LoggingManager.get_task_events] *)
Definition get_task_events (task_id : text) (limit : Z) (w : State) : list TaskEvent :=
  match get_task_logger task_id w with
  | Some task_logger => get_recent_events limit task_logger
  | None => []
  end.

(** [LoggingManager.cleanup_task_logger]: the journal gets a closing
    event and stays in the table. *)
Definition cleanup_task_logger (now : Q) (task_id : text) : py State unit :=
  w <- get ;;
  match task_loggers w !! task_id with
  | Some _ => log task_id now TASK_COMPLETED (txt (u "任务日志记录器已清理")) None None
  | None => ret tt
  end.

End LoggingManager.

(** ** [app/crawler/adapter.py]: queries and maintenance *)

Module Queries.

Import LoggingManager.

(** The dict answered by [get_task_status]; a key that is not set is
    [None]. *)
Record TaskStatus := {
  st_task_id : text;
  st_status : text;
  st_done : bool;
  st_success : option bool;
  st_message : option text;
  st_data_count : option Z;
  st_error_count : option Z;
  st_progress : option TaskProgress
}.

(** [task.done()] *)
Definition done (t : TaskState) : bool :=
  match t with
  | Pending => false
  | Done _ => true
  end.

(** Reading an attribute of [CrawlerResult] from a stored result: a plain
    dict has none. *)
Definition result_attr (r : stored_result) (attr : text) : pyresult CrawlerResult :=
  match r with
  | ResultObject o => Ret o
  | ResultDict _ => Raise (AttributeError attr)
  end.

(** [MediaCrawlerAdapter.get_task_status] *)
Definition get_task_status (task_id : text) (w : State) : pyresult TaskStatus :=
  let progress := get_task_progress task_id w in
  match running_tasks w !! task_id with
  | Some task =>
      Ret {| st_task_id := task_id;
             st_status := if negb (done task) then u "running" else u "completed";
             st_done := done task;
             st_success := None; st_message := None;
             st_data_count := None; st_error_count := None;
             st_progress := progress |}
  | None =>
      match task_results w !! task_id with
      | Some result =>
          match result_attr result (u "success") with
          | Ret r =>
              Ret {| st_task_id := task_id;
                     st_status := u "completed";
                     st_done := true;
                     st_success := Some (success r);
                     st_message := Some (message r);
                     st_data_count := Some (data_count r);
                     st_error_count := Some (error_count r);
                     st_progress := progress |}
          | Raise e => Raise e
          end
      | None =>
          Ret {| st_task_id := task_id;
                 st_status := u "not_found";
                 st_done := false;
                 st_success := None; st_message := None;
                 st_data_count := None; st_error_count := None;
                 st_progress := progress |}
      end
  end.

(** [MediaCrawlerAdapter.get_task_events]: the events, each as the dict of
    its fields. *)
Definition get_task_events (task_id : text) (limit : Z) (w : State) : list TaskEvent :=
  LoggingManager.get_task_events task_id limit w.

(** [a <= b] on two [str]: code point by code point. *)
Fixpoint text_leb (a b : text) : bool :=
  match a, b with
  | [], _ => true
  | _ :: _, [] => false
  | x :: a', y :: b' => (x <? y) || ((x =? y) && text_leb a' b')
  end.

Definition text_le (a b : text) : Prop := text_leb a b = true.

#[global] Instance text_le_dec (a b : text) : Decision (text_le a b).
Proof. unfold text_le. apply _. Defined.

(** [sorted(self.task_results.items(), key=lambda x: x[0])], as the list
    of its keys. *)
Definition sorted_tasks (results : gmap text stored_result) : list text :=
  merge_sort text_le (map fst (map_to_list results)).

(** The loop of [cleanup_completed_tasks]. *)
Fixpoint remove_tasks (now : Q) (tasks_to_remove : list text) : py State unit :=
  match tasks_to_remove with
  | [] => ret tt
  | task_id :: rest =>
      modify (set_results (delete task_id)) ;;
      cleanup_task_logger now task_id ;;
      remove_tasks now rest
  end.

Record Cleanup := {
  cleaned_tasks : Z;
  remaining_tasks : Z;
  cleanup_message : text
}.

(** [MediaCrawlerAdapter.cleanup_completed_tasks], at clock reading
    [now]. *)
Definition cleanup_completed_tasks (now : Q) : py State Cleanup :=
  w <- get ;;
  let before_count := size (task_results w) in
  (if (100 <? before_count)%nat then
     (* sorted_tasks[:-100] *)
     remove_tasks now (take (before_count - 100)%nat (sorted_tasks (task_results w)))
   else ret tt) ;;
  w' <- get ;;
  let after_count := size (task_results w') in
  let cleaned_count := Z.of_nat before_count - Z.of_nat after_count in
  ret {| cleaned_tasks := cleaned_count;
         remaining_tasks := Z.of_nat after_count;
         cleanup_message := u "已清理 " ++ str_int cleaned_count ++ u " 个已完成的任务" |}.

(** The answer of [get_system_stats]: the counts of the tasks and of
    their data, and the three entries of the key [system]. *)
Record SystemStats := {
  running : Z;
  completed : Z;
  succeeded : Z;           (* the key success *)
  failed : Z;
  total_crawled : Z;
  total_errors : Z;
  uptime : Z;
  memory_usage : Z;
  active_loggers : Z
}.

(** [sum(f(result) for result in self.task_results.values())], where [f]
    reads the attribute [attr] of each result. *)
Fixpoint sum_results (attr : text) (f : CrawlerResult -> Z) (rs : list stored_result)
    : pyresult Z :=
  match rs with
  | [] => Ret 0
  | r :: rs' =>
      match result_attr r attr with
      | Raise e => Raise e
      | Ret o =>
          match sum_results attr f rs' with
          | Ret n => Ret (f o + n)
          | Raise e => Raise e
          end
      end
  end.

(** [MediaCrawlerAdapter.get_system_stats]; the order in which the
    results are visited does not matter to the sums.  [log_files_error]
    is what listing the log files raises in
    [logging_manager.get_system_stats], whose answer has none of the three
    keys read from it. *)
Definition get_system_stats (log_files_error : option pyexc) (w : State)
    : pyresult SystemStats :=
  let results := map snd (map_to_list (task_results w)) in
  let running_count := Z.of_nat (size (running_tasks w)) in
  let completed_count := Z.of_nat (size (task_results w)) in
  match sum_results (u "success") (fun r => if success r then 1 else 0) results with
  | Raise e => Raise e
  | Ret success_count =>
      match sum_results (u "data_count") data_count results with
      | Raise e => Raise e
      | Ret total_data_count =>
          match sum_results (u "error_count") error_count results with
          | Raise e => Raise e
          | Ret total_error_count =>
              match of_option log_files_error with
              | Raise e => Raise e
              | Ret _ =>
                  Ret {| running := running_count;
                         completed := completed_count;
                         succeeded := success_count;
                         failed := completed_count - success_count;
                         total_crawled := total_data_count;
                         total_errors := total_error_count;
                         uptime := 0; memory_usage := 0; active_loggers := 0 |}
              end
          end
      end
  end.

End Queries.

(** ** [app/core/cookies_manager.py]: the status of a cache entry *)

Module CookieStatus.

(** The dict answered by [get_cookies_status], without the path of the
    file.  [status_age] is [None] for the initial [0] and [Some a] for
    [round(a, 1)]. *)
Record CookiesStatus := {
  status_platform : text;
  has_cache : bool;
  is_valid : bool;
  status_age : option Q;
  saved_date : pyval
}.

(** [CookiesManager.get_cookies_status], at clock reading [now]. *)
Definition get_cookies_status (now : Q) (platform : text) (max_age_days : Z)
    (m : CookiesManager) : CookiesStatus :=
  let status valid cache age date :=
    {| status_platform := platform; has_cache := cache; is_valid := valid;
       status_age := age; saved_date := date |} in
  match files m !! platform with
  | None => status false false None VNone            (* not cookies_file.exists() *)
  | Some Unreadable => status false false None VNone
  | Some JsonOther => status false true None VNone   (* no method get *)
  | Some (JsonObject cookies_data) =>
      let date := default VNone (dict_get cookies_data (u "saved_date")) in
      let saved_time := default (VInt 0) (dict_get cookies_data (u "saved_time")) in
      let current_time := int_of_float now in
      match age_days current_time saved_time with
      | Raise _ => status false true None date
      | Ret age =>
          status
            (truthy (default VNone (dict_get cookies_data (u "cookies")))
             && Qle_bool age (inject_Z max_age_days))
            true (Some age) date
      end
  end.

End CookieStatus.
(** ** [app/core/login_manager.py]: the inputs of a phone login *)

Module LoginInputs.

Import Login.

Record LoginInput := {
  input_task_id : text;
  input_type : text;
  input_value : text
}.

(** What the platform driver answers to the steps of a phone login. *)
Record InputDriver := {
  fill_phone_error : option pyexc;     (* _fill_phone_number *)
  send_code_error : option pyexc;      (* _send_verification_code *)
  fill_code_error : option pyexc;      (* _fill_verification_code *)
  submit_error : option pyexc;         (* _submit_login *)
  login_result : pyresult bool         (* _wait_for_login_success *)
}.

(** A step of the driver: only the platform [xhs] has one, the others
    [pass]. *)
Definition step (session : LoginSession) (err : option pyexc) : py LoginManager unit :=
  if bool_decide (platform session = u "xhs") then lift (of_option err) else ret tt.

(** [LoginManager._wait_for_login_success] *)
Definition _wait_for_login_success (drv : InputDriver) (session : LoginSession)
    : py LoginManager bool :=
  if bool_decide (platform session = u "xhs") then lift (login_result drv) else ret false.

(** [LoginManager._handle_phone_input] *)
Definition _handle_phone_input (drv : InputDriver) (ref : nat) : py LoginManager LoginResponse :=
  session <- deref ref ;;
  try_except
    (step session (fill_phone_error drv) ;;
     step session (send_code_error drv) ;;
     mark ref VERIFICATION_CODE_REQUIRED (u "验证码已发送，请输入") ;;
     ret (response (task_id session) VERIFICATION_CODE_REQUIRED (u "验证码已发送，请输入") None
            (Some [(u "type", VStr (u "verification_code"));
                   (u "placeholder", VStr (u "请输入验证码"))])))
    (fun e =>
       mark ref FAILED (u "手机号输入失败: " ++ exc_str e) ;;
       ret (response (task_id session) FAILED (u "手机号输入失败: " ++ exc_str e) None None)).

(** [LoginManager._handle_verification_code_input] *)
Definition _handle_verification_code_input (drv : InputDriver) (ref : nat)
    : py LoginManager LoginResponse :=
  session <- deref ref ;;
  try_except
    (step session (fill_code_error drv) ;;
     step session (submit_error drv) ;;
     ok <- _wait_for_login_success drv session ;;
     if ok : bool then
       mark ref SUCCESS (u "登录成功") ;;
       ret (response (task_id session) SUCCESS (u "登录成功") None None)
     else
       mark ref FAILED (u "登录失败，请检查验证码") ;;
       ret (response (task_id session) FAILED (u "登录失败，请检查验证码") None None))
    (fun e =>
       mark ref FAILED (u "验证码输入失败: " ++ exc_str e) ;;
       ret (response (task_id session) FAILED (u "验证码输入失败: " ++ exc_str e) None None)).

(** [LoginManager.handle_login_input] *)
Definition handle_login_input (drv : InputDriver) (task_id : text) (input_data : LoginInput)
    : py LoginManager LoginResponse :=
  m <- get ;;
  match get_login_session task_id m with
  | None => ret (response task_id FAILED (u "登录会话不存在") None None)
  | Some ref =>
      try_except
        (if bool_decide (input_type input_data = u "phone")
         then _handle_phone_input drv ref
         else if bool_decide (input_type input_data = u "verification_code")
         then _handle_verification_code_input drv ref
         else ret (response task_id FAILED
                     (u "不支持的输入类型: " ++ input_type input_data) None None))
        (fun e =>
           mark ref FAILED (u "处理输入出错: " ++ exc_str e) ;;
           ret (response task_id FAILED (u "处理输入出错: " ++ exc_str e) None None))
  end.

(** [LoginManager.get_login_cookies] *)
Definition get_login_cookies (task_id : text) (m : LoginManager) : option text :=
  match session_of task_id m with
  | Some session => cookies_data session
  | None => None
  end.

(** [LoginManager.sync_cookies_to_mediacrawler]: it only reports whether
    there is something to synchronise. *)
Definition sync_cookies_to_mediacrawler (task_id : text) (m : LoginManager) : bool :=
  match get_login_cookies task_id m with
  | Some (_ :: _) => true
  | _ => false
  end.

End LoginInputs.

(** ** The other endpoints of [app/main.py] and [app/api/login.py] *)

Module Endpoints.

Import Api.

(** [except Exception as e: raise HTTPException(500, prefix + str(e))] *)
Definition raise_500 {S A} (prefix : text) (m : py S A) : py S A :=
  try_except m (fun e => raise (HTTPException 500 (prefix ++ exc_str e))).

(** *** [app/main.py] *)

(** The endpoint [get_task_status] *)
Definition get_task_status (task_id : text) : py State Queries.TaskStatus :=
  raise_500 [] (w <- get ;; lift (Queries.get_task_status task_id w)).

(** The endpoint [get_task_result]; the answer has the fields of
    [CrawlerResult]. *)
Definition get_task_result (task_id : text) : py State CrawlerResult :=
  reraise_500 []
    (w <- get ;;
     match Adapter.get_task_result task_id w with
     | None => raise (HTTPException 404 (u "任务不存在"))
     | Some result => lift (Queries.result_attr result (u "task_id"))
     end).

(** The endpoint [get_task_events]: the events and their count. *)
Definition get_task_events (task_id : text) (limit : Z) : py State (list TaskEvent * Z) :=
  raise_500 (u "获取任务事件失败: ")
    (w <- get ;;
     let events := Queries.get_task_events task_id limit w in
     ret (events, Z.of_nat (length events))).

(** The endpoint [get_system_stats] *)
Definition get_system_stats (log_files_error : option pyexc) : py State Queries.SystemStats :=
  raise_500 [] (w <- get ;; lift (Queries.get_system_stats log_files_error w)).





(** The endpoint [get_cookies_status] *)
Definition get_cookies_status (now : Q) (platform : text) : py State CookieStatus.CookiesStatus :=
  raise_500 (u "获取cookies状态失败: ")
    (w <- get ;; ret (CookieStatus.get_cookies_status now platform 7 (cookies_manager w))).

(** The endpoint [clear_platform_cookies]; the answer is the field
    [success]. *)
Definition clear_platform_cookies (platform : text) : py State bool :=
  raise_500 (u "清除cookies失败: ")
    (w <- get ;;
     let (ok, c) := Cookies.clear_cookies (Some platform) (cookies_manager w) in
     modify (set_cookies c) ;;
     ret ok).

(** The endpoint [clear_all_cookies] *)
Definition clear_all_cookies : py State bool :=
  raise_500 (u "清除所有cookies失败: ")
    (w <- get ;;
     let (ok, c) := Cookies.clear_cookies None (cookies_manager w) in
     modify (set_cookies c) ;;
     ret ok).

Record SaveCookiesRequest := {
  save_platform : text;
  save_cookies_blob : text;            (* the field cookies *)
  save_task_id : option text
}.

(** The endpoint [save_cookies] of [app/main.py] *)
Definition save_cookies (now : Q) (request : SaveCookiesRequest) : py State bool :=
  raise_500 (u "保存cookies失败: ")
    (w <- get ;;
     let (ok, c) := Cookies.save_cookies now (save_platform request)
                      (save_cookies_blob request) (save_task_id request)
                      (cookies_manager w) in
     modify (set_cookies c) ;;
     ret ok).

(** *** [app/api/login.py] *)

Record LoginStatusResponse := {
  ls_success : bool;
  ls_task_id : text;
  ls_status : text;
  ls_message : text;
  ls_data : option pydict;
  ls_qrcode_image : option text;
  ls_input_required : option pydict
}.

(** The endpoint [get_login_status], at clock reading [now]. *)
Definition get_login_status (now : Q) (task_id : text)
    : py Login.LoginManager LoginStatusResponse :=
  raise_500 (u "获取登录状态失败: ")
    (m <- get ;;
     let (response, m') := Login.get_login_status now task_id m in
     modify (fun _ => m') ;;
     ret {| ls_success := negb (bool_decide (Login.resp_status response = Login.FAILED));
            ls_task_id := Login.resp_task_id response;
            ls_status := Login.status_value (Login.resp_status response);
            ls_message := Login.resp_message response;
            ls_data := Login.resp_data response;
            ls_qrcode_image := Login.qrcode_image response;
            ls_input_required := Login.input_required response |}).

Record SubmitLoginInputRequest := {
  submit_task_id : text;
  submit_input_type : text;
  submit_value : text
}.

(** The endpoint [submit_login_input] *)
Definition submit_login_input (drv : LoginInputs.InputDriver) (task_id : text)
    (request : SubmitLoginInputRequest) : py Login.LoginManager LoginStatusResponse :=
  reraise_500 (u "提交登录输入失败: ")
    (if negb (bool_decide (submit_task_id request = task_id))
     then raise (HTTPException 400 (u "请求中的task_id与路径参数不匹配"))
     else
       let login_input :=
         {| LoginInputs.input_task_id := task_id;
            LoginInputs.input_type := submit_input_type request;
            LoginInputs.input_value := submit_value request |} in
       response <- LoginInputs.handle_login_input drv task_id login_input ;;
       ret {| ls_success :=
                negb (bool_decide (Login.resp_status response = Login.FAILED)
                      || bool_decide (Login.resp_status response = Login.TIMEOUT));
              ls_task_id := Login.resp_task_id response;
              ls_status := Login.status_value (Login.resp_status response);
              ls_message := Login.resp_message response;
              ls_data := Login.resp_data response;
              ls_qrcode_image := Login.qrcode_image response;
              ls_input_required := Login.input_required response |}).

(** The endpoint [delete_login_session]; closing the page first has no
    effect the manager can observe. *)
Definition delete_login_session (task_id : text) : py Login.LoginManager unit :=
  reraise_500 (u "删除登录会话失败: ")
    (m <- get ;;
     match Login.get_login_session task_id m with
     | None => raise (HTTPException 404 (u "登录会话不存在: " ++ task_id))
     | Some _ => modify (Login.remove_login_session task_id)
     end).

Record SaveLoginCookiesRequest := {            (* SaveCookiesRequest of api/login.py *)
  login_task_id : text;
  login_cookies : text;
  login_platform : text
}.

(** The endpoint [save_login_cookies]; the call of
    [sync_cookies_to_mediacrawler] that ends it changes nothing. *)
Definition save_login_cookies (request : SaveLoginCookiesRequest)
    : py Login.LoginManager unit :=
  reraise_500 (u "保存cookies失败: ")
    (m <- get ;;
     match Login.get_login_session (login_task_id request) m with
     | None => raise (HTTPException 404 (u "登录会话不存在: " ++ login_task_id request))
     | Some ref =>
         session <- Login.deref ref ;;
         if negb (bool_decide (Login.platform session = login_platform request))
         then raise (HTTPException 400
                       (u "平台不匹配: 会话平台=" ++ Login.platform session
                        ++ u ", 请求平台=" ++ login_platform request))
         else
           ok <- Login.save_login_cookies (login_task_id request) (login_cookies request) ;;
           if ok : bool then ret tt
           else raise (HTTPException 500 (u "保存cookies失败"))
     end).

Record LoginCookiesInfo := {
  info_task_id : text;
  info_platform : text;
  has_cookies : bool;
  cookies_length : Z;
  info_status : text
}.

(** The endpoint [get_login_cookies] *)
Definition get_login_cookies (task_id : text) : py Login.LoginManager LoginCookiesInfo :=
  reraise_500 (u "获取cookies失败: ")
    (m <- get ;;
     match Login.get_login_session task_id m with
     | None => raise (HTTPException 404 (u "登录会话不存在: " ++ task_id))
     | Some ref =>
         session <- Login.deref ref ;;
         let cookies := LoginInputs.get_login_cookies task_id m in
         ret {| info_task_id := task_id;
                info_platform := Login.platform session;
                has_cookies := bool_decide (cookies <> None);
                cookies_length := Z.of_nat (length (default [] cookies));
                info_status := Login.status_value (Login.status session) |}
     end).

End Endpoints.
(** ** More vocabulary *)

Module Vocabulary.

(** A computation on a journal that takes every journal to one related
    to it by [R]. *)
Definition related {A} (R : TaskLogger -> TaskLogger -> Prop) (m : py TaskLogger A) : Prop :=
  forall l, R l (snd (m l)).

(** The journal [l'] continues [l]: the events of [l] come first and the
    identity of the journal is the same. *)
Definition continues (l l' : TaskLogger) : Prop :=
  (exists new, events l' = events l ++ new)
  /\ tl_task_id l' = tl_task_id l
  /\ tl_platform l' = tl_platform l
  /\ start_time l' = start_time l.

(** From [l] to [l'] the count of failed items and the current item are
    the same, and the two other counts have not become negative. *)
Definition counts_sane (l l' : TaskLogger) : Prop :=
  items_failed (progress l') = items_failed (progress l)
  /\ current_item (progress l') = current_item (progress l)
  /\ (0 <= items_total (progress l) -> 0 <= items_total (progress l'))
  /\ (0 <= items_completed (progress l) -> 0 <= items_completed (progress l')).

(** Every pattern that [_parse_progress_from_line] tries, in order. *)
Definition progress_patterns : list pattern :=
  map (fun e => fst (fst e)) login_patterns
  ++ map (fun e => fst (fst e)) crawl_patterns
  ++ map (fun e => fst (fst e)) save_patterns.

Definition misses {U : Unicode} (line : text) (ps : list pattern) : Prop :=
  Forall (fun p => search (compiled p) line = None) ps.

(** The fixed arguments that open every command. *)
Definition base_command (task : CrawlerTask) : list pyval :=
  map VStr
    [u "python"; u "main.py";
     u "--platform"; _get_platform_string (platform task);
     u "--type"; task_type_value (task_type task);
     u "--max_count"; str_int (max_count task);
     u "--max_comments"; str_int (max_comments task);
     u "--headless"; bool_lower (headless task);
     u "--enable_proxy"; bool_lower (enable_proxy task);
     u "--save_data_option"; save_data_option task].

(** The arguments that name the targets of a task. *)
Definition target_arguments (task : CrawlerTask) : list pyval :=
  let platform_str := _get_platform_string (platform task) in
  match task_type task with
  | SEARCH =>
      match nonempty (keywords task) with
      | Some ks => [VStr (u "--keywords"); VStr (join (u ",") ks)]
      | None => []
      end
  | DETAIL =>
      match nonempty (content_ids task), content_flag platform_str with
      | Some ids, Some flag => [VStr flag; VStr (join (u ";") ids)]
      | _, _ => []
      end
  | CREATOR =>
      match nonempty (creator_ids task), creator_flag platform_str with
      | Some ids, Some flag => [VStr flag; VStr (join (u ";") ids)]
      | _, _ => []
      end
  end.

(** The string kept for an element of the cookie file of the crawler. *)
Definition cookie_pair (c : option (text * text)) : option text :=
  match c with
  | Some (name, value) => Some (name ++ u "=" ++ value)
  | None => None
  end.

(** The cookie arguments of a command, for what [load_cookies] answered. *)
Definition cookie_arguments (cached_cookies : option pyval) : list pyval :=
  match cached_cookies with
  | Some c => [VStr (u "--cookies"); c]
  | None => []
  end.

(** The result stored by [stop_task]. *)
Definition stopped_result (key : text) : CrawlerResult :=
  {| res_task_id := key; success := false; message := u "任务已被手动停止";
     data_count := 0; error_count := 0; data := None; errors := None |}.

(** An answer of the login manager that agrees with the store: the call
    returns a response whose status is one of [allowed] and is the status
    that the session object [ref] holds afterwards; the table of sessions
    is the one of [m]. *)
Definition settles (ref : nat) (allowed : list Login.LoginStatus) (m : Login.LoginManager)
    (out : pyresult Login.LoginResponse * Login.LoginManager) : Prop :=
  exists r s',
    fst out = Ret r
    /\ Login.objects (snd out) !! ref = Some s'
    /\ Login.status s' = Login.resp_status r
    /\ Login.resp_status r ∈ allowed
    /\ Login.sessions (snd out) = Login.sessions m.


End Vocabulary.

Export Vocabulary.
(** ** More concrete runs *)

Module Cases.

(** The journal of [job] once it has been submitted. *)
Definition started_journal : TaskLogger :=
  default fresh_journal (task_loggers started !! u "job-1").

(** A cache that holds cookies for two platforms, saved at time 1000. *)
Definition stocked : CookiesManager :=
  snd (save_cookies 1000 (u "dy") (u "sid=9") None
         (snd (save_cookies 1000 (u "xhs") (u "a=1; b=2") None empty_cache))).

Definition w_stocked : State :=
  {| running_tasks := ∅; task_results := ∅; task_loggers := ∅;
     cookies_manager := stocked |}.

(** [job], asking to clear the cookies. *)
Definition clearing_job : CrawlerTask :=
  {| Adapter.task_id := u "job-1"; Adapter.platform := XHS; Adapter.task_type := SEARCH;
     Adapter.keywords := Some [u "a"; u "b"]; Adapter.content_ids := None;
     Adapter.creator_ids := None;
     Adapter.max_count := 5; Adapter.max_comments := 50; Adapter.start_page := 1;
     Adapter.enable_proxy := false; Adapter.headless := true;
     Adapter.enable_comments := true; Adapter.enable_sub_comments := false;
     Adapter.save_data_option := u "db"; Adapter.config := None;
     Adapter.clear_cookies_flag := true |}.

Definition douyin_job : CrawlerTask :=
  {| Adapter.task_id := u "job-2"; Adapter.platform := DOUYIN; Adapter.task_type := SEARCH;
     Adapter.keywords := Some [u "a"]; Adapter.content_ids := None;
     Adapter.creator_ids := None;
     Adapter.max_count := 5; Adapter.max_comments := 50; Adapter.start_page := 1;
     Adapter.enable_proxy := false; Adapter.headless := true;
     Adapter.enable_comments := true; Adapter.enable_sub_comments := false;
     Adapter.save_data_option := u "db"; Adapter.config := None;
     Adapter.clear_cookies_flag := false |}.

(** The cookie file the crawler left: two named cookies and an element
    that is not one. *)
Definition left_cookies : list (option (text * text)) :=
  [Some (u "a", u "1"); None; Some (u "b", u "2")].

(** The session of [lm_created]. *)
Definition created_session : Login.LoginSession :=
  Login.set_callbacks
    (Login.set_timeout 60 (Login.new_LoginSession 0 (u "job-1") (u "xhs") Login.QRCODE)).

(** A phone session on douyin. *)
Definition lm_phone : Login.LoginManager :=
  snd (Login.create_login_session 0 (u "job-2") (u "dy") Login.PHONE 300 lm0).

Definition phone_session : Login.LoginSession :=
  Login.set_callbacks
    (Login.set_timeout 300 (Login.new_LoginSession 0 (u "job-2") (u "dy") Login.PHONE)).

Definition input_driver : LoginInputs.InputDriver :=
  {| LoginInputs.fill_phone_error := None; LoginInputs.send_code_error := None;
     LoginInputs.fill_code_error := None; LoginInputs.submit_error := None;
     LoginInputs.login_result := Ret true |}.

Definition email_input : LoginInputs.LoginInput :=
  {| LoginInputs.input_task_id := u "job-2"; LoginInputs.input_type := u "email";
     LoginInputs.input_value := u "a@b.c" |}.



(** The waiting session once cookies have been stored for it. *)
Definition lm_done : Login.LoginManager :=
  snd (Login.save_login_cookies (u "job-1") (u "web_session=member") lm_waiting).

Definition done_session : Login.LoginSession :=
  Login.update_status Login.SUCCESS (u "登录成功，cookies已保存") None
    (Login.set_cookies_data (u "web_session=member") waiting_session).


End Cases.

Import Cases.

(** * Properties *)

Section MonadLaws.
Context {S : Type}.

Lemma bind_ret_eq {A B} (m : py S A) (k : A -> py S B) s a s' :
  m s = (Ret a, s') -> bind m k s = k a s'.
Proof. intros H. unfold bind. now rewrite H. Qed.

Lemma bind_raise_eq {A B} (m : py S A) (k : A -> py S B) s e s' :
  m s = (Raise e, s') -> bind m k s = (Raise e, s').
Proof. intros H. unfold bind. now rewrite H. Qed.

Lemma safe_ret {A} (a : A) : safe (ret (S := S) a).
Proof. intros s. exact I. Qed.

Lemma safe_modify (f : S -> S) : safe (modify f).
Proof. intros s. exact I. Qed.

Lemma safe_lift {A} (r : pyresult A) : exn_ok r -> safe (lift (S := S) r).
Proof. intros H s. exact H. Qed.

Lemma safe_bind {A B} (m : py S A) (k : A -> py S B) :
  safe m -> (forall a, safe (k a)) -> safe (bind m k).
Proof.
  intros Hm Hk s. unfold bind. specialize (Hm s).
  destruct (m s) as [[a|e] s']; simpl in *; [apply Hk|exact Hm].
Qed.

Lemma safe_swallow (m : py S unit) : safe (swallow m).
Proof. intros s. unfold swallow. destruct (m s). exact I. Qed.

Lemma try_except_returns {A} (m : py S A) (h : pyexc -> py S A) :
  safe m -> (forall e, returns (h e)) -> returns (try_except m h).
Proof.
  intros Hm Hh s. unfold try_except. specialize (Hm s).
  destruct (m s) as [[a|e] s']; simpl in *.
  - eauto.
  - rewrite Hm. apply Hh.
Qed.

Lemma returns_ret {A} (a : A) : returns (ret (S := S) a).
Proof. intros s. unfold ret. eauto. Qed.

End MonadLaws.

Section ParserTotal.
Context {U : Unicode}.

Lemma group_int_ok gs i : exn_ok (group_int gs i).
Proof.
  unfold group_int. destruct (gs !! _); [|reflexivity].
  destruct (py_int _); [exact I|reflexivity].
Qed.

Lemma int_truediv_ok a b : exn_ok (int_truediv a b).
Proof. unfold int_truediv. destruct (b =? 0); [reflexivity|exact I]. Qed.

Lemma login_loop_safe now line ps : safe (login_loop now line ps).
Proof.
  induction ps as [|[[pat stage] percent] ps IH]; simpl.
  - apply safe_ret.
  - destruct (search _ _); [|exact IH].
    apply safe_bind; [apply safe_modify|intros; apply safe_ret].
Qed.

Lemma crawl_dynamic_safe now pat stage gs : safe (crawl_dynamic now pat stage gs).
Proof.
  unfold crawl_dynamic. destruct (_ && _); [|apply safe_ret].
  apply safe_bind; [apply safe_lift, group_int_ok|intros completed].
  apply safe_bind; [apply safe_lift, group_int_ok|intros total].
  destruct (0 <? total); [|apply safe_ret].
  apply safe_bind; [apply safe_lift, int_truediv_ok|intros; apply safe_modify].
Qed.

Lemma crawl_loop_safe now line ps : safe (crawl_loop now line ps).
Proof.
  induction ps as [|[[pat stage] percent] ps IH]; simpl.
  - apply safe_ret.
  - destruct (search _ _); [|exact IH].
    apply safe_bind; [|intros; apply safe_ret].
    destruct percent; [apply safe_modify|apply crawl_dynamic_safe].
Qed.

Lemma save_loop_safe now line ps : safe (save_loop now line ps).
Proof.
  induction ps as [|[[pat stage] percent] ps IH]; simpl.
  - apply safe_ret.
  - destruct (search _ _); [|exact IH].
    apply safe_bind; [apply safe_modify|intros _].
    apply safe_bind; [|intros; apply safe_ret].
    match goal with |- safe (if ?c then _ else _) => destruct c end;
      [apply safe_swallow|apply safe_ret].
Qed.

Lemma event_loop_safe now line ty prefix ps : safe (event_loop now line ty prefix ps).
Proof.
  induction ps as [|pat ps IH]; simpl.
  - apply safe_ret.
  - destruct (search _ _); [|exact IH].
    apply safe_bind; [apply safe_modify|intros; apply safe_ret].
Qed.

Lemma parse_progress_returns now line : returns (_parse_progress_from_line now line).
Proof.
  apply try_except_returns; [|intros; apply returns_ret].
  apply safe_bind; [apply login_loop_safe|intros [|]; [apply safe_ret|]].
  apply safe_bind; [apply crawl_loop_safe|intros [|]; [apply safe_ret|]].
  apply safe_bind; [apply save_loop_safe|intros [|]; [apply safe_ret|]].
  apply safe_bind; [apply event_loop_safe|intros [|]; [apply safe_ret|]].
  apply safe_bind; [apply event_loop_safe|intros; apply safe_ret].
Qed.

End ParserTotal.

Section AdapterRuns.
Context {U : Unicode}.

Lemma steady_ret {A} (a : A) : steady (ret a).
Proof. intros w. exists a, w. split; reflexivity. Qed.

Lemma steady_bind {A B} (m : py State A) (k : A -> py State B) :
  steady m -> (forall a, steady (k a)) -> steady (bind m k).
Proof.
  intros Hm Hk w. destruct (Hm w) as (a & w1 & E1 & R1).
  destruct (Hk a w1) as (b & w2 & E2 & R2).
  exists b, w2. split; [|congruence].
  unfold bind. now rewrite E1.
Qed.

Lemma steady_on_logger {A} key (m : py TaskLogger A) :
  returns m -> steady (on_logger key m).
Proof.
  intros Hm w. unfold on_logger, zoom.
  destruct (Hm (default (new_TaskLogger 0 key []) (task_loggers w !! key))) as (a & l' & E).
  rewrite E. exists a. eexists. split; reflexivity.
Qed.

Lemma steady_log key now ty msg d err : steady (log key now ty msg d err).
Proof.
  apply steady_on_logger. intros l. unfold modify. eauto.
Qed.

Lemma steady_drain key out a b : steady (drain key out a b).
Proof.
  revert a b. induction out as [|l out IH]; intros a b; simpl.
  - apply steady_ret.
  - destruct (strip (raw l)) as [|c line]; [apply IH|].
    destruct (from_stderr l).
    + apply steady_bind; [apply steady_log|intros; apply IH].
    + apply steady_bind; [|intros; apply IH].
      apply steady_on_logger, parse_progress_returns.
Qed.

Lemma steady_build_command now task : steady (_build_crawler_command now task).
Proof.
  intros w. unfold _build_crawler_command, bind, get.
  destruct (clear_cookies_flag task).
  - unfold modify, ret. eexists _, _. split; reflexivity.
  - destruct (load_cookies _ _ _ _); unfold ret; eexists _, _; split; reflexivity.
Qed.

Lemma task_is_unbound :
  load_name (execute_locals ++ module_globals) (u "task") = Raise (NameError (u "task")).
Proof. vm_compute. reflexivity. Qed.

(** Whatever the process did, [_execute_crawler_process] answers a dict
    that has the key [success] and lacks the key [message]. *)
Lemma execute_answers key cmd run (w : State) :
  from_option is_Exception true (spawn_error run) = true ->
  exists d w', _execute_crawler_process key cmd run w = (Ret d, w')
    /\ running_tasks w' = running_tasks w
    /\ dict_get d (u "message") = None
    /\ exists b, dict_get d (u "success") = Some (VBool b).
Proof.
  intros Hspawn. unfold _execute_crawler_process, try_except.
  destruct (spawn_error run) as [e|] eqn:Es; simpl in Hspawn.
  - (* the process could not be spawned *)
    erewrite bind_raise_eq by reflexivity. rewrite Hspawn.
    destruct (steady_log key (exit_time run) CRAWLER_ERROR
                (txt (u "执行MediaCrawler时发生异常: " ++ exc_str e)) None
                (Some (exc_str e)) w) as ([] & w1 & E1 & R1).
    erewrite bind_ret_eq by exact E1.
    eexists _, w1. split; [reflexivity|]. split; [exact R1|].
    split; [reflexivity|]. exists false. reflexivity.
  - erewrite bind_ret_eq by reflexivity.
    destruct (steady_drain key (output run) [] [] w) as (lines & w1 & E1 & R1).
    erewrite bind_ret_eq by exact E1.
    destruct (returncode run =? 0).
    + (* exit code 0: the name task cannot be loaded *)
      rewrite task_is_unbound. erewrite bind_raise_eq by reflexivity.
      cbn [is_Exception].
      destruct (steady_log key (exit_time run) CRAWLER_ERROR
                  (txt (u "执行MediaCrawler时发生异常: " ++ exc_str (NameError (u "task")))) None
                  (Some (exc_str (NameError (u "task")))) w1) as ([] & w2 & E2 & R2).
      erewrite bind_ret_eq by exact E2.
      eexists _, w2. split; [reflexivity|]. split; [congruence|].
      split; [reflexivity|]. exists false. reflexivity.
    + destruct (steady_log key (exit_time run) CRAWLER_ERROR
                  (txt (u "MediaCrawler执行失败: 退出码=" ++ str_int (returncode run)))
                  None (Some (join newline lines.2)) w1) as ([] & w2 & E2 & R2).
      erewrite bind_ret_eq by exact E2.
      eexists _, w2. split; [reflexivity|]. split; [congruence|].
      split; [reflexivity|]. exists false. reflexivity.
Qed.

End AdapterRuns.

Section RunOutcome.
Context {U : Unicode}.

(** The handler of [_run_mediacrawler_process], for a registered task. *)
Lemma run_handler key now (e : pyexc) (w : State) :
  is_Some (running_tasks w !! key) ->
  exists w',
    (log key now TASK_FAILED (txt (u "执行MediaCrawler时发生错误: " ++ exc_str e)) None None ;;
     modify (set_results <[key := ResultDict (failure_result e)]>) ;;
     task_setitem key ;;
     ret (failure_result e)) w = (Raise item_assignment_error, w')
    /\ task_results w' !! key = Some (ResultDict (failure_result e))
    /\ running_tasks w' = running_tasks w.
Proof.
  intros [t Ht].
  destruct (steady_log key now TASK_FAILED
              (txt (u "执行MediaCrawler时发生错误: " ++ exc_str e)) None None w)
    as ([] & w1 & E1 & R1).
  erewrite bind_ret_eq by exact E1.
  erewrite bind_ret_eq by reflexivity.
  eexists. split; [|split].
  - erewrite bind_raise_eq; [reflexivity|].
    unfold task_setitem. erewrite bind_ret_eq by reflexivity.
    cbn [running_tasks set_results]. rewrite R1, Ht. reflexivity.
  - cbn [task_results set_results]. apply lookup_insert_eq.
  - cbn [running_tasks set_results]. exact R1.
Qed.

Lemma run_outcome (task : CrawlerTask) (run : ProcessRun) (w : State) :
  is_Some (running_tasks w !! task_id task) ->
  not_cancelled (config_error run) ->
  not_cancelled (spawn_error run) ->
  exists e w',
    _run_mediacrawler_process task run w = (Raise item_assignment_error, w')
    /\ task_results w' !! task_id task = Some (ResultDict (failure_result e))
    /\ running_tasks w' = running_tasks w
    /\ (config_error run = None -> e = KeyError (u "message")).
Proof.
  intros Hreg Hcfg Hspawn. unfold _run_mediacrawler_process, try_except.
  destruct (steady_log (task_id task) (begin_time run) TASK_PROGRESS
              (txt (u "开始准备MediaCrawler")) None None w) as ([] & w1 & E1 & R1).
  erewrite bind_ret_eq by exact E1.
  destruct (config_error run) as [e|] eqn:Ec.
  - (* the configuration could not be built *)
    erewrite bind_raise_eq by reflexivity.
    unfold not_cancelled in Hcfg. simpl in Hcfg. rewrite Hcfg.
    destruct (run_handler (task_id task) (exit_time run) e w1) as (w' & E & T & R).
    { now rewrite R1. }
    exists e, w'. split; [exact E|]. split; [exact T|]. split; [congruence|]. discriminate.
  - erewrite bind_ret_eq by reflexivity.
    destruct (steady_build_command (begin_time run) task w1) as (cmd & w2 & E2 & R2).
    erewrite bind_ret_eq by exact E2.
    destruct (steady_log (task_id task) (begin_time run) TASK_PROGRESS
                (txt (u "开始执行MediaCrawler")) None None w2) as ([] & w3 & E3 & R3).
    erewrite bind_ret_eq by exact E3.
    destruct (execute_answers (task_id task) cmd run w3 Hspawn)
      as (d & w4 & E4 & R4 & Hmsg & b & Hok).
    erewrite bind_ret_eq by exact E4.
    unfold getitem. rewrite Hok, Hmsg.
    erewrite bind_ret_eq by reflexivity.
    erewrite bind_raise_eq by reflexivity.
    cbn [is_Exception].
    destruct (run_handler (task_id task) (exit_time run) (KeyError (u "message")) w4)
      as (w' & E & T & R).
    { rewrite R4, R3, R2, R1. exact Hreg. }
    exists (KeyError (u "message")), w'.
    split; [exact E|]. split; [exact T|]. split; [congruence|]. reflexivity.
Qed.

End RunOutcome.

Section Progress.
Context {U : Unicode}.

Lemma update_progress_percent now stage x total completed failed item l :
  progress_percent (progress (update_progress now stage (Some x) total completed failed item l)) = x.
Proof.
  unfold update_progress.
  match goal with |- context [if ?c then _ else _] => destruct c end; reflexivity.
Qed.


Lemma update_progress_stage now c s percent total completed failed item l :
  current_stage (progress (update_progress now (Some (c :: s)) percent total completed failed item l))
  = c :: s.
Proof.
  unfold update_progress.
  match goal with |- context [if ?c then _ else _] => destruct c end; reflexivity.
Qed.

Lemma int_digits_nonneg s : forall acc n, 0 <= acc -> int_digits acc s = Some n -> 0 <= n.
Proof.
  induction s as [|c s IH]; simpl; intros acc n Hacc H.
  - congruence.
  - destruct (decimal c) as [d|]; [|discriminate].
    eapply IH; [|exact H]. lia.
Qed.

Lemma py_int_nonneg s n : py_int s = Some n -> 0 <= n.
Proof.
  unfold py_int. destruct s; [discriminate|].
  apply int_digits_nonneg. lia.
Qed.

Lemma group_int_nonneg gs i n : group_int gs i = Ret n -> 0 <= n.
Proof.
  unfold group_int. destruct (gs !! _); [|discriminate].
  destruct (py_int t) eqn:E; [|discriminate].
  intros [= <-]. eapply py_int_nonneg, E.
Qed.

Lemma truediv_positive (a b : Z) : 0 < b -> int_truediv a b = Ret (a # Z.to_pos b).
Proof.
  intros Hb. unfold int_truediv.
  destruct (b =? 0) eqn:E; [lia|].
  rewrite Z.sgn_pos, Z.mul_1_r, Z.abs_eq by lia. reflexivity.
Qed.

Lemma ratio_percent_range (a : Z) (b : positive) :
  0 <= a -> (0 <= py_min (40 + (a # b) * 50) 90 <= 100)%Q.
Proof.
  intros Ha. unfold py_min.
  assert (H0 : (0 <= a # b)%Q) by (unfold Qle; simpl; lia).
  destruct (Qle_bool _ _) eqn:E.
  - apply Qle_bool_iff in E. split.
    + apply Qle_trans with (y := 40%Q); [discriminate|].
      rewrite <- (Qplus_0_r 40) at 1. apply Qplus_le_r.
      apply Qmult_le_0_compat; [exact H0|discriminate].
    + eapply Qle_trans; [exact E|discriminate].
  - split; discriminate.
Qed.

Lemma keeps_ret {A} (a : A) : keeps_range (ret a).
Proof. intros l H. exact H. Qed.

Lemma keeps_lift {A} (r : pyresult A) : keeps_range (lift r).
Proof. intros l H. exact H. Qed.

Lemma keeps_bind {A B} (m : py TaskLogger A) (k : A -> py TaskLogger B) :
  keeps_range m -> (forall a, keeps_range (k a)) -> keeps_range (bind m k).
Proof.
  intros Hm Hk l H. unfold bind. specialize (Hm l H).
  destruct (m l) as [[a|e] l']; simpl in *; [apply Hk, Hm|exact Hm].
Qed.

Lemma keeps_swallow (m : py TaskLogger unit) : keeps_range m -> keeps_range (swallow m).
Proof.
  intros Hm l H. unfold swallow. specialize (Hm l H). destruct (m l). exact Hm.
Qed.

Lemma keeps_try {A} (m : py TaskLogger A) (h : pyexc -> py TaskLogger A) :
  keeps_range m -> (forall e, keeps_range (h e)) -> keeps_range (try_except m h).
Proof.
  intros Hm Hh l H. unfold try_except. specialize (Hm l H).
  destruct (m l) as [[a|e] l']; simpl in *; [exact Hm|].
  destruct (is_Exception e); [apply Hh, Hm|exact Hm].
Qed.

Lemma keeps_update now stage x total completed failed item :
  (0 <= x <= 100)%Q ->
  keeps_range (modify (update_progress now stage (Some x) total completed failed item)).
Proof.
  intros Hx l _. unfold modify, percent_in_range. cbn [snd].
  now rewrite update_progress_percent.
Qed.

Lemma keeps_log_event now ty msg d err : keeps_range (modify (log_event now ty msg d err)).
Proof. intros l H. exact H. Qed.

Lemma keeps_login_loop now line ps :
  Forall (fun e => (0 <= snd e <= 100)%Q) ps -> keeps_range (login_loop now line ps).
Proof.
  induction 1 as [|[[pat stage] percent] ps Hp _ IH]; simpl.
  - apply keeps_ret.
  - destruct (search _ _); [|exact IH].
    apply keeps_bind; [apply keeps_update, Hp|intros; apply keeps_ret].
Qed.

Lemma keeps_crawl_dynamic now pat stage gs : keeps_range (crawl_dynamic now pat stage gs).
Proof.
  unfold crawl_dynamic. destruct (_ && _); [|apply keeps_ret].
  intros l H. unfold bind, lift.
  destruct (group_int gs 1) as [completed|] eqn:Ec; [|exact H].
  destruct (group_int gs 2) as [total|] eqn:Et; [|exact H].
  destruct (0 <? total) eqn:Epos; [|exact H].
  apply Z.ltb_lt in Epos. rewrite truediv_positive by exact Epos.
  apply keeps_update; [|exact H].
  apply ratio_percent_range. eapply group_int_nonneg, Ec.
Qed.

Lemma keeps_crawl_loop now line ps :
  Forall (fun e => from_option (fun x => 0 <= x <= 100)%Q True (snd e)) ps ->
  keeps_range (crawl_loop now line ps).
Proof.
  induction 1 as [|[[pat stage] percent] ps Hp _ IH]; simpl.
  - apply keeps_ret.
  - destruct (search _ _); [|exact IH].
    apply keeps_bind; [|intros; apply keeps_ret].
    destruct percent; [apply keeps_update, Hp|apply keeps_crawl_dynamic].
Qed.

Lemma keeps_save_loop now line ps :
  Forall (fun e => (0 <= snd e <= 100)%Q) ps -> keeps_range (save_loop now line ps).
Proof.
  induction 1 as [|[[pat stage] percent] ps Hp _ IH]; simpl.
  - apply keeps_ret.
  - destruct (search _ _); [|exact IH].
    apply keeps_bind; [apply keeps_update, Hp|intros _].
    apply keeps_bind; [|intros; apply keeps_ret].
    match goal with |- keeps_range (if ?c then _ else _) => destruct c end;
      [|apply keeps_ret].
    apply keeps_swallow, keeps_bind; [apply keeps_lift|intros; apply keeps_update, Hp].
Qed.

Lemma keeps_event_loop now line ty prefix ps : keeps_range (event_loop now line ty prefix ps).
Proof.
  induction ps as [|pat ps IH]; simpl.
  - apply keeps_ret.
  - destruct (search _ _); [|exact IH].
    apply keeps_bind; [apply keeps_log_event|intros; apply keeps_ret].
Qed.

Lemma fixed_login_percents : Forall (fun e => (0 <= snd e <= 100)%Q) login_patterns.
Proof. repeat constructor; discriminate. Qed.

Lemma fixed_crawl_percents :
  Forall (fun e => from_option (fun x => 0 <= x <= 100)%Q True (snd e)) crawl_patterns.
Proof. repeat constructor; discriminate. Qed.

Lemma fixed_save_percents : Forall (fun e => (0 <= snd e <= 100)%Q) save_patterns.
Proof. repeat constructor; discriminate. Qed.

Lemma keeps_parse now line : keeps_range (_parse_progress_from_line now line).
Proof.
  apply keeps_try; [|intros; apply keeps_ret].
  apply keeps_bind; [apply keeps_login_loop, fixed_login_percents|intros [|]; [apply keeps_ret|]].
  apply keeps_bind; [apply keeps_crawl_loop, fixed_crawl_percents|intros [|]; [apply keeps_ret|]].
  apply keeps_bind; [apply keeps_save_loop, fixed_save_percents|intros [|]; [apply keeps_ret|]].
  apply keeps_bind; [apply keeps_event_loop|intros [|]; [apply keeps_ret|]].
  apply keeps_bind; [apply keeps_event_loop|intros; apply keeps_ret].
Qed.

Lemma feed_in_range lines : forall l, percent_in_range l -> percent_in_range (feed lines l).
Proof.
  induction lines as [|[t line] lines IH]; intros l H; simpl.
  - exact H.
  - apply IH, keeps_parse, H.
Qed.

End Progress.

Section Groups.
Context {U : Unicode}.

Lemma rep_greedy_inv {A} (p : Z -> bool) (k : text -> text -> option A) s :
  forall taken r, rep_greedy p k taken s = Some r ->
  exists more rest, k (taken ++ more) rest = Some r /\ Forall (fun x => p x = true) more.
Proof.
  induction s as [|x s IH]; intros taken r H; cbn [rep_greedy] in H.
  - exists [], []. rewrite app_nil_r. split; [exact H|constructor].
  - destruct (p x) eqn:Ep.
    + destruct (rep_greedy p k (taken ++ [x]) s) as [r'|] eqn:E.
      * injection H as <-. destruct (IH _ _ E) as (more & rest & Hk & Hall).
        exists (x :: more), rest. rewrite <- app_assoc in Hk.
        split; [exact Hk|constructor; assumption].
      * exists [], (x :: s). rewrite app_nil_r. split; [exact H|constructor].
    + exists [], (x :: s). rewrite app_nil_r. split; [exact H|constructor].
Qed.

Lemma rep_lazy_inv {A} (p : Z -> bool) (k : text -> text -> option A) s :
  forall taken r, rep_lazy p k taken s = Some r ->
  exists more rest, k (taken ++ more) rest = Some r /\ Forall (fun x => p x = true) more.
Proof.
  induction s as [|x s IH]; intros taken r H; cbn [rep_lazy] in H.
  - destruct (k taken []) eqn:E; [|discriminate].
    injection H as <-. exists [], []. rewrite app_nil_r. split; [exact E|constructor].
  - destruct (k taken (x :: s)) eqn:E.
    + injection H as <-. exists [], (x :: s). rewrite app_nil_r. split; [exact E|constructor].
    + destruct (p x) eqn:Ep; [|discriminate].
      destruct (IH _ _ H) as (more & rest & Hk & Hall).
      exists (x :: more), rest. rewrite <- app_assoc in Hk.
      split; [exact Hk|constructor; assumption].
Qed.

Lemma rep_inv {A} (p : Z -> bool) (k : text -> text -> option A) q s r :
  rep p k q s = Some r ->
  exists taken rest, k taken rest = Some r
    /\ Forall (fun x => p x = true) taken
    /\ (q = Plus \/ q = Once -> taken <> []).
Proof.
  destruct q; cbn [rep]; intros H.
  - destruct s as [|x s]; [discriminate|]. destruct (p x) eqn:Ep; [|discriminate].
    exists [x], s. split; [exact H|]. split; [repeat constructor; exact Ep|discriminate].
  - apply rep_greedy_inv in H as (more & rest & Hk & Hall).
    exists more, rest. split; [exact Hk|]. split; [exact Hall|]. intros [|]; discriminate.
  - destruct s as [|x s]; [discriminate|]. destruct (p x) eqn:Ep; [|discriminate].
    apply rep_greedy_inv in H as (more & rest & Hk & Hall).
    exists ([x] ++ more), rest. split; [exact Hk|].
    split; [constructor; assumption|discriminate].
  - apply rep_lazy_inv in H as (more & rest & Hk & Hall).
    exists more, rest. split; [exact Hk|]. split; [exact Hall|]. intros [|]; discriminate.
Qed.

Lemma match_here_groups (r : regex) : forall s gs rest,
  match_here r s = Some (gs, rest) -> Forall2 captured_by gs (group_classes r).
Proof.
  induction r as [|[c q|c q] r IH]; intros s gs rest H; cbn [match_here group_classes] in *.
  - injection H as <- _. constructor.
  - apply rep_inv in H as (taken & rest' & Hk & _). eapply IH, Hk.
  - apply rep_inv in H as (taken & rest' & Hk & Hall & Hne).
    destruct (match_here r rest') as [[gs' rest'']|] eqn:E; [|discriminate].
    injection Hk as <- _. constructor; [|eapply IH, E].
    split; assumption.
Qed.

Lemma search_groups (r : regex) (s : text) (gs : list text) :
  search r s = Some gs -> Forall2 captured_by gs (group_classes r).
Proof.
  induction s as [|x s IH]; cbn [search];
    destruct (match_here r _) as [[gs' rest]|] eqn:E; intros H; try discriminate.
  - injection H as <-. eapply match_here_groups, E.
  - injection H as <-. eapply match_here_groups, E.
  - apply IH, H.
Qed.

Lemma int_digits_total (g : text) : forall acc,
  Forall (fun x => is_digit x = true) g -> exists n, int_digits acc g = Some n.
Proof.
  induction g as [|c g IH]; intros acc H; cbn [int_digits].
  - eauto.
  - inversion H as [|? ? Hc Hg]; subst. unfold is_digit in Hc.
    destruct (decimal c); [apply IH, Hg|discriminate].
Qed.

Lemma py_int_of_digits (g : text) :
  captured_by g (CDigit, Plus) -> exists n, py_int g = Some n.
Proof.
  intros [Hall Hne]. unfold py_int. destruct g as [|c g]; [now destruct Hne; auto|].
  apply int_digits_total, Hall.
Qed.

(** A match of [已爬取 X/Y] always yields two numbers. *)
Lemma ratio_match_is_numeric (line : text) (gs : list text) :
  search (compiled crawled_ratio) line = Some gs ->
  exists gx gy X Y, gs = [gx; gy] /\ py_int gx = Some X /\ py_int gy = Some Y.
Proof.
  intros H. apply search_groups in H. vm_compute group_classes in H.
  inversion H as [|gx ? gs1 ? Hx H1]; subst.
  inversion H1 as [|gy ? gs2 ? Hy H2]; subst.
  inversion H2; subst.
  destruct (py_int_of_digits gx Hx) as [X HX].
  destruct (py_int_of_digits gy Hy) as [Y HY].
  exists gx, gy, X, Y. auto.
Qed.

End Groups.

Section Ratio.
Context {U : Unicode}.

Lemma login_loop_no_match now line ps l :
  Forall (fun e => search (compiled (fst (fst e))) line = None) ps ->
  login_loop now line ps l = (Ret false, l).
Proof.
  induction 1 as [|[[pat stage] percent] ps Hp _ IH]; simpl.
  - reflexivity.
  - simpl in Hp. rewrite Hp. exact IH.
Qed.



End Ratio.

Section Monitor.
Import Login.
#[local] Open Scope Q_scope.

Variables (jar : Browser) (cs : list cookie) (ref : nat) (start : Q).
Variables (m : LoginManager) (s : LoginSession).
Hypothesis marker_constant : forall t, jar t = Ret cs.
Hypothesis held : objects m !! ref = Some s.
Hypothesis listed : is_Some (sessions m !! task_id s).
Hypothesis context_open : browser_context s = true.
Hypothesis waiting : is_terminal (status s) = false.

Lemma read_cookies_constant now : read_cookies jar now ref m = (Ret cs, m).
Proof.
  unfold read_cookies, deref.
  erewrite bind_ret_eq; [|erewrite bind_ret_eq by reflexivity; rewrite held; reflexivity].
  rewrite context_open. unfold lift. now rewrite marker_constant.
Qed.

(** With [r] polls left before the deadline, the loop leaves at the
    deadline and has changed nothing. *)
Lemma monitor_loop_idle (r : nat) : forall (fuel : nat) (now : Q),
  (r < fuel)%nat ->
  now - start == 300 - 2 * inject_Z (Z.of_nat r) ->
  exists t, monitor_loop fuel jar ref 300 start now (web_session cs) m = (Ret (Some t), m)
            /\ t - start == 300.
Proof.
  induction r as [|r IH]; intros fuel now Hfuel Hnow;
    (destruct fuel as [|fuel]; [lia|]); cbn [monitor_loop].
  - change (inject_Z (Z.of_nat 0)) with 0 in Hnow.
    assert (E : Qle_bool 300 (now - start) = true).
    { apply Qle_bool_iff. lra. }
    rewrite E. exists now. split; [reflexivity|]. lra.
  - assert (Hr : 0 <= inject_Z (Z.of_nat r)) by (unfold Qle; simpl; lia).
    assert (Hs : inject_Z (Z.of_nat (S r)) == inject_Z (Z.of_nat r) + 1).
    { rewrite Nat2Z.inj_succ, <- Z.add_1_r, inject_Z_plus. reflexivity. }
    assert (E : Qle_bool 300 (now - start) = false).
    { apply not_true_iff_false. rewrite Qle_bool_iff. lra. }
    rewrite E.
    erewrite bind_ret_eq by reflexivity.
    erewrite bind_ret_eq by (unfold deref; erewrite bind_ret_eq by reflexivity;
                             rewrite held; reflexivity).
    destruct listed as [ref' Hl]. rewrite Hl.
    rewrite bool_decide_eq_false_2 by discriminate.
    rewrite waiting.
    erewrite bind_ret_eq by apply read_cookies_constant.
    destruct (IH fuel (now + 2)) as (t & Et & Ht); [lia|lra|].
    exists t. split; [|exact Ht].
    destruct (web_session cs) as [[|c v]|]; try exact Et.
    rewrite bool_decide_eq_true_2 by reflexivity. exact Et.
Qed.

(** C4: the monitor of a waiting session whose marker cookie never changes
    marks it [TIMEOUT] when 300 seconds have elapsed, whatever the
    [timeout] the session was created with, and never marks it
    [SUCCESS]. *)
Theorem monitor_deadline_ignores_session_timeout :
  exists t m',
    _monitor_client_login 151 jar ref start m = (Ret (Some t), m')
    /\ t - start == 300
    /\ objects m' !! ref = Some (update_status TIMEOUT (u "登录超时，请重新尝试") None s)
    /\ sessions m' = sessions m.
Proof.
  destruct (monitor_loop_idle 150 151 start) as (t & Et & Ht); [lia| |].
  { change (inject_Z (Z.of_nat 150)) with 150. ring. }
  exists t. eexists. split; [|split; [exact Ht|]].
  - unfold _monitor_client_login, try_except.
    erewrite bind_ret_eq by apply read_cookies_constant.
    erewrite bind_ret_eq by exact Et. cbv beta iota.
    erewrite bind_ret_eq by (unfold deref; erewrite bind_ret_eq by reflexivity;
                             rewrite held; reflexivity).
    assert (Hs : bool_decide (status s = SUCCESS) || bool_decide (status s = FAILED) = false).
    { revert waiting. unfold is_terminal. destruct (status s); reflexivity || discriminate. }
    rewrite Hs. erewrite bind_ret_eq by reflexivity. reflexivity.
  - cbn [objects sessions set_object]. split; [|reflexivity].
    rewrite lookup_alter_eq, held. reflexivity.
Qed.

End Monitor.

Section StatusRead.
Import Login.

(** C3, as amended: a status read of an expired session reports
    [timeout] and stores [TIMEOUT] in the session's status field; every
    other field of the session, every other session and the table are
    left as they were. *)
Theorem status_read_stores_timeout (now : Q) (id : text) (m : LoginManager)
    (ref : nat) (s : LoginSession) :
  sessions m !! id = Some ref ->
  objects m !! ref = Some s ->
  is_expired now s = true ->
  let (r, m') := get_login_status now id m in
  resp_status r = TIMEOUT
  /\ objects m' !! ref =
       Some {| task_id := task_id s; platform := platform s; login_type := login_type s;
               status := TIMEOUT; start_time := start_time s; timeout := timeout s;
               data := data s; pending_inputs := pending_inputs s;
               crawler_adapter := crawler_adapter s; page := page s;
               browser := browser s; browser_context := browser_context s;
               cookies_data := cookies_data s;
               on_status_change := on_status_change s;
               on_qrcode_generated := on_qrcode_generated s;
               on_input_required := on_input_required s;
               on_login_success := on_login_success s |}
  /\ (forall ref', ref' <> ref -> objects m' !! ref' = objects m !! ref')
  /\ sessions m' = sessions m.
Proof.
  intros Hid Href Hexp. unfold get_login_status, get_login_session.
  rewrite Hid, Href, Hexp. cbn [objects set_object].
  rewrite lookup_alter_eq, Href. cbn [fmap option_fmap option_map].
  split; [reflexivity|]. split; [|split; [|reflexivity]].
  - cbn [objects set_object]. rewrite lookup_alter_eq, Href. reflexivity.
  - intros ref' Hne. cbn [objects set_object]. now apply lookup_alter_ne.
Qed.

End StatusRead.

Section Submission.

Lemma log_registers key now ty msg d err (w : State) :
  exists l, log key now ty msg d err w = (Ret tt, set_loggers <[key := l]> w).
Proof. unfold log, on_logger, zoom, modify. eexists. reflexivity. Qed.




End Submission.

Section SecondCreate.
Import Login.


End SecondCreate.

Section Results.
Context {U : Unicode}.

Lemma drain_collects key out : forall a b (w : State),
  exists w', drain key out a b w
             = (Ret (a ++ captured_lines false out, b ++ captured_lines true out), w').
Proof.
  induction out as [|l out IH]; intros a b w; cbn [drain].
  - eexists. unfold captured_lines. cbn [omap list_omap]. rewrite !app_nil_r. reflexivity.
  - unfold captured_lines. cbn [omap list_omap]. fold (captured_lines false out).
    fold (captured_lines true out).
    destruct (strip (raw l)) as [|c t] eqn:Es.
    + destruct (bool_decide _), (bool_decide _); apply IH.
    + destruct (from_stderr l) eqn:Ef.
      * rewrite bool_decide_eq_false_2, bool_decide_eq_true_2 by congruence.
        edestruct log_registers as [l1 E1]. erewrite bind_ret_eq by exact E1.
        edestruct IH as [w' E]. rewrite E. eexists.
        rewrite <- app_assoc. reflexivity.
      * rewrite bool_decide_eq_true_2, bool_decide_eq_false_2 by congruence.
        destruct (steady_on_logger key (_parse_progress_from_line (at_time l) (c :: t))
                    (parse_progress_returns _ _) w) as ([] & w1 & E1 & _).
        erewrite bind_ret_eq by exact E1.
        edestruct IH as [w' E]. rewrite E. eexists.
        rewrite <- app_assoc. reflexivity.
Qed.

Lemma finish_outcome (task : CrawlerTask) (run : ProcessRun) (w : State) :
  running_tasks w !! task_id task = Some Pending ->
  not_cancelled (config_error run) ->
  not_cancelled (spawn_error run) ->
  exists e,
    running_tasks (finish_task task run w) !! task_id task
      = Some (Done (Raise item_assignment_error))
    /\ task_results (finish_task task run w) !! task_id task
       = Some (ResultDict (failure_result e))
    /\ (config_error run = None -> e = KeyError (u "message")).
Proof.
  intros Hreg Hcfg Hspawn. unfold finish_task. rewrite Hreg.
  destruct (run_outcome task run w) as (e & w' & E & T & R & He); eauto.
  rewrite E. exists e. split; [|split; [|exact He]].
  - cbn [running_tasks set_running]. apply lookup_insert_eq.
  - cbn [task_results set_running]. exact T.
Qed.

Lemma execute_exit_zero key cmd (run : ProcessRun) (w : State) :
  spawn_error run = None ->
  returncode run = 0 ->
  exists w', _execute_crawler_process key cmd run w = (Ret name_error_answer, w').
Proof.
  intros Hspawn Hzero. unfold _execute_crawler_process, try_except.
  rewrite Hspawn, Hzero. erewrite bind_ret_eq by reflexivity.
  edestruct drain_collects as [w1 E1]. erewrite bind_ret_eq by exact E1.
  cbn [Z.eqb]. rewrite task_is_unbound. erewrite bind_raise_eq by reflexivity.
  cbn [is_Exception]. edestruct log_registers as [l2 E2].
  erewrite bind_ret_eq by exact E2. eexists. reflexivity.
Qed.

(** C1: when the process exits with code 0, [_execute_crawler_process]
    fails on the unbound name [task] after it has parsed the item count,
    and the result stored for the job is a failure whose [data_count] is
    0, also when the captured output reads [42]. *)
Theorem exit_zero_result_has_no_count (task : CrawlerTask) (run : ProcessRun) (w : State) :
  running_tasks w !! task_id task = Some Pending ->
  config_error run = None ->
  spawn_error run = None ->
  returncode run = 0 ->
  _parse_data_count_from_output (captured_stdout run) = 42 ->
  (forall cmd w1, exists w2,
     _execute_crawler_process (task_id task) cmd run w1 = (Ret name_error_answer, w2))
  /\ get_task_result (task_id task) (finish_task task run w)
     = Some (ResultDict (failure_result (KeyError (u "message"))))
  /\ dict_get (failure_result (KeyError (u "message"))) (u "success") = Some (VBool false)
  /\ dict_get (failure_result (KeyError (u "message"))) (u "data_count") = Some (VInt 0).
Proof.
  intros Hreg Hcfg Hspawn Hzero _. split.
  - intros cmd w1. now apply execute_exit_zero.
  - destruct (finish_outcome task run w Hreg) as (e & _ & T & He).
    + unfold not_cancelled. now rewrite Hcfg.
    + unfold not_cancelled. now rewrite Hspawn.
    + rewrite (He Hcfg) in T. split; [exact T|]. split; reflexivity.
Qed.

Lemma stop_unknown_task (key : text) (w : State) :
  running_tasks w !! key = None -> stop_task key w = (Ret false, w).
Proof. intros H. unfold stop_task. erewrite bind_ret_eq by reflexivity. now rewrite H. Qed.

Lemma stop_pending_task (key : text) (w : State) :
  running_tasks w !! key = Some Pending ->
  exists w', stop_task key w = (Ret true, w')
    /\ running_tasks w' !! key = None
    /\ task_results w' !! key
       = Some (ResultObject {| res_task_id := key; success := false;
                               message := u "任务已被手动停止";
                               data_count := 0; error_count := 0;
                               data := None; errors := None |}).
Proof.
  intros H. unfold stop_task. erewrite bind_ret_eq by reflexivity. rewrite H.
  eexists. split; [reflexivity|]. split.
  - cbn [running_tasks set_running set_results]. apply lookup_delete_eq.
  - cbn [task_results set_running set_results]. apply lookup_insert_eq.
Qed.

(** C9: once the coroutine of a registered task has run to its end, the
    task is still listed in [running_tasks], and [stop_task] on its id
    does not answer [False]: awaiting the finished task raises the
    [TypeError] it ended with, which the endpoint turns into status 500. *)
Theorem stop_after_finish_raises (task : CrawlerTask) (run : ProcessRun) (w : State) :
  running_tasks w !! task_id task = Some Pending ->
  not_cancelled (config_error run) ->
  not_cancelled (spawn_error run) ->
  let w' := finish_task task run w in
  stop_task (task_id task) w' = (Raise item_assignment_error, w')
  /\ Api.stop_task (task_id task) w'
     = (Raise (HTTPException 500 (exc_str item_assignment_error)), w').
Proof.
  intros Hreg Hcfg Hspawn w'.
  destruct (finish_outcome task run w Hreg Hcfg Hspawn) as (e & R & _ & _).
  fold w' in R.
  assert (E : stop_task (task_id task) w' = (Raise item_assignment_error, w')).
  { unfold stop_task. erewrite bind_ret_eq by reflexivity. rewrite R.
    erewrite bind_raise_eq by reflexivity. reflexivity. }
  split; [exact E|].
  unfold Api.stop_task, Api.reraise_500.
  erewrite bind_raise_eq by exact E. reflexivity.
Qed.

End Results.

(** C10: a cache file whose [cookies] field is missing or empty is read
    as nothing, whatever its age, exactly like an absent file. *)
Theorem blank_entry_loads_nothing (now : Q) (p : text) (max_age_days : Z)
    (m : CookiesManager) (d : pydict) :
  files m !! p = Some (JsonObject d) ->
  blank_cookies d ->
  load_cookies now p max_age_days m = None
  /\ load_cookies now p max_age_days m
     = load_cookies now p max_age_days (with_files (delete p (files m)) m).
Proof.
  intros Hfile Hblank.
  assert (E : load_cookies now p max_age_days m = None).
  { unfold load_cookies. rewrite Hfile.
    destruct (age_days _ _); [|reflexivity].
    destruct (negb _); [reflexivity|].
    unfold blank_cookies in Hblank. destruct (dict_get d (u "cookies")); [|reflexivity].
    now rewrite Hblank. }
  split; [exact E|]. rewrite E.
  unfold load_cookies. cbn [files with_files]. now rewrite lookup_delete_eq.
Qed.

Section CookieCache.

Lemma saved_entry_time a b c d e :
  dict_get [(u "platform", a); (u "cookies", b); (u "task_id", c);
            (u "saved_time", d); (u "saved_date", e)] (u "saved_time") = Some d.
Proof. reflexivity. Qed.

Lemma saved_entry_cookies a b c d e :
  dict_get [(u "platform", a); (u "cookies", b); (u "task_id", c);
            (u "saved_time", d); (u "saved_date", e)] (u "cookies") = Some b.
Proof. reflexivity. Qed.

Lemma age_days_int (cur t : Z) : age_days cur (VInt t) = Ret (Qmake (cur - t) 86400).
Proof. unfold age_days, int_truediv. simpl. rewrite Z.mul_1_r. reflexivity. Qed.

Lemma expired_iff (a max : Z) :
  negb (Qle_bool (Qmake a 86400) (inject_Z max)) = true <-> 86400 * max < a.
Proof.
  rewrite negb_true_iff, <- not_true_iff_false, Qle_bool_iff.
  unfold Qle. simpl. lia.
Qed.

(** C6, as amended: [load_cookies] returns nothing when the platform has
    no entry, and when the entry is older than [max_age_days] days; it
    returns the saved blob when the entry is at most that old, the bound
    included, and the blob is not empty.  The age is the difference of
    the two clock readings in whole seconds. *)
Theorem load_cookies_age_bound (m : CookiesManager) (t0 now : Q) (p blob : text)
    (tid : option text) (max_age_days : Z) :
  read_only m = false ->
  let m1 := snd (save_cookies t0 p blob tid m) in
  let age := int_of_float now - int_of_float t0 in
  (files m !! p = None -> load_cookies now p max_age_days m = None)
  /\ (86400 * max_age_days < age -> load_cookies now p max_age_days m1 = None)
  /\ (age <= 86400 * max_age_days -> blob <> [] ->
      load_cookies now p max_age_days m1 = Some (VStr blob)).
Proof.
  intros Hrw m1 age. repeat split.
  - intros Hnone. unfold load_cookies. now rewrite Hnone.
  - intros Hold. subst m1. unfold load_cookies, save_cookies. rewrite Hrw.
    cbn [snd files with_files]. rewrite lookup_insert_eq, saved_entry_time.
    cbn [default from_option id].
    rewrite age_days_int.
    destruct (negb _) eqn:E; [reflexivity|].
    apply not_true_iff_false in E. rewrite expired_iff in E. subst age. lia.
  - intros Hfresh Hblob. subst m1. unfold load_cookies, save_cookies. rewrite Hrw.
    cbn [snd files with_files]. rewrite lookup_insert_eq, saved_entry_time.
    cbn [default from_option id].
    rewrite age_days_int.
    destruct (negb _) eqn:E.
    + apply expired_iff in E. subst age. lia.
    + rewrite saved_entry_cookies. destruct blob; [congruence|reflexivity].
Qed.

End CookieCache.

Section PercentRange.
Context {U : Unicode}.

(** C7, as amended: whatever lines the adapter parses, starting from a
    new journal, the percent of the snapshot lies in [0,100] after each
    of them.  [update_progress] itself does not clamp: it stores the
    percent it is given. *)
Theorem parsed_percent_stays_in_range (t0 : Q) (id platform : text)
    (lines : list (Q * text)) :
  percent_in_range (feed lines (new_TaskLogger t0 id platform))
  /\ forall now stage (x : Q) total completed failed item l,
       progress_percent
         (progress (update_progress now stage (Some x) total completed failed item l)) = x.
Proof.
  split.
  - apply feed_in_range. split; discriminate.
  - intros. apply update_progress_percent.
Qed.

End PercentRange.

(** ** The theorems at concrete inputs *)

Section Concrete.
#[local] Existing Instance ascii_tables.

(** The run of the specification: three lines, then exit. *)
Example three_lines_progress :
  let l1 := snd (_parse_progress_from_line 1 (u "开始爬取") fresh_journal) in
  let l2 := snd (_parse_progress_from_line 2 (u "已爬取 3/5") l1) in
  let l3 := snd (_parse_progress_from_line 3 (u "保存完成") l2) in
  (progress_percent (progress l1) = 40%Q /\ items_completed (progress l1) = 0)
  /\ (progress_percent (progress l2) = (350 # 5)%Q /\ items_completed (progress l2) = 3
      /\ items_total (progress l2) = 5)
  /\ (current_stage (progress l3) = u "completed" /\ progress_percent (progress l3) = 100%Q
      /\ items_completed (progress l3) = 3).
Proof. vm_compute. repeat split; reflexivity. Qed.

Example parse_count_42 : _parse_data_count_from_output (u "保存 42 条") = 42.
Proof. vm_compute. reflexivity. Qed.

(** The patterns are tried in order and the first that matches decides. *)
Example parse_count_first_pattern :
  _parse_data_count_from_output (u "共爬取 5 条" ++ newline ++ u "保存 42 条") = 5.
Proof. vm_compute. reflexivity. Qed.

Lemma exit_zero_result_has_no_count_witness :
  (forall cmd w1, exists w2,
     _execute_crawler_process (u "job-1") cmd run42 w1 = (Ret name_error_answer, w2))
  /\ get_task_result (u "job-1") (finish_task job run42 started)
     = Some (ResultDict (failure_result (KeyError (u "message"))))
  /\ dict_get (failure_result (KeyError (u "message"))) (u "success") = Some (VBool false)
  /\ dict_get (failure_result (KeyError (u "message"))) (u "data_count") = Some (VInt 0).
Proof.
  apply (exit_zero_result_has_no_count job run42 started); vm_compute; reflexivity.
Defined.

Lemma stop_after_finish_raises_witness :
  stop_task (u "job-1") (finish_task job run42 started)
  = (Raise item_assignment_error, finish_task job run42 started)
  /\ Api.stop_task (u "job-1") (finish_task job run42 started)
     = (Raise (HTTPException 500 (exc_str item_assignment_error)),
        finish_task job run42 started).
Proof.
  apply (stop_after_finish_raises job run42 started); vm_compute; reflexivity.
Defined.



(** C3, as stated, fails: the read stores [TIMEOUT] in the session. *)
Lemma status_read_changes_stored_status :
  let r := Login.get_login_status 61 (u "job-1") lm_waiting in
  Login.resp_status (fst r) = Login.TIMEOUT
  /\ Login.status <$> Login.session_of (u "job-1") lm_waiting = Some Login.QRCODE_GENERATED
  /\ Login.status <$> Login.session_of (u "job-1") (snd r) = Some Login.TIMEOUT
  /\ Login.session_of (u "job-1") (snd r) <> Login.session_of (u "job-1") lm_waiting.
Proof.
  cbv zeta. repeat split; try (vm_compute; reflexivity).
  vm_compute. discriminate.
Qed.

Lemma status_read_stores_timeout_witness :
  let (r, m') := Login.get_login_status 61 (u "job-1") lm_waiting in
  Login.resp_status r = Login.TIMEOUT
  /\ Login.objects m' !! 0%nat
     = Some (Login.update_status Login.TIMEOUT (u "登录超时") None waiting_session)
  /\ (forall ref', ref' <> 0%nat -> Login.objects m' !! ref' = Login.objects lm_waiting !! ref')
  /\ Login.sessions m' = Login.sessions lm_waiting.
Proof.
  apply (status_read_stores_timeout 61 (u "job-1") lm_waiting 0 waiting_session);
    vm_compute; reflexivity.
Defined.

Lemma monitor_deadline_ignores_session_timeout_witness :
  Login.timeout waiting_session = 60
  /\ exists t m',
       Login._monitor_client_login 151 idle_browser 0 0 lm_waiting = (Ret (Some t), m')
       /\ (t - 0 == 300)%Q
       /\ Login.objects m' !! 0%nat
          = Some (Login.update_status Login.TIMEOUT (u "登录超时，请重新尝试") None waiting_session)
       /\ Login.sessions m' = Login.sessions lm_waiting.
Proof.
  split; [reflexivity|].
  apply (monitor_deadline_ignores_session_timeout idle_browser guest_cookies 0 0
           lm_waiting waiting_session).
  - intros t. reflexivity.
  - vm_compute. reflexivity.
  - vm_compute. eauto.
  - reflexivity.
  - reflexivity.
Defined.

(** Thirty polls after its start, at 60 seconds, the monitor of the
    session created with a timeout of 60 seconds is still polling and has
    changed nothing. *)
Example monitor_still_polling_at_60 :
  Login.monitor_loop 30 idle_browser 0 300 0 0 (Login.web_session guest_cookies) lm_waiting
  = (Ret None, lm_waiting).
Proof. vm_compute. reflexivity. Qed.



(** C6, as stated, fails: an empty blob saved a moment ago is not
    returned. *)
Lemma empty_blob_is_not_returned :
  let m1 := snd (save_cookies 1000 (u "xhs") [] None empty_cache) in
  files m1 !! u "xhs" <> None
  /\ int_of_float 1000 - int_of_float 1000 <= 86400 * 7
  /\ load_cookies 1000 (u "xhs") 7 m1 = None
  /\ load_cookies 1000 (u "xhs") 7 m1 <> Some (VStr []).
Proof.
  cbv zeta. repeat split; try (vm_compute; reflexivity); vm_compute; discriminate.
Qed.

Lemma load_cookies_age_bound_witness :
  let m1 := snd (save_cookies 1000 (u "xhs") (u "a=1; b=2") None empty_cache) in
  load_cookies 1000 (u "xhs") 7 empty_cache = None
  /\ load_cookies (1000 + 7 * 86400 + 1) (u "xhs") 7 m1 = None
  /\ load_cookies (1000 + 7 * 86400) (u "xhs") 7 m1 = Some (VStr (u "a=1; b=2")).
Proof.
  cbv zeta. split; [|split].
  - apply (load_cookies_age_bound empty_cache 1000 1000 (u "xhs") (u "a=1; b=2") None 7);
      reflexivity.
  - apply (load_cookies_age_bound empty_cache 1000 (1000 + 7 * 86400 + 1) (u "xhs")
             (u "a=1; b=2") None 7); [reflexivity|vm_compute; reflexivity].
  - apply (load_cookies_age_bound empty_cache 1000 (1000 + 7 * 86400) (u "xhs")
             (u "a=1; b=2") None 7); [reflexivity|vm_compute; discriminate|discriminate].
Defined.

(** C7, as stated, fails: a direct call stores a percent above 100. *)
Lemma direct_update_is_not_clamped :
  let l' := update_progress 1 None (Some 150%Q) None None None None fresh_journal in
  percent_in_range fresh_journal /\ ~ percent_in_range l'.
Proof.
  cbv zeta. split.
  - split; discriminate.
  - intros [_ H]. vm_compute in H. apply H. reflexivity.
Qed.



Lemma blank_entry_loads_nothing_witness :
  let m1 := snd (save_cookies 1000 (u "xhs") [] None empty_cache) in
  load_cookies 1000 (u "xhs") 7 m1 = None
  /\ load_cookies 1000 (u "xhs") 7 m1
     = load_cookies 1000 (u "xhs") 7 (with_files (delete (u "xhs") (files m1)) m1).
Proof.
  cbv zeta.
  eapply (blank_entry_loads_nothing 1000 (u "xhs") 7).
  - vm_compute. reflexivity.
  - reflexivity.
Defined.

End Concrete.

(** ** The journal and its readers *)

Section Journal.

Lemma recent_events_suffix limit l :
  exists older, events l = older ++ get_recent_events limit l.
Proof.
  unfold get_recent_events.
  destruct (limit <? _); [|exists []; reflexivity].
  destruct (0 <? limit); [eexists; symmetry; apply take_drop|].
  destruct (limit =? 0); [exists []; reflexivity|].
  eexists; symmetry; apply take_drop.
Qed.

Lemma recent_events_length limit l :
  Z.of_nat (length (get_recent_events limit l))
  = if 0 <? limit then Z.min limit (Z.of_nat (length (events l)))
    else Z.max 0 (Z.of_nat (length (events l)) + limit).
Proof.
  unfold get_recent_events.
  destruct (limit <? _) eqn:E1; destruct (0 <? limit) eqn:E2;
    try destruct (limit =? 0) eqn:E3; rewrite ?length_drop; lia.
Qed.

(** X1: the events answered for a task are the most recent ones of its
    journal: at most [limit] of them when [limit] is positive.  A [limit] of
    zero answers the whole journal, a negative one drops the oldest [-limit]
    events. *)
Theorem task_events_window (id : text) (limit : Z) (w : State) (l : TaskLogger) :
  task_loggers w !! id = Some l ->
  let recent := Queries.get_task_events id limit w in
  (exists older, events l = older ++ recent)
  /\ Z.of_nat (length recent)
     = (if 0 <? limit then Z.min limit (Z.of_nat (length (events l)))
        else Z.max 0 (Z.of_nat (length (events l)) + limit))
  /\ Endpoints.get_task_events id limit w = (Ret (recent, Z.of_nat (length recent)), w).
Proof.
  intros Hl recent. subst recent.
  unfold Endpoints.get_task_events, Endpoints.raise_500, try_except,
    Queries.get_task_events, LoggingManager.get_task_events, LoggingManager.get_task_logger.
  rewrite Hl. split; [apply recent_events_suffix|].
  split; [apply recent_events_length|].
  erewrite bind_ret_eq by reflexivity. cbv beta zeta. rewrite Hl. reflexivity.
Qed.

End Journal.

(** ** The cookie cache *)

Section Cache.

Lemma load_absent now (p : text) max_age_days (m : CookiesManager) :
  files m !! p = None -> load_cookies now p max_age_days m = None.
Proof. intros E. unfold load_cookies. now rewrite E. Qed.

Lemma load_same_entry now (p : text) max_age_days (m m' : CookiesManager) :
  files m' !! p = files m !! p ->
  load_cookies now p max_age_days m' = load_cookies now p max_age_days m.
Proof. intros E. unfold load_cookies. now rewrite E. Qed.

Lemma clear_one_files (p : text) (m : CookiesManager) :
  p <> [] ->
  read_only m = false ->
  fst (clear_cookies (Some p) m) = true
  /\ files (snd (clear_cookies (Some p) m)) = delete p (files m).
Proof.
  intros Hp Hrw. destruct p as [|c p]; [congruence|]. unfold clear_cookies.
  rewrite Hrw.
  match goal with |- context [files m !! ?k] => destruct (files m !! k) eqn:E end.
  - split; reflexivity.
  - split; [reflexivity|]. cbn [snd]. symmetry. now apply delete_id.
Qed.

Lemma load_saved_fresh (m : CookiesManager) (t0 now : Q) (p blob : text)
    (tid : option text) (max_age_days : Z) :
  read_only m = false ->
  int_of_float now - int_of_float t0 <= 86400 * max_age_days ->
  blob <> [] ->
  load_cookies now p max_age_days (snd (save_cookies t0 p blob tid m)) = Some (VStr blob).
Proof.
  intros Hrw Hfresh Hblob. unfold load_cookies, save_cookies. rewrite Hrw.
  cbn [snd files with_files]. rewrite lookup_insert_eq, saved_entry_time.
  cbn [default from_option id].
  rewrite age_days_int.
  destruct (negb _) eqn:E.
  - apply expired_iff in E. lia.
  - rewrite saved_entry_cookies. destruct blob; [congruence|reflexivity].
Qed.

Lemma load_after_save_other (t now : Q) (p q blob : text) (tid : option text)
    (max_age_days : Z) (m : CookiesManager) :
  q <> p ->
  load_cookies now q max_age_days (snd (save_cookies t p blob tid m))
  = load_cookies now q max_age_days m.
Proof.
  intros Hq. unfold save_cookies. destruct (read_only m); cbn [snd]; [reflexivity|].
  apply load_same_entry. cbn [files with_files]. apply lookup_insert_ne. congruence.
Qed.





End Cache.

(** ** The life of a task, as the queries see it *)

Section Lifecycle.
Context {U : Unicode}.

Lemma log_effect key now ty msg d err (w : State) :
  log key now ty msg d err w
  = (Ret tt,
     set_loggers
       <[key := log_event now ty msg d err
                  (default (new_TaskLogger 0 key []) (task_loggers w !! key))]> w).
Proof. reflexivity. Qed.

Lemma start_effect now (task : CrawlerTask) (w : State) :
  exists l w',
    start_crawler_task now task w = (Ret (task_id task), w')
    /\ task_loggers w' !! task_id task = Some l
    /\ progress l = progress (new_TaskLogger now (task_id task)
                                (_get_platform_string (platform task)))
    /\ running_tasks w' = <[task_id task := Pending]> (running_tasks w)
    /\ task_results w' = task_results w
    /\ cookies_manager w' = cookies_manager w.
Proof.
  unfold start_crawler_task, create_task_logger.
  erewrite bind_ret_eq; [|erewrite bind_ret_eq by reflexivity; apply log_effect].
  erewrite bind_ret_eq by apply log_effect.
  erewrite bind_ret_eq by reflexivity.
  eexists. eexists. split; [reflexivity|].
  cbn [task_loggers running_tasks task_results cookies_manager set_running set_loggers].
  split; [apply lookup_insert_eq|].
  rewrite !lookup_insert_eq. cbn [default from_option id].
  repeat split.
Qed.

(** X6: a task that has just been submitted is reported as running, not done,
    without any outcome, at stage [initializing] and 0 percent. *)
Theorem submitted_task_reports_running (now : Q) (task : CrawlerTask) (w : State) :
  let w' := snd (start_crawler_task now task w) in
  Queries.get_task_status (task_id task) w'
  = Ret {| Queries.st_task_id := task_id task;
           Queries.st_status := u "running";
           Queries.st_done := false;
           Queries.st_success := None; Queries.st_message := None;
           Queries.st_data_count := None; Queries.st_error_count := None;
           Queries.st_progress :=
             Some (progress (new_TaskLogger now (task_id task)
                               (_get_platform_string (platform task)))) |}.
Proof.
  destruct (start_effect now task w) as (l & w' & E & Hl & Hp & Hr & _).
  rewrite E. cbn [snd].
  unfold Queries.get_task_status, LoggingManager.get_task_progress,
    LoggingManager.get_task_logger.
  rewrite Hr, lookup_insert_eq, Hl, Hp. reflexivity.
Qed.

(** X7: stopping a pending task: the status then reads completed, without
    success and with the message of a manual stop, the result endpoint answers
    that result, and a second stop is answered 404. *)
Theorem stopped_task_reports_result (key : text) (w : State) :
  running_tasks w !! key = Some Pending ->
  exists w',
    stop_task key w = (Ret true, w')
    /\ Queries.get_task_status key w'
       = Ret {| Queries.st_task_id := key;
                Queries.st_status := u "completed";
                Queries.st_done := true;
                Queries.st_success := Some false;
                Queries.st_message := Some (u "任务已被手动停止");
                Queries.st_data_count := Some 0; Queries.st_error_count := Some 0;
                Queries.st_progress := LoggingManager.get_task_progress key w |}
    /\ Endpoints.get_task_result key w' = (Ret (stopped_result key), w')
    /\ Api.stop_task key w' = (Raise (HTTPException 404 (u "任务不存在或已完成")), w').
Proof.
  intros H. destruct (stop_pending_task key w H) as (w' & E & Hrun & Hres).
  exists w'. split; [exact E|].
  assert (Hlog : task_loggers w' = task_loggers w).
  { revert E. unfold stop_task. erewrite bind_ret_eq by reflexivity. rewrite H.
    intros E. injection E as <-. reflexivity. }
  split; [|split].
  - unfold Queries.get_task_status, LoggingManager.get_task_progress,
      LoggingManager.get_task_logger. rewrite Hrun, Hres, Hlog. reflexivity.
  - unfold Endpoints.get_task_result, Api.reraise_500, get_task_result.
    erewrite bind_ret_eq by reflexivity. rewrite Hres. reflexivity.
  - unfold Api.stop_task, Api.reraise_500.
    erewrite bind_ret_eq by (apply stop_unknown_task; exact Hrun). reflexivity.
Qed.




End Lifecycle.

(** ** What parsing a line can do to a journal *)

Section Preserved.
Context {U : Unicode}.

Variable R : TaskLogger -> TaskLogger -> Prop.
Hypothesis R_refl : forall l, R l l.
Hypothesis R_trans : forall a b c, R a b -> R b c -> R a c.
Hypothesis R_log : forall now ty msg d err l, R l (log_event now ty msg d err l).
Hypothesis R_update : forall now stage percent total completed l,
  from_option (Z.le 0) True total ->
  from_option (Z.le 0) True completed ->
  R l (update_progress now stage percent total completed None None l).

Lemma related_ret {A} (a : A) : related R (ret a).
Proof. intros l. apply R_refl. Qed.

Lemma related_lift {A} (r : pyresult A) : related R (lift r).
Proof. intros l. apply R_refl. Qed.

Lemma related_bind {A B} (m : py TaskLogger A) (k : A -> py TaskLogger B) :
  related R m -> (forall a, related R (k a)) -> related R (bind m k).
Proof.
  intros Hm Hk l. unfold bind. specialize (Hm l).
  destruct (m l) as [[a|e] l']; cbn [snd] in *; [|exact Hm].
  eapply R_trans; [exact Hm|apply Hk].
Qed.

Lemma related_swallow (m : py TaskLogger unit) : related R m -> related R (swallow m).
Proof. intros Hm l. unfold swallow. specialize (Hm l). destruct (m l). exact Hm. Qed.

Lemma related_try {A} (m : py TaskLogger A) (h : pyexc -> py TaskLogger A) :
  related R m -> (forall e, related R (h e)) -> related R (try_except m h).
Proof.
  intros Hm Hh l. unfold try_except. specialize (Hm l).
  destruct (m l) as [[a|e] l']; cbn [snd] in *; [exact Hm|].
  destruct (is_Exception e); [|exact Hm].
  eapply R_trans; [exact Hm|apply Hh].
Qed.

Lemma related_update now stage percent total completed :
  from_option (Z.le 0) True total ->
  from_option (Z.le 0) True completed ->
  related R (modify (update_progress now stage percent total completed None None)).
Proof. intros Ht Hc l. now apply R_update. Qed.

Lemma related_login_loop now line ps : related R (login_loop now line ps).
Proof.
  induction ps as [|[[pat stage] percent] ps IH]; cbn [login_loop].
  - apply related_ret.
  - destruct (search _ _); [|exact IH].
    apply related_bind; [now apply related_update|intros; apply related_ret].
Qed.

Lemma related_crawl_dynamic now pat stage gs : related R (crawl_dynamic now pat stage gs).
Proof.
  unfold crawl_dynamic. destruct (_ && _); [|apply related_ret].
  intros l. unfold bind, lift.
  destruct (group_int gs 1) as [completed|] eqn:Ec; [|apply R_refl].
  destruct (group_int gs 2) as [total|] eqn:Et; [|apply R_refl].
  destruct (0 <? total) eqn:Epos; [|apply R_refl].
  apply Z.ltb_lt in Epos. rewrite truediv_positive by exact Epos.
  apply related_update; cbn; [lia|eapply group_int_nonneg, Ec].
Qed.

Lemma related_crawl_loop now line ps : related R (crawl_loop now line ps).
Proof.
  induction ps as [|[[pat stage] percent] ps IH]; cbn [crawl_loop].
  - apply related_ret.
  - destruct (search _ _); [|exact IH].
    apply related_bind; [|intros; apply related_ret].
    destruct percent; [now apply related_update|apply related_crawl_dynamic].
Qed.

Lemma related_save_loop now line ps : related R (save_loop now line ps).
Proof.
  induction ps as [|[[pat stage] percent] ps IH]; cbn [save_loop].
  - apply related_ret.
  - destruct (search _ _); [|exact IH].
    apply related_bind; [now apply related_update|intros _].
    apply related_bind; [|intros; apply related_ret].
    match goal with |- related R (if ?c then _ else _) => destruct c end;
      [|apply related_ret].
    apply related_swallow. intros j. unfold bind, lift.
    destruct (group_int _ 1) as [n|] eqn:E; [|apply R_refl].
    apply related_update; cbn; [exact I|eapply group_int_nonneg, E].
Qed.

Lemma related_event_loop now line ty prefix ps : related R (event_loop now line ty prefix ps).
Proof.
  induction ps as [|pat ps IH]; cbn [event_loop].
  - apply related_ret.
  - destruct (search _ _); [|exact IH].
    apply related_bind; [intros j; apply R_log|intros; apply related_ret].
Qed.

Lemma related_parse now line : related R (_parse_progress_from_line now line).
Proof.
  apply related_try; [|intros; apply related_ret].
  apply related_bind; [apply related_login_loop|intros [|]; [apply related_ret|]].
  apply related_bind; [apply related_crawl_loop|intros [|]; [apply related_ret|]].
  apply related_bind; [apply related_save_loop|intros [|]; [apply related_ret|]].
  apply related_bind; [apply related_event_loop|intros [|]; [apply related_ret|]].
  apply related_bind; [apply related_event_loop|intros; apply related_ret].
Qed.

Lemma related_feed lines : forall l, R l (feed lines l).
Proof.
  induction lines as [|[t line] lines IH]; intros l; cbn [feed fold_left].
  - apply R_refl.
  - eapply R_trans; [apply related_parse|apply IH].
Qed.

End Preserved.

Section Parsed.
Context {U : Unicode}.

Lemma continues_refl l : continues l l.
Proof. split; [exists []; now rewrite app_nil_r|auto]. Qed.

Lemma continues_trans a b c : continues a b -> continues b c -> continues a c.
Proof.
  intros ([n1 E1] & I1 & P1 & S1) ([n2 E2] & I2 & P2 & S2). split.
  - exists (n1 ++ n2). now rewrite E2, E1, app_assoc.
  - repeat split; congruence.
Qed.

Lemma continues_log now ty msg d err l : continues l (log_event now ty msg d err l).
Proof. split; [eexists; reflexivity|auto]. Qed.

Lemma continues_update now stage percent total completed failed item l :
  continues l (update_progress now stage percent total completed failed item l).
Proof.
  unfold update_progress.
  match goal with |- context [if ?c then _ else _] => destruct c end;
    (split; [eexists; reflexivity|auto]).
Qed.

(** X9: parsing lines only appends to a journal: the events recorded before
    are still there, in the same order and unchanged, and the task id, the
    platform and the start time of the journal stay the same. *)
Theorem parser_only_appends_events (lines : list (Q * text)) (l : TaskLogger) :
  (exists new, events (feed lines l) = events l ++ new)
  /\ tl_task_id (feed lines l) = tl_task_id l
  /\ tl_platform (feed lines l) = tl_platform l
  /\ start_time (feed lines l) = start_time l.
Proof.
  apply (related_feed continues continues_refl continues_trans continues_log).
  intros. apply continues_update.
Qed.

Lemma sane_refl l : counts_sane l l.
Proof. repeat split; auto. Qed.

Lemma sane_trans a b c : counts_sane a b -> counts_sane b c -> counts_sane a c.
Proof.
  intros (F1 & I1 & T1 & C1) (F2 & I2 & T2 & C2). repeat split; try congruence; auto.
Qed.

Lemma sane_log now ty msg d err l : counts_sane l (log_event now ty msg d err l).
Proof. repeat split; auto. Qed.

Lemma sane_update now stage percent total completed l :
  from_option (Z.le 0) True total ->
  from_option (Z.le 0) True completed ->
  counts_sane l (update_progress now stage percent total completed None None l).
Proof.
  intros Ht Hc. unfold update_progress.
  match goal with |- context [if ?c then _ else _] => destruct c end;
    (split; [reflexivity|]; split; [reflexivity|]; split;
     cbn [progress log_event set_progress items_total items_completed assign_progress set_eta];
     [destruct total|destruct completed]; cbn in *; auto).
Qed.

(** X10: whatever lines are parsed, starting from a new journal, the snapshot
    never reports a failed item nor a current item, and its two other counts
    are never negative. *)
Theorem parser_counts_stay_sane (t0 : Q) (id platform : text) (lines : list (Q * text)) :
  let p := progress (feed lines (new_TaskLogger t0 id platform)) in
  items_failed p = 0
  /\ current_item p = None
  /\ 0 <= items_total p
  /\ 0 <= items_completed p.
Proof.
  destruct (related_feed counts_sane sane_refl sane_trans sane_log sane_update lines
              (new_TaskLogger t0 id platform)) as (F & I & T & C).
  cbv zeta. rewrite F, I. repeat split; [apply T|apply C]; cbn; lia.
Qed.

Lemma event_loop_no_match now line ty prefix ps l :
  misses line ps -> event_loop now line ty prefix ps l = (Ret false, l).
Proof.
  induction 1 as [|pat ps Hp _ IH]; cbn [event_loop]; [reflexivity|].
  rewrite Hp. exact IH.
Qed.

Lemma crawl_loop_no_match now line ps l :
  Forall (fun e => search (compiled (fst (fst e))) line = None) ps ->
  crawl_loop now line ps l = (Ret false, l).
Proof.
  induction 1 as [|[[pat stage] percent] ps Hp _ IH]; cbn [crawl_loop]; [reflexivity|].
  cbn in Hp. rewrite Hp. exact IH.
Qed.

Lemma save_loop_no_match now line ps l :
  Forall (fun e => search (compiled (fst (fst e))) line = None) ps ->
  save_loop now line ps l = (Ret false, l).
Proof.
  induction 1 as [|[[pat stage] percent] ps Hp _ IH]; cbn [save_loop]; [reflexivity|].
  cbn in Hp. rewrite Hp. exact IH.
Qed.

Lemma progress_loops_no_match now line l :
  misses line progress_patterns ->
  login_loop now line login_patterns l = (Ret false, l)
  /\ crawl_loop now line crawl_patterns l = (Ret false, l)
  /\ save_loop now line save_patterns l = (Ret false, l).
Proof.
  unfold misses, progress_patterns. rewrite !Forall_app, !Forall_fmap.
  intros (H1 & H2 & H3). split; [|split].
  - now apply login_loop_no_match.
  - now apply crawl_loop_no_match.
  - now apply save_loop_no_match.
Qed.

(** X11: a line in which none of the phrases of the parser occurs changes
    nothing: no event is recorded for it and the snapshot is as before. *)
Theorem unmatched_line_changes_nothing (now : Q) (line : text) (l : TaskLogger) :
  misses line progress_patterns ->
  misses line error_patterns ->
  misses line important_patterns ->
  _parse_progress_from_line now line l = (Ret tt, l).
Proof.
  intros Hp He Hi. destruct (progress_loops_no_match now line l Hp) as (E1 & E2 & E3).
  unfold _parse_progress_from_line, try_except.
  erewrite bind_ret_eq by exact E1. cbv beta iota.
  erewrite bind_ret_eq by exact E2. cbv beta iota.
  erewrite bind_ret_eq by exact E3. cbv beta iota.
  erewrite bind_ret_eq by (now apply event_loop_no_match). cbv beta iota.
  erewrite bind_ret_eq by (now apply event_loop_no_match). reflexivity.
Qed.

Lemma event_loop_match now line ty prefix ps l :
  Exists (fun p => search (compiled p) line <> None) ps ->
  event_loop now line ty prefix ps l
  = (Ret true, log_event now ty (txt (prefix ++ line)) None None l).
Proof.
  induction ps as [|pat ps IH]; intros H; [now apply Exists_nil in H|].
  cbn [event_loop]. destruct (search (compiled pat) line) eqn:E; [reflexivity|].
  apply IH. apply Exists_cons in H as [H|H]; [congruence|exact H].
Qed.

(** X12: a line that holds one of the error phrases and none of the login,
    crawl and save phrases adds exactly one event to the journal, of type
    [CRAWLER_ERROR], whose message is the line behind a fixed prefix; the
    snapshot is not changed. *)
Theorem error_line_is_journalled (now : Q) (line : text) (l : TaskLogger) :
  misses line progress_patterns ->
  Exists (fun p => search (compiled p) line <> None) error_patterns ->
  _parse_progress_from_line now line l
  = (Ret tt,
     log_event now CRAWLER_ERROR (txt (u "MediaCrawler报告错误: " ++ line)) None None l).
Proof.
  intros Hp He. destruct (progress_loops_no_match now line l Hp) as (E1 & E2 & E3).
  unfold _parse_progress_from_line, try_except.
  erewrite bind_ret_eq by exact E1. cbv beta iota.
  erewrite bind_ret_eq by exact E2. cbv beta iota.
  erewrite bind_ret_eq by exact E3. cbv beta iota.
  erewrite bind_ret_eq by (now apply event_loop_match). reflexivity.
Qed.

Lemma update_keeps_counts now stage percent item l :
  let p := progress (update_progress now stage percent None None None item l) in
  items_total p = items_total (progress l)
  /\ items_completed p = items_completed (progress l)
  /\ items_failed p = items_failed (progress l).
Proof.
  unfold update_progress.
  match goal with |- context [if ?c then _ else _] => destruct c end; repeat split.
Qed.

(** X13: a line that holds the phrase [开始登录] puts the snapshot at stage
    [logging_in] and 20 percent whatever it was before, also when the percent
    was higher: the percent of a task can go down.  The counts are left as
    they were. *)
Theorem login_phrase_resets_progress (now : Q) (line : text) (l : TaskLogger)
    (gs : list text) :
  search (lit (u "开始登录")) line = Some gs ->
  let p := progress (snd (_parse_progress_from_line now line l)) in
  current_stage p = u "logging_in"
  /\ progress_percent p = 20%Q
  /\ items_total p = items_total (progress l)
  /\ items_completed p = items_completed (progress l)
  /\ items_failed p = items_failed (progress l).
Proof.
  intros H. unfold _parse_progress_from_line, try_except, login_patterns.
  cbn [login_loop compiled]. rewrite H.
  erewrite bind_ret_eq by (erewrite bind_ret_eq by reflexivity; reflexivity).
  cbv zeta. cbn [snd ret].
  split; [apply (update_progress_stage now 108 (u "ogging_in"))|].
  split; [apply update_progress_percent|]. apply update_keeps_counts.
Qed.

Lemma max_int_nonneg (ms : list (list text)) : forall n, max_int ms = Ret n -> 0 <= n.
Proof.
  induction ms as [|gs ms IH]; intros n; cbn [max_int]; [discriminate|].
  destruct (group_int gs 1) as [a|] eqn:Ea; [|discriminate].
  apply group_int_nonneg in Ea.
  destruct ms as [|gs' ms']; [intros [= <-]; exact Ea|].
  destruct (max_int (gs' :: ms')) as [b|]; [|discriminate].
  intros [= <-]. lia.
Qed.

Lemma count_loop_nonneg output ps : forall n, count_loop output ps = Ret n -> 0 <= n.
Proof.
  induction ps as [|pat ps IH]; intros n; cbn [count_loop].
  - intros [= <-]. lia.
  - destruct (findall _ _); [apply IH|apply max_int_nonneg].
Qed.

(** X14: the item count read from the output of a run is never negative, and
    it is 0 when none of the count phrases occurs. *)
Theorem data_count_is_never_negative (output : text) :
  0 <= _parse_data_count_from_output output
  /\ (Forall (fun p => findall (compiled p) output = []) count_patterns ->
      _parse_data_count_from_output output = 0).
Proof.
  unfold _parse_data_count_from_output. split.
  - destruct (count_loop _ _) eqn:E; [eapply count_loop_nonneg, E|lia].
  - intros H. assert (E : count_loop output count_patterns = Ret 0); [|now rewrite E].
    induction H as [|pat ps Hp _ IH]; cbn [count_loop]; [reflexivity|].
    rewrite Hp. exact IH.
Qed.


End Parsed.

(** ** Cookies on the command line *)

Section Command.

Lemma platform_string_not_empty (p : PlatformType) : _get_platform_string p <> [].
Proof. destruct p; discriminate. Qed.

(** The command: the fixed arguments, the cached cookies unless the task
    asks to clear them, the targets. *)
Lemma command_shape now (task : CrawlerTask) (w : State) :
  _build_crawler_command now task w
  = if clear_cookies_flag task
    then (Ret (base_command task ++ target_arguments task),
          set_cookies (snd (clear_cookies (Some (_get_platform_string (platform task)))
                              (cookies_manager w))) w)
    else (Ret (base_command task
               ++ cookie_arguments (load_cookies now (_get_platform_string (platform task)) 7
                                      (cookies_manager w))
               ++ target_arguments task), w).
Proof.
  unfold _build_crawler_command. erewrite bind_ret_eq by reflexivity.
  fold (base_command task).
  destruct (clear_cookies_flag task).
  - erewrite bind_ret_eq; [|erewrite bind_ret_eq by reflexivity; reflexivity].
    unfold ret, target_arguments. f_equal. f_equal.
    destruct (task_type task); repeat (destruct (nonempty _) || destruct (content_flag _)
      || destruct (creator_flag _)); rewrite ?app_nil_r; reflexivity.
  - destruct (load_cookies _ _ _ _) as [c|].
    + erewrite bind_ret_eq by reflexivity. unfold ret, target_arguments, cookie_arguments.
      f_equal. f_equal.
      destruct (task_type task); repeat (destruct (nonempty _) || destruct (content_flag _)
        || destruct (creator_flag _)); rewrite <- ?app_assoc, ?app_nil_r; reflexivity.
    + erewrite bind_ret_eq by reflexivity. unfold ret, target_arguments, cookie_arguments.
      f_equal. f_equal.
      destruct (task_type task); repeat (destruct (nonempty _) || destruct (content_flag _)
        || destruct (creator_flag _)); rewrite ?app_nil_r; reflexivity.
Qed.

(** X16: a task that asks to clear the cookies is launched without any: its
    command is the fixed arguments followed by the targets, and the cache
    entry of its platform is gone afterwards, so that nothing is loaded for it
    at any later time; the rest of the adapter is not touched. *)
Theorem clear_flag_drops_cached_cookies (now : Q) (task : CrawlerTask) (w : State) :
  clear_cookies_flag task = true ->
  read_only (cookies_manager w) = false ->
  exists w',
    _build_crawler_command now task w
    = (Ret (base_command task ++ target_arguments task), w')
    /\ (forall now' max_age_days,
          load_cookies now' (_get_platform_string (platform task)) max_age_days
            (cookies_manager w') = None)
    /\ running_tasks w' = running_tasks w
    /\ task_results w' = task_results w
    /\ task_loggers w' = task_loggers w.
Proof.
  intros Hflag Hrw. rewrite command_shape, Hflag. eexists. split; [reflexivity|].
  split; [|repeat split].
  intros now' max_age_days. cbn [cookies_manager set_cookies].
  destruct (clear_one_files (_get_platform_string (platform task)) (cookies_manager w)
              (platform_string_not_empty _) Hrw) as [_ Hfiles].
  apply load_absent. rewrite Hfiles. apply lookup_delete_eq.
Qed.

Lemma join_not_empty sep (x : text) (xs : list text) : x <> [] -> join sep (x :: xs) <> [].
Proof. destruct x; [congruence|]. destruct xs; discriminate. Qed.

Lemma cookie_pair_not_empty c s : cookie_pair c = Some s -> s <> [].
Proof.
  destruct c as [[n v]|]; [|discriminate]. intros [= <-].
  destruct n; discriminate.
Qed.

Lemma cookie_pairs_not_empty (cookies : list (option (text * text))) :
  Forall (fun s => s <> []) (omap cookie_pair cookies).
Proof.
  induction cookies as [|c cookies IH]; cbn [omap list_omap]; [constructor|].
  destruct (cookie_pair c) eqn:E; [constructor|]; eauto using cookie_pair_not_empty.
Qed.

(** X17: the cookies harvested from the newest cookie file of the crawler are
    handed to the next task of the same platform: when that file is a list
    with at least one named cookie, a command built within seven days, for a
    task that does not ask to clear the cookies, carries [--cookies] and the
    harvested string right after the fixed arguments. *)
Theorem harvested_cookies_reach_next_command (t0 now : Q) (f : Q * artifact)
    (rest : list (Q * artifact)) (cookies : list (option (text * text)))
    (s : text) (ss : list text) (tid : text) (task : CrawlerTask) (w : State) :
  read_only (cookies_manager w) = false ->
  snd (latest f rest) = ArtList cookies ->
  omap cookie_pair cookies = s :: ss ->
  clear_cookies_flag task = false ->
  int_of_float now - int_of_float t0 <= 86400 * 7 ->
  exists w1,
    _extract_and_save_cookies t0 (f :: rest) (platform task) tid w = (Ret tt, w1)
    /\ _build_crawler_command now task w1
       = (Ret (base_command task
               ++ [VStr (u "--cookies"); VStr (join (u "; ") (s :: ss))]
               ++ target_arguments task), w1).
Proof.
  intros Hrw Hart Hpairs Hflag Hage.
  unfold _extract_and_save_cookies. rewrite Hart.
  change (omap _ cookies) with (omap cookie_pair cookies). rewrite Hpairs.
  eexists. split; [reflexivity|].
  rewrite command_shape, Hflag. cbn [cookies_manager set_cookies].
  rewrite load_saved_fresh; [reflexivity|exact Hrw|exact Hage|].
  apply join_not_empty.
  pose proof (cookie_pairs_not_empty cookies) as Hall. rewrite Hpairs in Hall.
  now apply Forall_cons in Hall as [Hs _].
Qed.

(** X18: the cookie endpoints name a cache entry by the platform string of the
    request, the adapter by its own short name.  For douyin, bilibili,
    kuaishou and weibo the two differ, and cookies saved through the endpoint
    under the name that the task endpoint accepts never reach a command of
    that platform. *)
Theorem cookies_saved_under_api_name (t now : Q) (name blob : text) (tid : option text)
    (task : CrawlerTask) (w : State) :
  Api.PLATFORM_MAPPING name = Some (platform task) ->
  platform task <> XHS -> platform task <> TIEBA -> platform task <> ZHIHU ->
  let request :=
    {| Endpoints.save_platform := name; Endpoints.save_cookies_blob := blob;
       Endpoints.save_task_id := tid |} in
  name <> _get_platform_string (platform task)
  /\ fst (_build_crawler_command now task (snd (Endpoints.save_cookies t request w)))
     = fst (_build_crawler_command now task w).
Proof.
  intros Hmap Hx Ht Hz request.
  assert (Hne : name <> _get_platform_string (platform task)).
  { revert Hmap. unfold Api.PLATFORM_MAPPING.
    repeat (case_bool_decide;
      [intros [= E]; try congruence; rewrite <- E; subst name; vm_compute; discriminate|]).
    discriminate. }
  split; [exact Hne|].
  unfold Endpoints.save_cookies, Endpoints.raise_500, try_except.
  erewrite bind_ret_eq by reflexivity. subst request. cbn [Endpoints.save_platform
    Endpoints.save_cookies_blob Endpoints.save_task_id].
  destruct (save_cookies t name blob tid (cookies_manager w)) as [ok c] eqn:E.
  erewrite bind_ret_eq by reflexivity. cbn [snd ret].
  rewrite !command_shape.
  destruct (clear_cookies_flag task); [reflexivity|]. cbn [fst cookies_manager set_cookies].
  replace c with (snd (save_cookies t name blob tid (cookies_manager w))) by now rewrite E.
  rewrite load_after_save_other by congruence. reflexivity.
Qed.

End Command.

(** ** The quick search endpoints *)

Section Quick.


End Quick.

(** ** Maintenance: which results survive a clean-up *)

Section Cleanup.
Import Queries.

Lemma text_leb_total (a : text) : forall b, text_leb a b = true \/ text_leb b a = true.
Proof.
  induction a as [|x a IH]; intros [|y b]; cbn [text_leb]; auto.
  destruct (Z.lt_trichotomy x y) as [H|[H|H]].
  - left. apply orb_true_iff. left. now apply Z.ltb_lt.
  - subst y. destruct (IH b) as [E|E]; [left|right];
      apply orb_true_iff; right; rewrite Z.eqb_refl; exact E.
  - right. apply orb_true_iff. left. now apply Z.ltb_lt.
Qed.

Lemma text_leb_trans (a : text) : forall b c,
  text_leb a b = true -> text_leb b c = true -> text_leb a c = true.
Proof.
  induction a as [|x a IH]; intros [|y b] [|z c]; cbn [text_leb]; try discriminate; auto.
  rewrite !orb_true_iff, !andb_true_iff, !Z.ltb_lt, !Z.eqb_eq.
  intros [H1|[H1 E1]] [H2|[H2 E2]]; subst; eauto; left; lia.
Qed.

Lemma text_leb_antisym (a : text) : forall b,
  text_leb a b = true -> text_leb b a = true -> a = b.
Proof.
  induction a as [|x a IH]; intros [|y b]; cbn [text_leb]; try discriminate; auto.
  rewrite !orb_true_iff, !andb_true_iff, !Z.ltb_lt, !Z.eqb_eq.
  intros [H1|[H1 E1]] [H2|[H2 E2]]; try lia. subst. f_equal. now apply IH.
Qed.

Lemma text_le_total : Total text_le.
Proof. intros a b. apply text_leb_total. Qed.

Lemma text_le_trans : Transitive text_le.
Proof. intros a b c. apply text_leb_trans. Qed.

Lemma cleanup_logger_effect now key (w : State) :
  exists w', LoggingManager.cleanup_task_logger now key w = (Ret tt, w')
    /\ running_tasks w' = running_tasks w
    /\ task_results w' = task_results w
    /\ cookies_manager w' = cookies_manager w
    /\ dom (task_loggers w') = dom (task_loggers w).
Proof.
  unfold LoggingManager.cleanup_task_logger. erewrite bind_ret_eq by reflexivity.
  destruct (task_loggers w !! key) as [l|] eqn:E.
  - eexists. split; [reflexivity|].
    cbn [running_tasks task_results cookies_manager task_loggers set_loggers].
    repeat split. apply dom_insert_lookup_L. rewrite E. eauto.
  - eexists. split; [reflexivity|]. repeat split.
Qed.

Lemma remove_tasks_effect now (ids : list text) : forall w : State,
  exists w', remove_tasks now ids w = (Ret tt, w')
    /\ running_tasks w' = running_tasks w
    /\ cookies_manager w' = cookies_manager w
    /\ dom (task_loggers w') = dom (task_loggers w)
    /\ (forall k, task_results w' !! k
                  = if decide (k ∈ ids) then None else task_results w !! k)
    /\ (NoDup ids -> (forall k, k ∈ ids -> is_Some (task_results w !! k)) ->
        (size (task_results w') + length ids = size (task_results w))%nat).
Proof.
  induction ids as [|id ids IH]; intros w; cbn [remove_tasks].
  - eexists. split; [reflexivity|]. repeat split. cbn. lia.
  - erewrite bind_ret_eq by reflexivity.
    destruct (cleanup_logger_effect now id (set_results (delete id) w))
      as (w1 & E1 & R1 & T1 & C1 & L1).
    erewrite bind_ret_eq by exact E1.
    destruct (IH w1) as (w' & E & R & C & L & T & S).
    exists w'. split; [exact E|]. rewrite R, C, L, R1, C1, L1.
    split; [reflexivity|]. split; [reflexivity|]. split; [reflexivity|]. split.
    + intros k. rewrite T, T1. cbn [task_results set_results].
      destruct (decide (k ∈ ids)) as [H|H].
      * rewrite decide_True by (apply elem_of_cons; auto). reflexivity.
      * destruct (decide (k = id)) as [->|Hne].
        -- rewrite decide_True by (apply elem_of_cons; auto). apply lookup_delete_eq.
        -- rewrite decide_False by (rewrite elem_of_cons; tauto).
           now apply lookup_delete_ne.
    + intros Hnd Hin. apply NoDup_cons in Hnd as [Hnot Hnd].
      assert (Hid : is_Some (task_results w !! id)) by (apply Hin, elem_of_cons; auto).
      assert (Hin' : forall k, k ∈ ids -> is_Some (task_results w1 !! k)).
      { intros k Hk. rewrite T1. cbn [task_results set_results].
        rewrite lookup_delete_ne by (intros ->; contradiction).
        apply Hin, elem_of_cons. auto. }
      specialize (S Hnd Hin'). rewrite T1 in S. cbn [task_results set_results] in S.
      rewrite map_size_delete_Some in S by exact Hid.
      assert (0 < size (task_results w))%nat.
      { destruct Hid as [v Hv]. destruct (size (task_results w)) eqn:Z0; [|lia].
        apply map_size_empty_inv in Z0. rewrite Z0 in Hv. now rewrite lookup_empty in Hv. }
      cbn [length]. lia.
Qed.

Lemma sorted_tasks_spec (results : gmap text stored_result) :
  StronglySorted text_le (sorted_tasks results)
  /\ NoDup (sorted_tasks results)
  /\ length (sorted_tasks results) = size results
  /\ forall k, k ∈ sorted_tasks results <-> is_Some (results !! k).
Proof.
  unfold sorted_tasks.
  assert (P : merge_sort text_le (map fst (map_to_list results))
              ≡ₚ map fst (map_to_list results)) by apply merge_sort_Permutation.
  split; [apply StronglySorted_merge_sort; [exact text_le_trans|exact text_le_total]|].
  split; [rewrite P; apply NoDup_fst_map_to_list|].
  split; [rewrite P, length_map; apply length_map_to_list|].
  intros k. rewrite P. split.
  - intros H. apply list_elem_of_fmap in H as ([k' v] & -> & H).
    apply elem_of_map_to_list in H. cbn. eauto.
  - intros [v H]. apply list_elem_of_fmap. exists (k, v). split; [reflexivity|].
    now apply elem_of_map_to_list.
Qed.

(** X20: a clean-up leaves at most 100 results.  It removes nothing when there
    are no more than 100; otherwise exactly the 100 results whose ids are
    greatest in the order of strings are kept, each unchanged, and every id
    that is removed is below every id that is kept.  The running tasks are not
    touched and no journal is dropped. *)
Theorem cleanup_keeps_greatest_ids (now : Q) (w : State) :
  exists c w',
    cleanup_completed_tasks now w = (Ret c, w')
    /\ size (task_results w') = Nat.min (size (task_results w)) 100
    /\ remaining_tasks c = Z.of_nat (size (task_results w'))
    /\ cleaned_tasks c
       = Z.of_nat (size (task_results w)) - Z.of_nat (size (task_results w'))
    /\ (forall k r, task_results w' !! k = Some r -> task_results w !! k = Some r)
    /\ (forall gone kept,
          is_Some (task_results w !! gone) -> task_results w' !! gone = None ->
          is_Some (task_results w' !! kept) ->
          text_le gone kept /\ gone <> kept)
    /\ running_tasks w' = running_tasks w
    /\ dom (task_loggers w') = dom (task_loggers w).
Proof.
  unfold cleanup_completed_tasks. erewrite bind_ret_eq by reflexivity. cbv zeta.
  destruct (100 <? size (task_results w))%nat eqn:Hbig.
  - apply Nat.ltb_lt in Hbig.
    destruct (sorted_tasks_spec (task_results w)) as (Hsort & Hnd & Hlen & Hin).
    set (n := (size (task_results w) - 100)%nat) in *.
    set (l := sorted_tasks (task_results w)) in *.
    destruct (remove_tasks_effect now (take n l) w) as (w' & E & R & C & L & T & S).
    erewrite bind_ret_eq by exact E. erewrite bind_ret_eq by reflexivity.
    assert (Hsize : size (task_results w') = 100%nat).
    { specialize (S (sublist_NoDup _ _ Hnd (sublist_take _ _))). rewrite length_take in S.
      assert (forall k, k ∈ take n l -> is_Some (task_results w !! k)) as Hk.
      { intros k Hk. apply Hin. eapply elem_of_sublist; [exact Hk|apply sublist_take]. }
      specialize (S Hk). lia. }
    eexists. exists w'. split; [reflexivity|]. cbn [remaining_tasks cleaned_tasks].
    split; [lia|]. split; [reflexivity|]. split; [reflexivity|]. split; [|split].
    + intros k r. rewrite T. destruct (decide _); [discriminate|auto].
    + intros gone kept Hwas Hgone Hkept. rewrite T in Hgone, Hkept.
      destruct (decide (gone ∈ take n l)) as [Hg|Hg];
        [|rewrite Hgone in Hwas; destruct Hwas; discriminate].
      destruct (decide (kept ∈ take n l)) as [Hk|Hk]; [destruct Hkept; discriminate|].
      assert (Hk' : kept ∈ drop n l).
      { apply Hin in Hkept. rewrite <- (take_drop n l) in Hkept.
        apply elem_of_app in Hkept as [?|?]; [contradiction|assumption]. }
      split.
      * eapply (StronglySorted_app_1_elem_of text_le (take n l) (drop n l));
          [rewrite take_drop; exact Hsort|exact Hg|exact Hk'].
      * intros ->. contradiction.
    + split; [exact R|exact L].
  - apply Nat.ltb_ge in Hbig.
    erewrite bind_ret_eq by reflexivity. erewrite bind_ret_eq by reflexivity.
    eexists. exists w. split; [reflexivity|]. cbn [remaining_tasks cleaned_tasks].
    split; [lia|]. split; [reflexivity|]. split; [reflexivity|].
    split; [auto|]. split; [|split; reflexivity].
    intros gone kept [v Hv] Hgone _. rewrite Hgone in Hv. discriminate.
Qed.

End Cleanup.

(** ** Login flows *)

Section LoginFlows.
Import Login.

Lemma lookup_set_object ref f (m : LoginManager) :
  objects (set_object ref f m) !! ref = f <$> objects m !! ref.
Proof. cbn [objects set_object]. apply lookup_alter_eq. Qed.

Lemma lookup_set_object_ne ref ref' f (m : LoginManager) :
  ref <> ref' -> objects (set_object ref f m) !! ref' = objects m !! ref'.
Proof. intros H. cbn [objects set_object]. now apply lookup_alter_ne. Qed.

Lemma deref_ok ref (m : LoginManager) s : objects m !! ref = Some s -> deref ref m = (Ret s, m).
Proof. intros H. unfold deref. erewrite bind_ret_eq by reflexivity. now rewrite H. Qed.

(** Marking the session and answering the same status. *)
Lemma mark_settles ref allowed (m0 m : LoginManager) s st msg id d input :
  objects m !! ref = Some s ->
  sessions m = sessions m0 ->
  st ∈ allowed ->
  settles ref allowed m0 ((mark ref st msg ;; ret (response id st msg d input)) m).
Proof.
  intros H Hs Hin. unfold mark. erewrite bind_ret_eq by reflexivity.
  eexists _, _. cbn [fst snd ret]. split; [reflexivity|].
  split; [rewrite lookup_set_object, H; reflexivity|].
  split; [reflexivity|]. split; [exact Hin|exact Hs].
Qed.

Lemma cookie_login_settles ref (m : LoginManager) s :
  objects m !! ref = Some s -> settles ref [SUCCESS] m (_handle_cookie_login ref m).
Proof.
  intros H. unfold _handle_cookie_login.
  erewrite bind_ret_eq by (apply deref_ok, H).
  unfold mark at 1. erewrite bind_ret_eq by reflexivity.
  eapply mark_settles; [rewrite lookup_set_object, H; reflexivity|reflexivity|].
  repeat constructor.
Qed.

Lemma qrcode_login_settles drv ref (m : LoginManager) s :
  objects m !! ref = Some s ->
  not_cancelled (navigate_error drv) ->
  settles ref [QRCODE_GENERATED; FAILED] m (_handle_qrcode_login drv ref m).
Proof.
  intros H Hnav. unfold _handle_qrcode_login.
  erewrite bind_ret_eq by (apply deref_ok, H).
  unfold mark at 1. erewrite bind_ret_eq by reflexivity. unfold try_except.
  set (m1 := set_object ref _ m).
  assert (H1 : objects m1 !! ref = Some (update_status PENDING (u "准备打开登录页面") None s)).
  { subst m1. now rewrite lookup_set_object, H. }
  destruct (bool_decide (platform s = u "xhs")); [destruct (navigate_error drv) as [e|]|].
  - erewrite bind_raise_eq by reflexivity. unfold not_cancelled in Hnav. cbn in Hnav.
    rewrite Hnav. eapply mark_settles; [exact H1|reflexivity|repeat constructor].
  - erewrite bind_ret_eq by reflexivity. unfold mark. erewrite bind_ret_eq by reflexivity.
    erewrite bind_ret_eq by reflexivity.
    eexists _, _. cbn [fst snd ret]. split; [reflexivity|].
    split; [cbn [objects]; rewrite lookup_set_object, H1; reflexivity|].
    split; [reflexivity|]. split; [repeat constructor|reflexivity].
  - erewrite bind_ret_eq by reflexivity. unfold mark. erewrite bind_ret_eq by reflexivity.
    erewrite bind_ret_eq by reflexivity.
    eexists _, _. cbn [fst snd ret]. split; [reflexivity|].
    split; [cbn [objects]; rewrite lookup_set_object, H1; reflexivity|].
    split; [reflexivity|]. split; [repeat constructor|reflexivity].
Qed.

Lemma phone_login_settles drv ref (m : LoginManager) s :
  objects m !! ref = Some s ->
  not_cancelled (navigate_error drv) ->
  not_cancelled (switch_error drv) ->
  settles ref [PHONE_INPUT_REQUIRED; FAILED] m (_handle_phone_login drv ref m).
Proof.
  intros H Hnav Hsw. unfold _handle_phone_login.
  erewrite bind_ret_eq by (apply deref_ok, H).
  unfold mark at 1. erewrite bind_ret_eq by reflexivity. unfold try_except.
  set (m1 := set_object ref _ m).
  assert (H1 : objects m1 !! ref = Some (update_status PENDING (u "开始手机号登录") None s)).
  { subst m1. now rewrite lookup_set_object, H. }
  unfold not_cancelled in Hnav, Hsw.
  destruct (bool_decide (platform s = u "xhs")).
  - destruct (navigate_error drv) as [e|]; cbn in Hnav.
    + erewrite bind_raise_eq by reflexivity.
      rewrite Hnav. eapply mark_settles; [exact H1|reflexivity|repeat constructor].
    + destruct (switch_error drv) as [e|]; cbn in Hsw.
      * erewrite bind_raise_eq by reflexivity.
        rewrite Hsw. eapply mark_settles; [exact H1|reflexivity|repeat constructor].
      * erewrite bind_ret_eq by reflexivity. unfold mark.
        erewrite bind_ret_eq by reflexivity.
        eexists _, _. cbn [fst snd ret]. split; [reflexivity|].
        split; [rewrite lookup_set_object, H1; reflexivity|].
        split; [reflexivity|]. split; [repeat constructor|reflexivity].
  - erewrite bind_ret_eq by reflexivity. unfold mark.
    erewrite bind_ret_eq by reflexivity.
    eexists _, _. cbn [fst snd ret]. split; [reflexivity|].
    split; [rewrite lookup_set_object, H1; reflexivity|].
    split; [reflexivity|]. split; [repeat constructor|reflexivity].
Qed.

Lemma settles_weaken ref allowed allowed' m out :
  (forall st, st ∈ allowed -> st ∈ allowed') ->
  settles ref allowed m out -> settles ref allowed' m out.
Proof.
  intros Hsub (r & s' & H1 & H2 & H3 & H4 & H5). exists r, s'. repeat split; auto.
Qed.

Lemma settles_from ref allowed (m m0 : LoginManager) out :
  sessions m = sessions m0 -> settles ref allowed m out -> settles ref allowed m0 out.
Proof.
  intros E (r & s' & H1 & H2 & H3 & H4 & H5). exists r, s'. repeat split; auto. congruence.
Qed.

(** X21: whatever the login type and whatever the driver answers, the status
    that [start_login_process] reports is the one it has stored in the
    session, and it is one of [success], [qrcode_generated],
    [phone_input_required] and [failed]; the table of sessions is not changed.
    *)
Theorem start_reports_stored_status (drv : Driver) (id : text) (m : LoginManager)
    (ref : nat) (s : LoginSession) :
  sessions m !! id = Some ref ->
  objects m !! ref = Some s ->
  not_cancelled (init_error drv) ->
  not_cancelled (navigate_error drv) ->
  not_cancelled (switch_error drv) ->
  settles ref [SUCCESS; QRCODE_GENERATED; PHONE_INPUT_REQUIRED; FAILED] m
    (start_login_process drv id m).
Proof.
  intros Hid Href Hinit Hnav Hsw. unfold start_login_process.
  erewrite bind_ret_eq by reflexivity. unfold get_login_session. rewrite Hid.
  erewrite bind_ret_eq by reflexivity. unfold try_except.
  set (m1 := set_object ref set_adapter m).
  assert (H1 : objects m1 !! ref = Some (set_adapter s)).
  { subst m1. now rewrite lookup_set_object, Href. }
  unfold not_cancelled in Hinit. destruct (init_error drv) as [e|]; cbn in Hinit.
  - erewrite bind_raise_eq by reflexivity. rewrite Hinit.
    eapply mark_settles; [exact H1|reflexivity|repeat constructor].
  - erewrite bind_ret_eq by reflexivity. erewrite bind_ret_eq by reflexivity.
    set (m2 := set_object ref (set_handles true) m1).
    assert (H2 : objects m2 !! ref = Some (set_handles true (set_adapter s))).
    { subst m2. now rewrite lookup_set_object, H1. }
    erewrite bind_ret_eq by (apply deref_ok, H2).
    cbn [login_type set_handles set_adapter].
    assert (Hh : settles ref [SUCCESS; QRCODE_GENERATED; PHONE_INPUT_REQUIRED; FAILED] m
                   (match login_type s with
                    | COOKIE => _handle_cookie_login ref
                    | QRCODE => _handle_qrcode_login drv ref
                    | PHONE => _handle_phone_login drv ref
                    end m2)).
    { apply (settles_from _ _ m2); [reflexivity|]. destruct (login_type s).
      - eapply settles_weaken; [|eapply cookie_login_settles, H2].
        intros st Hst. apply list_elem_of_singleton in Hst as ->. repeat constructor.
      - eapply settles_weaken; [|eapply qrcode_login_settles; [exact H2|exact Hnav]].
        intros st Hst. apply elem_of_cons in Hst as [->|Hst]; [repeat constructor|].
        apply list_elem_of_singleton in Hst as ->. repeat constructor.
      - eapply settles_weaken; [|eapply phone_login_settles; [exact H2|exact Hnav|exact Hsw]].
        intros st Hst. apply elem_of_cons in Hst as [->|Hst]; [repeat constructor|].
        apply list_elem_of_singleton in Hst as ->. repeat constructor. }
    destruct Hh as (r & s' & E & Hrest).
    match type of E with (?x).1 = _ => destruct x as [res m3] end.
    cbn [fst snd] in *. subst res. exists r, s'. split; [reflexivity|exact Hrest].
Qed.

End LoginFlows.

Section Inputs.
Import Login.

(** X22: on a platform other than xhs the steps of the driver do nothing: a
    phone number moves the session to [verification_code_required] whatever
    its status and login type were, and a verification code always ends in
    [failed]. *)
Theorem inputs_off_xhs (drv : LoginInputs.InputDriver) (id value : text)
    (m : LoginManager) (ref : nat) (s : LoginSession) :
  sessions m !! id = Some ref ->
  objects m !! ref = Some s ->
  platform s <> u "xhs" ->
  settles ref [VERIFICATION_CODE_REQUIRED] m
    (LoginInputs.handle_login_input drv id
       {| LoginInputs.input_task_id := id; LoginInputs.input_type := u "phone";
          LoginInputs.input_value := value |} m)
  /\ settles ref [FAILED] m
       (LoginInputs.handle_login_input drv id
          {| LoginInputs.input_task_id := id;
             LoginInputs.input_type := u "verification_code";
             LoginInputs.input_value := value |} m).
Proof.
  intros Hid Href Hp. unfold LoginInputs.handle_login_input. split.
  - erewrite bind_ret_eq by reflexivity. unfold get_login_session. rewrite Hid.
    cbn [LoginInputs.input_type]. rewrite bool_decide_eq_true_2 by reflexivity.
    unfold try_except, LoginInputs._handle_phone_input.
    erewrite bind_ret_eq by (apply deref_ok, Href). unfold try_except, LoginInputs.step.
    rewrite bool_decide_eq_false_2 by exact Hp.
    erewrite bind_ret_eq by reflexivity. erewrite bind_ret_eq by reflexivity.
    pose proof (mark_settles ref [VERIFICATION_CODE_REQUIRED] m m s
                  VERIFICATION_CODE_REQUIRED (u "验证码已发送，请输入") (task_id s) None
                  (Some [(u "type", VStr (u "verification_code"));
                         (u "placeholder", VStr (u "请输入验证码"))])
                  Href eq_refl ltac:(repeat constructor)) as (r & s' & E & Hrest).
    match type of E with (?x).1 = _ => destruct x as [res m2] end.
    cbn [fst snd] in *. subst res. exists r, s'. split; [reflexivity|exact Hrest].
  - erewrite bind_ret_eq by reflexivity. unfold get_login_session. rewrite Hid.
    cbn [LoginInputs.input_type].
    rewrite bool_decide_eq_false_2 by (vm_compute; discriminate).
    rewrite bool_decide_eq_true_2 by reflexivity.
    unfold try_except, LoginInputs._handle_verification_code_input.
    erewrite bind_ret_eq by (apply deref_ok, Href).
    unfold try_except, LoginInputs.step, LoginInputs._wait_for_login_success.
    rewrite bool_decide_eq_false_2 by exact Hp.
    erewrite bind_ret_eq by reflexivity. erewrite bind_ret_eq by reflexivity.
    erewrite bind_ret_eq by reflexivity.
    pose proof (mark_settles ref [FAILED] m m s FAILED (u "登录失败，请检查验证码")
                  (task_id s) None None Href eq_refl ltac:(repeat constructor))
      as (r & s' & E & Hrest).
    match type of E with (?x).1 = _ => destruct x as [res m2] end.
    cbn [fst snd] in *. subst res. exists r, s'. split; [reflexivity|exact Hrest].
Qed.

(** X23: an input of a type other than [phone] and [verification_code] is
    answered [failed] without the session being touched: the status that is
    stored is not the one that is reported, unless it was [failed] already. *)
Theorem unsupported_input_keeps_status (drv : LoginInputs.InputDriver) (id : text)
    (input : LoginInputs.LoginInput) (m : LoginManager) (ref : nat) :
  sessions m !! id = Some ref ->
  LoginInputs.input_type input <> u "phone" ->
  LoginInputs.input_type input <> u "verification_code" ->
  LoginInputs.handle_login_input drv id input m
  = (Ret (response id FAILED (u "不支持的输入类型: " ++ LoginInputs.input_type input)
            None None), m).
Proof.
  intros Hid Hp Hc. unfold LoginInputs.handle_login_input.
  erewrite bind_ret_eq by reflexivity. unfold get_login_session. rewrite Hid.
  rewrite !bool_decide_eq_false_2 by assumption. reflexivity.
Qed.

End Inputs.

Section StoredCookies.
Import Login.




End StoredCookies.

Section StatusReads.
Import Login.

(** X26: a status read up to the deadline, the deadline included, changes
    nothing and reports the status that is stored. *)
Theorem status_read_before_deadline (now : Q) (id : text) (m : LoginManager)
    (ref : nat) (s : LoginSession) :
  sessions m !! id = Some ref ->
  objects m !! ref = Some s ->
  (now - start_time s <= inject_Z (timeout s))%Q ->
  get_login_status now id m
  = ({| resp_task_id := id; resp_status := status s;
        resp_message := u "当前状态: " ++ status_value (status s);
        resp_data := Some (data s); qrcode_image := None; input_required := None |}, m).
Proof.
  intros Hid Href Hle. unfold get_login_status, get_login_session, is_expired.
  rewrite Hid, Href. apply Qle_bool_iff in Hle. rewrite Hle. cbn [negb].
  now rewrite Href.
Qed.

(** X27: the status endpoint sets [success] to false for the status [failed]
    only: a session whose deadline has passed is answered with [success] true
    and the status [timeout], and an unknown task id is answered, without any
    error status, with [success] false and the status [failed]. *)
Theorem timed_out_session_reads_as_success (now : Q) (id : text) (m : LoginManager)
    (ref : nat) (s : LoginSession) :
  sessions m !! id = Some ref ->
  objects m !! ref = Some s ->
  is_expired now s = true ->
  (exists r m',
     Endpoints.get_login_status now id m = (Ret r, m')
     /\ Endpoints.ls_success r = true
     /\ Endpoints.ls_status r = u "timeout")
  /\ (forall other, sessions m !! other = None ->
      exists r,
        Endpoints.get_login_status now other m = (Ret r, m)
        /\ Endpoints.ls_success r = false
        /\ Endpoints.ls_status r = u "failed").
Proof.
  intros Hid Href Hexp. unfold Endpoints.get_login_status, Endpoints.raise_500, try_except.
  split.
  - erewrite bind_ret_eq by reflexivity.
    unfold get_login_status, get_login_session. rewrite Hid, Href, Hexp.
    rewrite lookup_set_object, Href. cbn [fmap option_fmap option_map].
    erewrite bind_ret_eq by reflexivity.
    eexists _, _. split; [reflexivity|]. split; reflexivity.
  - intros other Hnone. erewrite bind_ret_eq by reflexivity.
    unfold get_login_status, get_login_session. rewrite Hnone.
    erewrite bind_ret_eq by reflexivity.
    eexists. split; [reflexivity|]. split; reflexivity.
Qed.

(** X28: deleting the session of a task frees its id: the endpoint that
    creates sessions, which refuses a second session for the id, accepts the
    request again and registers a new object, while the object of the deleted
    session stays in the store. *)
Theorem deleted_session_can_be_recreated (now : Q)
    (request : Api.CreateLoginSessionRequest) (lt : LoginType) (m : LoginManager)
    (ref : nat) (s : LoginSession) :
  sessions m !! Api.req_task_id request = Some ref ->
  objects m !! ref = Some s ->
  LoginType_of (Api.req_login_type request) = Some lt ->
  exists m1 a m2 new,
    Endpoints.delete_login_session (Api.req_task_id request) m = (Ret tt, m1)
    /\ sessions m1 !! Api.req_task_id request = None
    /\ Api.create_login_session now request m1 = (Ret a, m2)
    /\ Api.created_success a = true
    /\ sessions m2 !! Api.req_task_id request = Some new
    /\ new <> ref
    /\ is_Some (objects m2 !! ref).
Proof.
  intros Hid Href Hlt.
  set (m1 := remove_login_session (Api.req_task_id request) m).
  assert (Hs1 : sessions m1 !! Api.req_task_id request = None).
  { subst m1. unfold remove_login_session. rewrite Hid. cbn [sessions].
    apply lookup_delete_eq. }
  assert (Ho1 : is_Some (objects m1 !! ref)).
  { subst m1. unfold remove_login_session. rewrite Hid. cbn [objects].
    rewrite lookup_set_object, Href. eauto. }
  assert (Hfresh : fresh (dom (objects m1)) <> ref).
  { intros E. apply (is_fresh (dom (objects m1))). rewrite E. now apply elem_of_dom. }
  exists m1.
  assert (Hdel : Endpoints.delete_login_session (Api.req_task_id request) m = (Ret tt, m1)).
  { unfold Endpoints.delete_login_session, Api.reraise_500.
    erewrite bind_ret_eq by reflexivity. unfold get_login_session. now rewrite Hid. }
  unfold Api.create_login_session, try_except. rewrite Hlt.
  erewrite bind_ret_eq by reflexivity. erewrite bind_ret_eq by reflexivity.
  unfold get_login_session. rewrite Hs1. unfold create_login_session.
  erewrite bind_ret_eq by reflexivity.
  destruct lt; destruct (Api.req_cookies request) as [[|c cs]|];
    (erewrite bind_ret_eq by reflexivity;
     eexists _, _, (fresh (dom (objects m1)));
     split; [exact Hdel|]; split; [reflexivity|]; split; [reflexivity|];
     split; [reflexivity|]; cbn [sessions objects set_object];
     split; [apply lookup_insert_eq|]; split; [exact Hfresh|];
     rewrite ?lookup_alter_ne by exact Hfresh;
     rewrite lookup_insert_ne by exact Hfresh; exact Ho1).
Qed.

End StatusReads.

(** ** The monitor of a login in the browser *)

Section Detection.
Import Login.
#[local] Open Scope Q_scope.

Variables (jar : Browser) (guest member : list cookie) (ref : nat) (start change : Q).
Variables (m : LoginManager) (s : LoginSession) (c : Z) (v : text).
Hypothesis before : forall t, t < change -> jar t = Ret guest.
Hypothesis after : forall t, change <= t -> jar t = Ret member.
Hypothesis held : objects m !! ref = Some s.
Hypothesis listed : sessions m !! task_id s = Some ref.
Hypothesis page_open : page s = true.
Hypothesis context_open : browser_context s = true.
Hypothesis waiting : is_terminal (status s) = false.
Hypothesis marker : web_session member = Some (c :: v).
Hypothesis changed : web_session guest <> Some (c :: v).






End Detection.

Section Settled.
Import Login.

(** X30: the monitor of a session that is already in [SUCCESS] or [FAILED]
    stops at its first poll and changes nothing, as long as the browser of the
    session answers. *)
Theorem monitor_leaves_settled_session (jar : Browser) (cs : list cookie) (ref : nat)
    (start : Q) (fuel : nat) (m : LoginManager) (s : LoginSession) :
  jar start = Ret cs ->
  objects m !! ref = Some s ->
  browser_context s = true ->
  status s = SUCCESS \/ status s = FAILED ->
  _monitor_client_login (S fuel) jar ref start m = (Ret (Some start), m).
Proof.
  intros Hjar Href Hctx Hst. unfold _monitor_client_login, try_except.
  assert (Er : read_cookies jar start ref m = (Ret cs, m)).
  { unfold read_cookies. erewrite bind_ret_eq by (apply deref_ok, Href).
    rewrite Hctx. unfold lift. now rewrite Hjar. }
  erewrite bind_ret_eq by exact Er.
  assert (El : monitor_loop (S fuel) jar ref 300 start start (web_session cs) m
               = (Ret (Some start), m)).
  { cbn [monitor_loop].
    assert (E : Qle_bool 300 (start - start) = false).
    { apply not_true_iff_false. rewrite Qle_bool_iff. lra. }
    rewrite E. erewrite bind_ret_eq by reflexivity.
    erewrite bind_ret_eq by (apply deref_ok, Href).
    destruct (bool_decide _); [reflexivity|].
    assert (Ht : is_terminal (status s) = true) by (destruct Hst as [-> | ->]; reflexivity).
    now rewrite Ht. }
  erewrite bind_ret_eq by exact El. cbv beta iota.
  erewrite bind_ret_eq by (apply deref_ok, Href).
  assert (Eb : bool_decide (status s = SUCCESS) || bool_decide (status s = FAILED) = true).
  { destruct Hst as [-> | ->]; reflexivity. }
  rewrite Eb. erewrite bind_ret_eq by reflexivity. reflexivity.
Qed.

End Settled.

(** ** Further theorems at concrete inputs *)

Section MoreConcrete.
#[local] Existing Instance ascii_tables.

Lemma task_events_window_witness :
  let recent := Queries.get_task_events (u "job-1") 1 started in
  (exists older, events started_journal = older ++ recent)
  /\ Z.of_nat (length recent) = 1
  /\ Endpoints.get_task_events (u "job-1") 1 started = (Ret (recent, 1), started).
Proof.
  apply (task_events_window (u "job-1") 1 started started_journal).
  vm_compute. reflexivity.
Defined.




Lemma stopped_task_reports_result_witness :
  exists w',
    stop_task (u "job-1") started = (Ret true, w')
    /\ Queries.get_task_status (u "job-1") w'
       = Ret {| Queries.st_task_id := u "job-1";
                Queries.st_status := u "completed";
                Queries.st_done := true;
                Queries.st_success := Some false;
                Queries.st_message := Some (u "任务已被手动停止");
                Queries.st_data_count := Some 0; Queries.st_error_count := Some 0;
                Queries.st_progress := LoggingManager.get_task_progress (u "job-1") started |}
    /\ Endpoints.get_task_result (u "job-1") w' = (Ret (stopped_result (u "job-1")), w')
    /\ Api.stop_task (u "job-1") w'
       = (Raise (HTTPException 404 (u "任务不存在或已完成")), w').
Proof.
  apply (stopped_task_reports_result (u "job-1") started). vm_compute. reflexivity.
Defined.


Lemma unmatched_line_changes_nothing_witness :
  _parse_progress_from_line 1 (u "hello") fresh_journal = (Ret tt, fresh_journal).
Proof.
  apply (unmatched_line_changes_nothing 1 (u "hello") fresh_journal);
    repeat constructor.
Defined.

Lemma error_line_is_journalled_witness :
  _parse_progress_from_line 1 (u "Error: boom") fresh_journal
  = (Ret tt,
     log_event 1 CRAWLER_ERROR (txt (u "MediaCrawler报告错误: " ++ u "Error: boom"))
       None None fresh_journal).
Proof.
  apply (error_line_is_journalled 1 (u "Error: boom") fresh_journal).
  - repeat constructor.
  - do 3 apply Exists_cons_tl. apply Exists_cons_hd. vm_compute. discriminate.
Defined.

Lemma login_phrase_resets_progress_witness :
  let done := snd (_parse_progress_from_line 1 (u "保存完成") fresh_journal) in
  let p := progress (snd (_parse_progress_from_line 2 (u "开始登录") done)) in
  progress_percent (progress done) = 100%Q
  /\ (current_stage p = u "logging_in"
      /\ progress_percent p = 20%Q
      /\ items_total p = items_total (progress done)
      /\ items_completed p = items_completed (progress done)
      /\ items_failed p = items_failed (progress done)).
Proof.
  split; [vm_compute; reflexivity|].
  apply (login_phrase_resets_progress 2 (u "开始登录")
           (snd (_parse_progress_from_line 1 (u "保存完成") fresh_journal)) []).
  vm_compute. reflexivity.
Defined.


Lemma clear_flag_drops_cached_cookies_witness :
  exists w',
    _build_crawler_command 1000 clearing_job w_stocked
    = (Ret (base_command clearing_job ++ target_arguments clearing_job), w')
    /\ (forall now' max_age_days,
          load_cookies now' (u "xhs") max_age_days (cookies_manager w') = None)
    /\ running_tasks w' = running_tasks w_stocked
    /\ task_results w' = task_results w_stocked
    /\ task_loggers w' = task_loggers w_stocked.
Proof.
  apply (clear_flag_drops_cached_cookies 1000 clearing_job w_stocked); reflexivity.
Defined.

Lemma harvested_cookies_reach_next_command_witness :
  exists w1,
    _extract_and_save_cookies 1000 [(5%Q, ArtList left_cookies)] XHS (u "job-0") w0
    = (Ret tt, w1)
    /\ _build_crawler_command 2000 job w1
       = (Ret (base_command job
               ++ [VStr (u "--cookies"); VStr (join (u "; ") [u "a=1"; u "b=2"])]
               ++ target_arguments job), w1).
Proof.
  apply (harvested_cookies_reach_next_command 1000 2000 (5%Q, ArtList left_cookies) []
           left_cookies (u "a=1") [u "b=2"] (u "job-0") job w0);
    try reflexivity.
  vm_compute. discriminate.
Defined.

Lemma cookies_saved_under_api_name_witness :
  let request :=
    {| Endpoints.save_platform := u "douyin"; Endpoints.save_cookies_blob := u "sid=9";
       Endpoints.save_task_id := None |} in
  u "douyin" <> u "dy"
  /\ fst (_build_crawler_command 1000 douyin_job (snd (Endpoints.save_cookies 1000 request w0)))
     = fst (_build_crawler_command 1000 douyin_job w0).
Proof.
  apply (cookies_saved_under_api_name 1000 1000 (u "douyin") (u "sid=9") None douyin_job w0);
    try discriminate.
  vm_compute. reflexivity.
Defined.

Lemma start_reports_stored_status_witness :
  settles 0 [Login.SUCCESS; Login.QRCODE_GENERATED; Login.PHONE_INPUT_REQUIRED; Login.FAILED]
    lm_created (Login.start_login_process driver (u "job-1") lm_created).
Proof.
  apply (start_reports_stored_status driver (u "job-1") lm_created 0 created_session);
    vm_compute; reflexivity.
Defined.

Lemma inputs_off_xhs_witness :
  settles 0 [Login.VERIFICATION_CODE_REQUIRED] lm_phone
    (LoginInputs.handle_login_input input_driver (u "job-2")
       {| LoginInputs.input_task_id := u "job-2"; LoginInputs.input_type := u "phone";
          LoginInputs.input_value := u "13800000000" |} lm_phone)
  /\ settles 0 [Login.FAILED] lm_phone
       (LoginInputs.handle_login_input input_driver (u "job-2")
          {| LoginInputs.input_task_id := u "job-2";
             LoginInputs.input_type := u "verification_code";
             LoginInputs.input_value := u "13800000000" |} lm_phone).
Proof.
  apply (inputs_off_xhs input_driver (u "job-2") (u "13800000000") lm_phone 0 phone_session);
    try (vm_compute; reflexivity).
  vm_compute. discriminate.
Defined.

Lemma unsupported_input_keeps_status_witness :
  LoginInputs.handle_login_input input_driver (u "job-2") email_input lm_phone
  = (Ret (Login.response (u "job-2") Login.FAILED
            (u "不支持的输入类型: " ++ LoginInputs.input_type email_input) None None),
     lm_phone).
Proof.
  apply (unsupported_input_keeps_status input_driver (u "job-2") email_input lm_phone 0);
    try (vm_compute; reflexivity); vm_compute; discriminate.
Defined.



Lemma status_read_before_deadline_witness :
  Login.get_login_status 60 (u "job-1") lm_waiting
  = ({| Login.resp_task_id := u "job-1"; Login.resp_status := Login.QRCODE_GENERATED;
        Login.resp_message := u "当前状态: " ++ u "qrcode_generated";
        Login.resp_data := Some []; Login.qrcode_image := None;
        Login.input_required := None |}, lm_waiting).
Proof.
  apply (status_read_before_deadline 60 (u "job-1") lm_waiting 0 waiting_session);
    try (vm_compute; reflexivity).
  vm_compute. discriminate.
Defined.

Lemma timed_out_session_reads_as_success_witness :
  (exists r m',
     Endpoints.get_login_status 61 (u "job-1") lm_waiting = (Ret r, m')
     /\ Endpoints.ls_success r = true
     /\ Endpoints.ls_status r = u "timeout")
  /\ (forall other, Login.sessions lm_waiting !! other = None ->
      exists r,
        Endpoints.get_login_status 61 other lm_waiting = (Ret r, lm_waiting)
        /\ Endpoints.ls_success r = false
        /\ Endpoints.ls_status r = u "failed").
Proof.
  apply (timed_out_session_reads_as_success 61 (u "job-1") lm_waiting 0 waiting_session);
    vm_compute; reflexivity.
Defined.

Lemma deleted_session_can_be_recreated_witness :
  exists m1 a m2 new,
    Endpoints.delete_login_session (u "job-1") lm_waiting = (Ret tt, m1)
    /\ Login.sessions m1 !! u "job-1" = None
    /\ Api.create_login_session 10 second_request m1 = (Ret a, m2)
    /\ Api.created_success a = true
    /\ Login.sessions m2 !! u "job-1" = Some new
    /\ new <> 0%nat
    /\ is_Some (Login.objects m2 !! 0%nat).
Proof.
  apply (deleted_session_can_be_recreated 10 second_request Login.PHONE lm_waiting 0
           waiting_session); vm_compute; reflexivity.
Defined.


Lemma monitor_leaves_settled_session_witness :
  Login._monitor_client_login 151 idle_browser 0 0 lm_done = (Ret (Some 0%Q), lm_done).
Proof.
  apply (monitor_leaves_settled_session idle_browser guest_cookies 0 0 150 lm_done
           done_session); try (vm_compute; reflexivity).
  left. reflexivity.
Defined.

End MoreConcrete.
